(** * python-for-devops: a shallow embedding of the day-02, day-03 and
      day-04 scripts

    The scripts are Python programs that talk to the network, the file
    system, the terminal and the clock.  They are embedded as functions in
    a state-and-exception monad over an explicit [world]:

    - Python [str] values are lists of Unicode code points ([list N]);
    - Python objects that travel through the scripts (JSON payloads,
      function arguments whose type is tested at run time) are [pyval];
    - exceptions are values of type [exn], with the class hierarchy that
      the [except] clauses consult given by [isinstance];
    - the network and the operating system are oracles stored in the
      world: they decide which call fails and with which exception
      derived from [Exception], the embedding records what the scripts do
      with each answer.  Signals that reach the process in the middle of
      a call are outside the model; Ctrl-C is modelled where the scripts
      handle it, at the prompts.

    Library behaviour that the repository does not contain (the Unicode
    character database, [str()] of an arbitrary object, the JSON
    serialiser, the formatting of a float) is a parameter, gathered in the
    class [Runtime]. *)

From Stdlib Require Import ZArith NArith QArith List String Ascii Bool Lia.
From stdpp Require Import gmap strings list fin_maps pretty.
Import ListNotations.

Local Open Scope string_scope.
Local Open Scope list_scope.
Set Warnings "-register-all,-clear-no-such-hyp".

(** ** Python strings *)

Module PyStr.

(** A [str] is a sequence of code points. *)
Abbreviation pystr := (list N).

(** An ASCII literal of the source as a [str]. *)
Definition lit (s : string) : pystr :=
  map N_of_ascii (list_ascii_of_string s).

Arguments lit : simpl never.

Definition str_eqb (a b : pystr) : bool := bool_decide (a = b).

(** [Py_UNICODE_ISSPACE]: the ASCII table [_Py_ascii_whitespace] and the
    code points for which [_PyUnicode_IsWhitespace] answers 1. *)
Definition Py_UNICODE_ISSPACE (c : N) : bool :=
  ((9 <=? c) && (c <=? 13) || (28 <=? c) && (c <=? 32)
   || (c =? 133) || (c =? 160) || (c =? 5760)
   || (8192 <=? c) && (c <=? 8202)
   || (c =? 8232) || (c =? 8233) || (c =? 8239) || (c =? 8287)
   || (c =? 12288))%N.

(** Dropping the leading characters that satisfy [p]. *)
Fixpoint lstrip_by (p : N -> bool) (s : pystr) : pystr :=
  match s with
  | [] => []
  | c :: t => if p c then lstrip_by p t else s
  end.

Definition rstrip_by (p : N -> bool) (s : pystr) : pystr :=
  rev (lstrip_by p (rev s)).

Definition lstrip : pystr -> pystr := lstrip_by Py_UNICODE_ISSPACE.
Definition rstrip : pystr -> pystr := rstrip_by Py_UNICODE_ISSPACE.

(** [s.strip()] *)
Definition strip (s : pystr) : pystr := rstrip (lstrip s).

Fixpoint startswith (p s : pystr) : bool :=
  match p, s with
  | [], _ => true
  | _ :: _, [] => false
  | a :: p', b :: s' => (a =? b)%N && startswith p' s'
  end.

(** [needle in hay] for two strings: substring search. *)
Fixpoint contains (needle hay : pystr) : bool :=
  startswith needle hay ||
  match hay with
  | [] => false
  | _ :: t => contains needle t
  end.

(** [s.rstrip('/')] *)
Definition rstrip_slash : pystr -> pystr :=
  rstrip_by (fun c => (c =? 47)%N).

(** [p.rfind('/') + 1]: the length of the prefix that ends at the last
    slash, 0 when there is none. *)
Fixpoint rfind_slash_plus1 (p : pystr) : nat :=
  match p with
  | [] => 0
  | c :: t =>
      match rfind_slash_plus1 t with
      | 0 => if (c =? 47)%N then 1 else 0
      | S k => S (S k)
      end
  end.

(** [posixpath.dirname] *)
Definition dirname (p : pystr) : pystr :=
  let head := take (rfind_slash_plus1 p) p in
  if negb (bool_decide (head = [])) &&
     negb (forallb (fun c => (c =? 47)%N) head)
  then rstrip_slash head else head.

(** [posixpath.split]: the head is [dirname], the tail what follows the
    last slash. *)
Definition path_split (p : pystr) : pystr * pystr :=
  (dirname p, drop (rfind_slash_plus1 p) p).

(** Decimal digits of a number, as [str(n)] prints an [int]. *)
Definition str_N (n : N) : pystr := lit (pretty n).
Definition str_nat (n : nat) : pystr := str_N (N.of_nat n).

Definition spaces (n : nat) : pystr := repeat 32%N n.

(** [f"{s:10}"]-style left alignment and [f"{n:4}"]-style right
    alignment, padding with spaces up to the width. *)
Definition ljust (w : nat) (s : pystr) : pystr :=
  s ++ spaces (w - length s).
Definition rjust (w : nat) (s : pystr) : pystr :=
  spaces (w - length s) ++ s.

(** [s.zfill(w)] for a string of digits. *)
Definition zfill (w : nat) (s : pystr) : pystr :=
  repeat 48%N (w - length s) ++ s.

(** [f"{n:,}"]: decimal digits grouped by three with commas; every group
    after the first has three digits. *)
Fixpoint group3 (fuel : nat) (n : N) : pystr :=
  match fuel with
  | 0 => str_N n
  | S fuel' =>
      if (n <? 1000)%N then str_N n
      else group3 fuel' (n / 1000)%N ++ lit "," ++
           zfill 3 (str_N (n mod 1000)%N)
  end.

Definition nl : pystr := [10%N].

(** [c * n] for a one-character string, as in ["=" * 60]. *)
Definition times (s : pystr) (n : nat) : pystr := concat (repeat s n).

(** Length of the UTF-8 encoding of a string. *)
Definition utf8_len (s : pystr) : N :=
  fold_right (fun c acc =>
    ((if c <? 128 then 1 else if c <? 2048 then 2
      else if c <? 65536 then 3 else 4) + acc)%N) 0%N s.

End PyStr.
Export PyStr.

(** ** Exceptions *)

Module PyExn.

(** The exception types, derived from [Exception], that the modelled
    calls can raise.  [ConnectTimeout] and [ReadTimeout] are the two
    concrete timeouts of requests; [RequestsJSONDecodeError] is what
    [Response.json] raises from requests 2.27 on, [JSONDecodeError] what
    it raised before (the [json] module's own class). *)
Inductive exn_type :=
| ConnectTimeout | ReadTimeout | ConnectionError | HTTPError
| OtherRequestException
| RequestsJSONDecodeError | JSONDecodeError
| TypeError | KeyError | ValueError | UnicodeDecodeError
| FileNotFoundError | PermissionError | OtherOSError
| EOFError | OtherException.

(** An exception object: one derived from [Exception], with its type
    and [str(error)], or one of the two that derive from [BaseException]
    only; [SystemExit] carries the exit status given to [sys.exit]. *)
Inductive exn :=
| Exc (t : exn_type) (msg : pystr)
| KeyboardInterrupt
| SystemExit (code : Z).

(** The classes named in the [except] clauses of the scripts. *)
Inductive exn_class :=
| C_Timeout | C_ConnectionError | C_HTTPError | C_RequestException
| C_JSONDecodeError | C_ValueError
| C_FileNotFoundError | C_PermissionError | C_OSError
| C_KeyboardInterrupt | C_EOFError | C_Exception.

(** The subclass relation of Python and of requests.
    [RequestException] derives from [IOError], that is [OSError]. *)
Definition subclass (t : exn_type) (c : exn_class) : bool :=
  match t, c with
  | _, C_Exception => true
  | (ConnectTimeout | ReadTimeout), C_Timeout => true
  | (ConnectTimeout | ConnectionError), C_ConnectionError => true
  | HTTPError, C_HTTPError => true
  | (ConnectTimeout | ReadTimeout | ConnectionError | HTTPError
     | OtherRequestException | RequestsJSONDecodeError),
    (C_RequestException | C_OSError) => true
  | (RequestsJSONDecodeError | JSONDecodeError),
    (C_JSONDecodeError | C_ValueError) => true
  | (ValueError | UnicodeDecodeError), C_ValueError => true
  | FileNotFoundError, (C_FileNotFoundError | C_OSError) => true
  | PermissionError, (C_PermissionError | C_OSError) => true
  | OtherOSError, C_OSError => true
  | EOFError, C_EOFError => true
  | _, _ => false
  end.

Definition isinstance (e : exn) (c : exn_class) : bool :=
  match e with
  | Exc t _ => subclass t c
  | KeyboardInterrupt =>
      match c with C_KeyboardInterrupt => true | _ => false end
  | SystemExit _ => false
  end.

(** [str(error)] *)
Definition str_exn (e : exn) : pystr :=
  match e with
  | Exc _ msg => msg
  | KeyboardInterrupt => []
  | SystemExit code => match code with Z0 => lit "0" | _ => lit "1" end
  end.

(** What a call does: it returns a value or raises. *)
Inductive outcome (A : Type) :=
| Return (a : A)
| Raise (e : exn).
Arguments Return {A} a.
Arguments Raise {A} e.

(** What the world answers to a call: a value, or a failure with the type
    and the text of the exception.  The network and the operating system
    fail with exceptions derived from [Exception]; they do not interrupt
    the run. *)
Inductive answer (A : Type) :=
| Ok (a : A)
| Fails (t : exn_type) (msg : pystr).
Arguments Ok {A} a.
Arguments Fails {A} t msg.

Definition as_outcome {A} (r : answer A) : outcome A :=
  match r with
  | Ok a => Return a
  | Fails t msg => Raise (Exc t msg)
  end.

End PyExn.
Export PyExn.

(** ** Python values *)

Module PyVal.

(** The objects [json.loads] builds, which are also the objects handed to
    the validators.  A [dict] keeps its items in insertion order; a
    [float] is kept as its binary64 bit pattern. *)
Inductive pyval :=
| PNone
| PBool (b : bool)
| PInt (z : Z)
| PFloat (bits : N)
| PStr (s : pystr)
| PList (l : list pyval)
| PDict (items : list (pystr * pyval)).

(** Truth value testing, as in [if stock_data:] and [not symbol]. *)
Definition truthy (v : pyval) : bool :=
  match v with
  | PNone => false
  | PBool b => b
  | PInt z => negb (z =? 0)%Z
  | PFloat bits => negb ((bits =? 0)%N || (bits =? 2 ^ 63)%N)
  | PStr s => negb (bool_decide (s = []))
  | PList l => match l with [] => false | _ => true end
  | PDict items => match items with [] => false | _ => true end
  end.

Definition type_name (v : pyval) : string :=
  match v with
  | PNone => "NoneType" | PBool _ => "bool" | PInt _ => "int"
  | PFloat _ => "float" | PStr _ => "str" | PList _ => "list"
  | PDict _ => "dict"
  end.

(** [key in container] for a string key: key membership in a dict,
    element equality in a list, substring in a str, [TypeError]
    otherwise. *)
Definition py_in (key : pystr) (v : pyval) : outcome bool :=
  match v with
  | PDict items => Return (existsb (fun kv => str_eqb (fst kv) key) items)
  | PList l =>
      Return (existsb (fun x => match x with
                                | PStr s => str_eqb s key
                                | _ => false
                                end) l)
  | PStr s => Return (contains key s)
  | _ => Raise (Exc TypeError
                  (lit "argument of type '" ++ lit (type_name v) ++
                   lit "' is not iterable"))
  end.

(** [container[key]] for a string key. *)
Definition py_getitem (v : pyval) (key : pystr) : outcome pyval :=
  match v with
  | PDict items =>
      match find (fun kv => str_eqb (fst kv) key) items with
      | Some kv => Return (snd kv)
      | None => Raise (Exc KeyError (lit "'" ++ key ++ lit "'"))
      end
  | PList _ =>
      Raise (Exc TypeError
               (lit "list indices must be integers or slices, not str"))
  | PStr _ =>
      Raise (Exc TypeError (lit "string indices must be integers"))
  | _ =>
      Raise (Exc TypeError
               (lit "'" ++ lit (type_name v) ++
                lit "' object is not subscriptable"))
  end.

(** Doing one step that may raise, then another with its result. *)
Definition and_then {A B} (o : outcome A) (k : A -> outcome B) : outcome B :=
  match o with
  | Return a => k a
  | Raise e => Raise e
  end.

(** The items that [for x in value] goes through: the elements of a
    list, the keys of a dict, the characters of a str; other values are
    not iterable. *)
Definition py_iter (v : pyval) : outcome (list pyval) :=
  match v with
  | PList l => Return l
  | PDict items => Return (map (fun kv => PStr (fst kv)) items)
  | PStr s => Return (map (fun c => PStr [c]) s)
  | _ => Raise (Exc TypeError
                  (lit "'" ++ lit (type_name v) ++
                   lit "' object is not iterable"))
  end.

(** [isinstance(value, str)] *)
Definition is_str (v : pyval) : bool :=
  match v with
  | PStr _ => true
  | _ => false
  end.

(** [value == "literal"] *)
Definition py_eq_str (v : pyval) (s : pystr) : bool :=
  match v with
  | PStr s' => str_eqb s' s
  | _ => false
  end.

End PyVal.
Export PyVal.

(** ** The runtime, the world and the monad *)

Module PyWorld.

(** Library behaviour the scripts rely on and the repository does not
    define: the four character tests of the Unicode database that
    [str.isalpha] and [str.isupper] consult, [str()] of an arbitrary
    object, [json.dumps] with a given indent, and the ["5.1f"] format of
    a quotient (kept exact here; Python computes it in binary64). *)
Class Runtime := {
  Py_UNICODE_ISALPHA : N -> bool;
  Py_UNICODE_ISUPPER : N -> bool;
  Py_UNICODE_ISLOWER : N -> bool;
  Py_UNICODE_ISTITLE : N -> bool;
  str_value : pyval -> pystr;
  json_dumps : nat -> pyval -> pystr;
  format_5_1f : Q -> pystr
}.

(** What [requests.get] hands back: the status line and what parsing the
    body gives. *)
Record response := {
  status_code : N;
  reason : pystr;
  resp_url : pystr;
  body : answer pyval
}.

(** The result of calling [.json()] on a response. *)
Definition json (r : response) : outcome pyval := as_outcome (body r).

(** What the terminal delivers to one [input()] call: a line, or the
    interrupt of Ctrl-C.  The terminal of a run is a finite sequence of
    these; once it is exhausted [input()] meets the end of the file. *)
Inductive input_event :=
| Line (s : pystr)
| CtrlC.

(** The file-system calls of the scripts, as the operating system sees
    them. *)
Inductive fs_op :=
| OpMakedirs (path : pystr)
| OpOpenW (path : pystr)
| OpOpenR (path : pystr)
| OpWrite (path : pystr)
| OpGetsize (path : pystr).

Record datetime := {
  year : N; month : N; day : N;
  hour : N; minute : N; second : N; microsecond : N
}.

(** The world of one run.  [stdout] is the sequence of chunks written so
    far; [fs_dirs] and [fs_files] are the directories and the files (with
    their text) that exist, under the paths as the scripts write them;
    [net] answers a GET for a URL and a timeout; [os_errors] says which
    file-system call the operating system refuses and with which error
    (permissions, a full disk, a path that is a directory: the errors are
    the system's to decide), [os_short_write] how many characters a
    refused write let through and [os_made_dirs] how many directories a
    refused [os.makedirs] had made; [clock] is what successive calls of
    [datetime.now()] return. *)
Record world := {
  stdout : list pystr;
  stdin : list input_event;
  fs_dirs : gset (list N);
  fs_files : gmap (list N) (list N);
  net : pystr -> option N -> answer response;
  os_errors : fs_op -> option (exn_type * pystr);
  os_short_write : nat;
  os_made_dirs : nat;
  clock : nat -> datetime;
  clock_reads : nat
}.

(** What [requests.get] does in a world. *)
Definition network (w : world) : pystr -> option N -> outcome response :=
  fun url timeout => as_outcome (net w url timeout).

(** The exception with which the system refuses a call, if it does. *)
Definition os_refuses (w : world) : fs_op -> option exn :=
  fun op =>
    match os_errors w op with
    | Some (t, msg) => Some (Exc t msg)
    | None => None
    end.

Definition set_stdout (f : list pystr -> list pystr) (w : world) : world :=
  {| stdout := f (stdout w); stdin := stdin w; fs_dirs := fs_dirs w;
     fs_files := fs_files w; net := net w;
     os_errors := os_errors w; os_short_write := os_short_write w;
     os_made_dirs := os_made_dirs w;
     clock := clock w; clock_reads := clock_reads w |}.

Definition set_stdin (i : list input_event) (w : world) : world :=
  {| stdout := stdout w; stdin := i; fs_dirs := fs_dirs w;
     fs_files := fs_files w; net := net w;
     os_errors := os_errors w; os_short_write := os_short_write w;
     os_made_dirs := os_made_dirs w;
     clock := clock w; clock_reads := clock_reads w |}.

Definition set_fs_dirs (f : gset (list N) -> gset (list N)) (w : world)
  : world :=
  {| stdout := stdout w; stdin := stdin w; fs_dirs := f (fs_dirs w);
     fs_files := fs_files w; net := net w;
     os_errors := os_errors w; os_short_write := os_short_write w;
     os_made_dirs := os_made_dirs w;
     clock := clock w; clock_reads := clock_reads w |}.

Definition set_fs_files
  (f : gmap (list N) (list N) -> gmap (list N) (list N)) (w : world)
  : world :=
  {| stdout := stdout w; stdin := stdin w; fs_dirs := fs_dirs w;
     fs_files := f (fs_files w); net := net w;
     os_errors := os_errors w; os_short_write := os_short_write w;
     os_made_dirs := os_made_dirs w;
     clock := clock w; clock_reads := clock_reads w |}.

Definition tick (w : world) : world :=
  {| stdout := stdout w; stdin := stdin w; fs_dirs := fs_dirs w;
     fs_files := fs_files w; net := net w;
     os_errors := os_errors w; os_short_write := os_short_write w;
     os_made_dirs := os_made_dirs w;
     clock := clock w; clock_reads := S (clock_reads w) |}.

(** A computation: from a world to an outcome and the world it leaves. *)
Definition M (A : Type) : Type := world -> outcome A * world.

Definition ret {A} (a : A) : M A := fun w => (Return a, w).
Definition raise {A} (e : exn) : M A := fun w => (Raise e, w).

Definition bind {A B} (m : M A) (k : A -> M B) : M B :=
  fun w =>
    match m w with
    | (Return a, w') => k a w'
    | (Raise e, w') => (Raise e, w')
    end.

(** The exit status of the process when the script body ends with the
    given outcome: 0 when it returns, the argument of [sys.exit], 130 for
    an unhandled [KeyboardInterrupt], 1 for any other unhandled
    exception. *)
Definition exit_status {A} (o : outcome A) : Z :=
  match o with
  | Return _ => 0
  | Raise (SystemExit code) => code
  | Raise KeyboardInterrupt => 130
  | Raise (Exc _ _) => 1
  end.

(** Running a script body as [if __name__ == "__main__": main()]. *)
Definition run_script {A} (body : M A) (w : world) : Z * world :=
  let (o, w') := body w in (exit_status o, w').

(** [for x in xs: body x] *)
Fixpoint for_each {A} (xs : list A) (body : A -> M unit) : M unit :=
  match xs with
  | [] => ret tt
  | x :: rest => bind (body x) (fun _ => for_each rest body)
  end.

(** Lifting a pure call that may raise. *)
Definition lift {A} (o : outcome A) : M A := fun w => (o, w).

(** The first clause whose class the exception is an instance of. *)
Fixpoint find_handler {A} (e : exn)
  (hs : list (exn_class * (exn -> M A))) : option (exn -> M A) :=
  match hs with
  | [] => None
  | (c, h) :: hs' => if isinstance e c then Some h else find_handler e hs'
  end.

(** [try: body except C1 as error: h1 ... except Cn as error: hn] *)
Definition try_except {A} (body : M A)
  (hs : list (exn_class * (exn -> M A))) : M A :=
  fun w =>
    match body w with
    | (Return a, w') => (Return a, w')
    | (Raise e, w') =>
        match find_handler e hs with
        | Some h => h e w'
        | None => (Raise e, w')
        end
    end.

End PyWorld.
Export PyWorld.

Declare Scope py_scope.
Delimit Scope py_scope with py.
Notation "x <- m ;; k" := (bind m (fun x => k))
  (at level 100, m at next level, k at level 200, right associativity)
  : py_scope.
Notation "m ;; k" := (bind m (fun _ => k))
  (at level 100, k at level 200, right associativity) : py_scope.
Local Open Scope py_scope.

(** ** Builtins and library calls *)

Module Builtins.

(** [print(s)] *)
Definition print (s : pystr) : M unit :=
  fun w => (Return tt, set_stdout (fun o => o ++ [s ++ nl]) w).

(** [input(prompt)]: the prompt goes to [stdout], then one event is taken
    from the terminal. *)
Definition input (prompt : pystr) : M pystr :=
  fun w =>
    let w1 := set_stdout (fun o => o ++ [prompt]) w in
    match stdin w1 with
    | [] => (Raise (Exc EOFError (lit "EOF when reading a line")), w1)
    | CtrlC :: rest => (Raise KeyboardInterrupt, set_stdin rest w1)
    | Line s :: rest => (Return s, set_stdin rest w1)
    end.

(** [sys.exit(code)] *)
Definition sys_exit {A} (code : Z) : M A := raise (SystemExit code).

(** [datetime.now()] *)
Definition datetime_now : M datetime :=
  fun w => (Return (clock w (clock_reads w)), tick w).

Definition d2 (n : N) : pystr := zfill 2 (str_N n).

(** [.strftime("%Y%m%d_%H%M%S")] *)
Definition strftime_compact (d : datetime) : pystr :=
  zfill 4 (str_N (year d)) ++ d2 (month d) ++ d2 (day d) ++ lit "_" ++
  d2 (hour d) ++ d2 (minute d) ++ d2 (second d).

(** [.strftime("%Y-%m-%d %H:%M:%S")] *)
Definition strftime_readable (d : datetime) : pystr :=
  zfill 4 (str_N (year d)) ++ lit "-" ++ d2 (month d) ++ lit "-" ++
  d2 (day d) ++ lit " " ++
  d2 (hour d) ++ lit ":" ++ d2 (minute d) ++ lit ":" ++ d2 (second d).

(** [.isoformat()]: the microseconds are printed only when not zero. *)
Definition isoformat (d : datetime) : pystr :=
  zfill 4 (str_N (year d)) ++ lit "-" ++ d2 (month d) ++ lit "-" ++
  d2 (day d) ++ lit "T" ++
  d2 (hour d) ++ lit ":" ++ d2 (minute d) ++ lit ":" ++ d2 (second d) ++
  (if (microsecond d =? 0)%N then []
   else lit "." ++ zfill 6 (str_N (microsecond d))).

(** [requests.get(url, timeout=t)]; [None] is the call without a
    timeout. *)
Definition requests_get (url : pystr) (timeout : option N) : M response :=
  fun w => (network w url timeout, w).

(** [response.raise_for_status()] *)
Definition raise_for_status (r : response) : M unit :=
  if ((400 <=? status_code r) && (status_code r <? 500))%N then
    raise (Exc HTTPError
             (str_N (status_code r) ++ lit " Client Error: " ++ reason r ++
              lit " for url: " ++ resp_url r))
  else if ((500 <=? status_code r) && (status_code r <? 600))%N then
    raise (Exc HTTPError
             (str_N (status_code r) ++ lit " Server Error: " ++ reason r ++
              lit " for url: " ++ resp_url r))
  else ret tt.

(** [response.json()] *)
Definition response_json (r : response) : M pyval := lift (json r).

(** [os.path.exists(path)] *)
Definition os_path_exists (path : pystr) : M bool :=
  fun w => (Return (bool_decide (path ∈ fs_dirs w) ||
                    bool_decide (is_Some (fs_files w !! path))), w).

(** Whether a path names a directory or a file of the world. *)
Definition on_disk (w : world) (path : pystr) : bool :=
  bool_decide (path ∈ fs_dirs w) || bool_decide (is_Some (fs_files w !! path)).

(** The calls of [os.mkdir] that [os.makedirs(name)] is made of, the last
    one first: [name], and before it, as long as the head of the path is
    not empty and does not exist, the calls for the head.  A name that
    ends in a slash is split a second time.  (Names are taken as they are
    written: the case of a name that ends in [/.] is left out.) *)
Fixpoint makedirs_steps (fuel : nat) (present : pystr -> bool)
  (name : pystr) : list pystr :=
  match fuel with
  | 0 => [name]
  | S fuel' =>
      let '(head, tail) := path_split name in
      let '(head, tail) :=
        if bool_decide (tail = []) then path_split head else (head, tail) in
      if negb (bool_decide (head = [])) && negb (bool_decide (tail = [])) &&
         negb (present head)
      then name :: makedirs_steps fuel' present head
      else [name]
  end.

(** [os.makedirs(path)]: unless the system refuses, the directory and
    the missing directories above it exist afterwards.  The directories
    are made one by one, the outermost first: when the system refuses,
    those already made stay, and [path] itself is not among them. *)
Definition os_makedirs (path : pystr) : M unit :=
  fun w =>
    let steps := makedirs_steps (length path) (on_disk w) path in
    match os_refuses w (OpMakedirs path) with
    | Some e =>
        (Raise e,
         set_fs_dirs
           (fun d => list_to_set (take (os_made_dirs w) (rev (tl steps))) ∪ d)
           w)
    | None => (Return tt, set_fs_dirs (fun d => list_to_set steps ∪ d) w)
    end.

(** [open(path, "w")]: unless the system refuses, the file exists and is
    empty afterwards. *)
Definition open_w (path : pystr) : M unit :=
  fun w =>
    match os_refuses w (OpOpenW path) with
    | Some e => (Raise e, w)
    | None => (Return tt, set_fs_files (insert path []) w)
    end.

(** [file.write(text)] on a file opened for writing: the text is
    appended; a refused write leaves the first [os_short_write]
    characters of it. *)
Definition file_write (path : pystr) (text : pystr) : M unit :=
  fun w =>
    let old := default [] (fs_files w !! path) in
    match os_refuses w (OpWrite path) with
    | Some e =>
        (Raise e,
         set_fs_files (insert path (old ++ take (os_short_write w) text)) w)
    | None => (Return tt, set_fs_files (insert path (old ++ text)) w)
    end.

(** [os.path.getsize(path)] *)
Definition os_path_getsize (path : pystr) : M N :=
  fun w =>
    match os_refuses w (OpGetsize path) with
    | Some e => (Raise e, w)
    | None =>
        match fs_files w !! path with
        | Some text => (Return (utf8_len text), w)
        | None =>
            (Raise (Exc FileNotFoundError
                      (lit "[Errno 2] No such file or directory: '" ++
                       path ++ lit "'")), w)
        end
    end.

(** Reading in text mode with universal newlines: a carriage return,
    alone or followed by a line feed, comes back as one line feed. *)
Fixpoint universal_newlines (text : pystr) : pystr :=
  match text with
  | [] => []
  | c :: t =>
      if (c =? 13)%N then
        10%N :: match t with
                | c' :: t' =>
                    if (c' =? 10)%N then universal_newlines t'
                    else universal_newlines t
                | [] => []
                end
      else c :: universal_newlines t
  end.

(** Cutting a text after each newline, as [readlines] does. *)
Fixpoint splitlines_keepends (cur : pystr) (text : pystr) : list pystr :=
  match text with
  | [] => match cur with [] => [] | _ => [cur] end
  | c :: t =>
      if (c =? 10)%N then (cur ++ [c]) :: splitlines_keepends [] t
      else splitlines_keepends (cur ++ [c]) t
  end.

(** [with open(path, "r") as file: file.readlines()] *)
Definition open_r_readlines (path : pystr) : M (list pystr) :=
  fun w =>
    match os_refuses w (OpOpenR path) with
    | Some e => (Raise e, w)
    | None =>
        match fs_files w !! path with
        | Some text =>
            (Return (splitlines_keepends [] (universal_newlines text)), w)
        | None =>
            (Raise (Exc FileNotFoundError
                      (lit "[Errno 2] No such file or directory: '" ++
                       path ++ lit "'")), w)
        end
    end.

End Builtins.
Export Builtins.

(** ** [str] methods that consult the Unicode database *)

Module StrMethods.
Section StrMethods.
Context {RT : Runtime}.

(** [s.isalpha()]: not empty and every character alphabetic. *)
Definition isalpha (s : pystr) : bool :=
  match s with
  | [] => false
  | [c] => Py_UNICODE_ISALPHA c
  | _ => forallb Py_UNICODE_ISALPHA s
  end.

(** The loop of [s.isupper()]: a lowercase or titlecase character
    answers False at once; otherwise the answer is whether an uppercase
    character was seen. *)
Fixpoint isupper_loop (cased : bool) (s : pystr) : bool :=
  match s with
  | [] => cased
  | c :: t =>
      if Py_UNICODE_ISLOWER c || Py_UNICODE_ISTITLE c then false
      else isupper_loop (cased || Py_UNICODE_ISUPPER c) t
  end.

(** [s.isupper()] *)
Definition isupper (s : pystr) : bool :=
  match s with
  | [] => false
  | [c] => Py_UNICODE_ISUPPER c
  | _ => isupper_loop false s
  end.

End StrMethods.
End StrMethods.
Export StrMethods.

(** ** day-03/output/api_data_fetcher.py *)

Module Day03.
Section Day03.
Context {RT : Runtime}.

Definition validate_api_key (api_key : pyval) : bool :=
  if negb (truthy api_key) || py_eq_str api_key (lit "YOUR_API_KEY")
  then false
  else true.

Definition validate_stock_symbol (symbol : pyval) : bool :=
  if negb (truthy symbol) || negb (is_str symbol) then false
  else
    match symbol with
    | PStr s =>
        if negb ((1 <=? length s)%nat && (length s <=? 5)%nat &&
                 isalpha s && isupper s)
        then false
        else true
    | _ => false (* not reached: [symbol] is a str here *)
    end.

(** The suite of the [try] statement of [fetch_stock_data]. *)
Definition fetch_stock_data_try (api_url api_key symbol : pystr) : M pyval :=
  let query := lit "function=TIME_SERIES_DAILY" ++
               lit "&symbol=" ++ symbol ++
               lit "&apikey=" ++ api_key in
  print (lit " Requesting data for " ++ symbol ++ lit "...") ;;
  response <- requests_get (api_url ++ query) (Some 10%N) ;;
  raise_for_status response ;;
  data <- response_json response ;;
  has_error <- lift (py_in (lit "Error Message") data) ;;
  if has_error : bool then
    print (lit " API Error: Invalid stock symbol '" ++ symbol ++ lit "'") ;;
    ret PNone
  else
    has_note <- lift (py_in (lit "Note") data) ;;
    if has_note : bool then
      note <- lift (py_getitem data (lit "Note")) ;;
      print (lit "  API Rate Limit: " ++ str_value note) ;;
      ret PNone
    else
      has_series <- lift (py_in (lit "Time Series (Daily)") data) ;;
      if negb has_series then
        print (lit " Unexpected API response format") ;;
        ret PNone
      else
        print (lit " Successfully fetched data for " ++ symbol) ;;
        ret data.

(** Its [except] clauses, in the order of the source; each prints and
    falls through to the final [return None]. *)
Definition fetch_stock_data_except : list (exn_class * (exn -> M pyval)) :=
  [ (C_Timeout, fun _ =>
       print (lit " Error: Request timed out after 10 seconds") ;;
       ret PNone);
    (C_ConnectionError, fun _ =>
       print (lit " Error: Unable to connect to API (check internet connection)") ;;
       ret PNone);
    (C_HTTPError, fun error =>
       print (lit " HTTP Error: " ++ str_exn error) ;; ret PNone);
    (C_RequestException, fun error =>
       print (lit " Network error: " ++ str_exn error) ;; ret PNone);
    (C_JSONDecodeError, fun _ =>
       print (lit " Error: Invalid JSON response from API") ;; ret PNone);
    (C_Exception, fun error =>
       print (lit " Unexpected error: " ++ str_exn error) ;; ret PNone) ].

Definition fetch_stock_data (api_url api_key symbol : pystr) : M pyval :=
  try_except (fetch_stock_data_try api_url api_key symbol)
             fetch_stock_data_except.

(** The dictionary [output_data] of [save_data_to_file]. *)
Definition output_data (data : pyval) (symbol fetched_at : pystr) : pyval :=
  PDict [ (lit "metadata",
           PDict [ (lit "symbol", PStr symbol);
                   (lit "fetched_at", PStr fetched_at);
                   (lit "script_version", PStr (lit "1.1")) ]);
          (lit "stock_data", data) ].

(** The suite of the [try] statement of [save_data_to_file]. *)
Definition save_data_to_file_try (data : pyval) (filename symbol : pystr)
  : M bool :=
  now <- datetime_now ;;
  let output := output_data data symbol (isoformat now) in
  let directory := dirname filename in
  missing <- (if negb (bool_decide (directory = [])) then
                found <- os_path_exists directory ;; ret (negb found)
              else ret false) ;;
  (if missing : bool then
     os_makedirs directory ;;
     print (lit " Created directory: " ++ directory)
   else ret tt) ;;
  open_w filename ;;
  file_write filename (json_dumps 4 output) ;;
  file_size <- os_path_getsize filename ;;
  print (lit " Data saved successfully to '" ++ filename ++ lit "' (" ++
         group3 (length (str_N file_size)) file_size ++ lit " bytes)") ;;
  ret true.

(** Its [except] clauses; each prints and falls through to the final
    [return False]. *)
Definition save_data_to_file_except (filename : pystr)
  : list (exn_class * (exn -> M bool)) :=
  [ (C_FileNotFoundError, fun _ =>
       print (lit " Error: Invalid file path '" ++ filename ++ lit "'") ;;
       ret false);
    (C_PermissionError, fun _ =>
       print (lit " Error: Permission denied writing to '" ++ filename ++
              lit "'") ;;
       ret false);
    (C_OSError, fun error =>
       print (lit " OS Error: " ++ str_exn error) ;; ret false);
    (C_Exception, fun error =>
       print (lit " File error: " ++ str_exn error) ;; ret false) ].

Definition save_data_to_file (data : pyval) (filename symbol : pystr)
  : M bool :=
  try_except (save_data_to_file_try data filename symbol)
             (save_data_to_file_except filename).

(** One pass through the body of the [while True] loop of
    [get_user_input]: [Some s] is [return s], [None] is [continue]. *)
Definition get_user_input_body (prompt : pystr) (default : option pystr)
  (validator : option (pystr -> bool)) : M (option pystr) :=
  try_except
    (user_input <-
       (match default with
        | Some d =>
            if negb (bool_decide (d = [])) then
              typed <- input (prompt ++ lit " [" ++ d ++ lit "]: ") ;;
              let typed := strip typed in
              ret (if bool_decide (typed = []) then d else typed)
            else
              typed <- input (prompt ++ lit ": ") ;; ret (strip typed)
        | None =>
            typed <- input (prompt ++ lit ": ") ;; ret (strip typed)
        end) ;;
     if bool_decide (user_input = []) then
       print (lit " Input cannot be empty. Please try again.") ;;
       ret None
     else if match validator with
             | Some check => negb (check user_input)
             | None => false
             end
     then
       print (lit " Invalid input format. Please try again.") ;;
       ret None
     else ret (Some user_input))
    [ (C_KeyboardInterrupt, fun _ =>
         print (nl ++ nl ++ lit "  Operation cancelled by user") ;;
         sys_exit 0);
      (C_EOFError, fun _ =>
         print (nl ++ lit " Unexpected end of input") ;;
         sys_exit 1) ].

(** The loop itself.  Every pass either leaves the function or consumes
    one event of the terminal, so [S (length stdin)] passes are enough;
    the branch taken at 0 is never reached from [get_user_input]. *)
Fixpoint get_user_input_loop (passes : nat) (prompt : pystr)
  (default : option pystr) (validator : option (pystr -> bool))
  : M pystr :=
  match passes with
  | 0 => raise (Exc OtherException (lit "loop bound exceeded"))
  | S passes' =>
      r <- get_user_input_body prompt default validator ;;
      match r with
      | Some user_input => ret user_input
      | None => get_user_input_loop passes' prompt default validator
      end
  end.

Definition get_user_input (prompt : pystr) (default : option pystr)
  (validator : option (pystr -> bool)) : M pystr :=
  fun w =>
    get_user_input_loop (S (length (stdin w))) prompt default validator w.

Definition api_url : pystr := lit "https://www.alphavantage.co/query?".

(** The bullet of the troubleshooting tips, U+2022. *)
Definition bullet : pystr := [8226%N].

Definition main : M unit :=
  print (times (lit "=") 60) ;;
  print (lit " Stock Market Data Fetcher - Enhanced Version") ;;
  print (times (lit "=") 60) ;;
  print [] ;;
  api_key <- get_user_input (lit "Enter your Alpha Vantage API key")
               (Some (lit "demo")) None ;;
  (if negb (validate_api_key (PStr api_key)) &&
      negb (str_eqb api_key (lit "demo"))
   then print (lit "  Warning: API key looks invalid (using anyway)")
   else ret tt) ;;
  stock_symbol <- get_user_input
                    (lit "Enter stock symbol (e.g., IBM, AAPL, MSFT)")
                    (Some (lit "IBM"))
                    (Some (fun s => validate_stock_symbol (PStr s))) ;;
  now <- datetime_now ;;
  let timestamp := strftime_compact now in
  let filename := lit "stock_data_" ++ stock_symbol ++ lit "_" ++
                  timestamp ++ lit ".json" in
  print [] ;;
  print (times (lit "-") 60) ;;
  stock_data <- fetch_stock_data api_url api_key stock_symbol ;;
  if truthy stock_data then
    print [] ;;
    success <- save_data_to_file stock_data filename stock_symbol ;;
    if success : bool then
      print [] ;;
      print (times (lit "=") 60) ;;
      print (lit " Operation completed successfully!") ;;
      print (lit " Stock data for " ++ stock_symbol ++ lit " saved to " ++
             filename) ;;
      print (times (lit "=") 60)
    else
      print (nl ++ lit "  Data fetched but could not be saved") ;;
      sys_exit 1
  else
    print [] ;;
    print (times (lit "=") 60) ;;
    print (lit " Operation failed - no data to save") ;;
    print (times (lit "=") 60) ;;
    print (nl ++ lit " Troubleshooting tips:") ;;
    print (lit "   " ++ bullet ++ lit " Check your API key is valid") ;;
    print (lit "   " ++ bullet ++ lit " Verify the stock symbol is correct") ;;
    print (lit "   " ++ bullet ++
           lit " Ensure you haven't exceeded API rate limits") ;;
    print (lit "   " ++ bullet ++ lit " Check your internet connection") ;;
    sys_exit 1.

End Day03.
End Day03.

(** ** day-04/log_analyzer.py *)

Module Day04.
Section Day04.
Context {RT : Runtime}.

Definition read_log_file (file_path : pystr) : M (option (list pystr)) :=
  try_except
    (lines <- open_r_readlines file_path ;;
     match lines with
     | [] => raise (Exc ValueError (lit "Log file is empty"))
     | _ => ret (Some lines)
     end)
    [ (C_FileNotFoundError, fun _ =>
         print (lit "ERROR: File '" ++ file_path ++ lit "' not found") ;;
         ret None);
      (C_ValueError, fun error =>
         print (lit "ERROR: " ++ str_exn error) ;; ret None);
      (C_Exception, fun error =>
         print (lit "ERROR: Unexpected error reading file: " ++
                str_exn error) ;;
         ret None) ].

(** The dictionary returned by [analyze_logs]. *)
Record analysis := {
  counts : gmap string nat;
  details : gmap string (list pystr);
  total_lines : nat
}.

Definition initial_analysis : analysis :=
  {| counts := <["INFO" := 0]> (<["WARNING" := 0]> (<["ERROR" := 0]> ∅));
     details := <["INFO" := []]> (<["WARNING" := []]> (<["ERROR" := []]> ∅));
     total_lines := 0 |}.

(** [log_counts[level] += 1; log_details[level].append(line)] *)
Definition record_line (level : string) (line : pystr) (a : analysis)
  : analysis :=
  {| counts := <[level := (counts a !!! level) + 1]> (counts a);
     details := <[level := (details a !!! level) ++ [line]]> (details a);
     total_lines := total_lines a |}.

Definition count_line (a : analysis) : analysis :=
  {| counts := counts a; details := details a;
     total_lines := total_lines a + 1 |}.

(** The body of the [for line in log_lines] loop. *)
Definition analyze_line (a : analysis) (line : pystr) : analysis :=
  let line := strip line in
  if bool_decide (line = []) then a
  else
    let a := count_line a in
    if contains (lit "INFO") line then record_line "INFO" line a
    else if contains (lit "WARNING") line then record_line "WARNING" line a
    else if contains (lit "ERROR") line then record_line "ERROR" line a
    else a.

Definition analyze_logs (log_lines : list pystr) : analysis :=
  fold_left analyze_line log_lines initial_analysis.

(** [sum(counts.values())] *)
Definition sum_values (m : gmap string nat) : nat :=
  map_fold (fun _ v acc => v + acc) 0 m.

(** [(count / total_messages * 100) if total_messages else 0] *)
Definition percentage (count total_messages : nat) : Q :=
  if (total_messages =? 0)%nat then 0%Q
  else (inject_Z (Z.of_nat count) / inject_Z (Z.of_nat total_messages)
        * 100)%Q.

(** [f"{level:10} : {count:4} ({percentage:5.1f}%)"] *)
Definition level_row (level : string) (count : nat) (pct : Q) : pystr :=
  ljust 10 (lit level) ++ lit " : " ++ rjust 4 (str_nat count) ++
  lit " (" ++ format_5_1f pct ++ lit "%)".

(** The percentage that the summaries show for a level. *)
Definition shown_percentage (a : analysis) (level : string) : Q :=
  let total_messages := sum_values (counts a) in
  percentage (counts a !!! level) total_messages.

Definition print_summary (a : analysis) : M unit :=
  print (nl ++ times (lit "=") 60) ;;
  print (lit "LOG ANALYSIS SUMMARY") ;;
  print (times (lit "=") 60) ;;
  print (lit "Total log entries processed: " ++ str_nat (total_lines a)) ;;
  print (times (lit "-") 60) ;;
  let total_messages := sum_values (counts a) in
  for_each ["INFO"; "WARNING"; "ERROR"] (fun level =>
    let count := counts a !!! level in
    print (level_row level count (percentage count total_messages))) ;;
  print (times (lit "=") 60) ;;
  (if (0 <? counts a !!! "ERROR")%nat then
     print (nl ++ lit "  CRITICAL: Found " ++
            str_nat (counts a !!! "ERROR") ++ lit " ERROR message(s)")
   else ret tt) ;;
  (if (0 <? counts a !!! "WARNING")%nat then
     print (lit "  ATTENTION: Found " ++
            str_nat (counts a !!! "WARNING") ++ lit " WARNING message(s)")
   else ret tt) ;;
  print [].

Definition write_text_summary (a : analysis) (output_file : pystr)
  : M unit :=
  try_except
    (open_w output_file ;;
     let write := file_write output_file in
     write (times (lit "=") 60 ++ nl) ;;
     write (lit "LOG ANALYSIS SUMMARY" ++ nl) ;;
     now <- datetime_now ;;
     write (lit "Generated: " ++ strftime_readable now ++ nl) ;;
     write (times (lit "=") 60 ++ nl ++ nl) ;;
     write (lit "Total log entries processed: " ++
            str_nat (total_lines a) ++ nl) ;;
     write (times (lit "-") 60 ++ nl ++ nl) ;;
     let total_messages := sum_values (counts a) in
     for_each ["INFO"; "WARNING"; "ERROR"] (fun level =>
       let count := counts a !!! level in
       write (level_row level count (percentage count total_messages)
              ++ nl)) ;;
     write (nl ++ times (lit "=") 60 ++ nl ++ nl) ;;
     for_each ["ERROR"; "WARNING"; "INFO"] (fun level =>
       if (0 <? counts a !!! level)%nat then
         write (lit level ++ lit " MESSAGES (" ++
                str_nat (counts a !!! level) ++ lit "):" ++ nl) ;;
         write (times (lit "-") 60 ++ nl) ;;
         for_each (details a !!! level) (fun message =>
           write (message ++ nl)) ;;
         write nl
       else ret tt) ;;
     print (lit " Text summary written to: " ++ output_file))
    [ (C_Exception, fun error =>
         print (lit "ERROR: Failed to write text summary: " ++
                str_exn error)) ].

(** The two dictionaries of an analysis as JSON objects, keys in the
    order in which [analyze_logs] created them. *)
Definition counts_value (a : analysis) : pyval :=
  PDict (map (fun level =>
                (lit level, PInt (Z.of_nat (counts a !!! level))))
             ["INFO"; "WARNING"; "ERROR"]).

Definition details_value (a : analysis) : pyval :=
  PDict (map (fun level =>
                (lit level, PList (map PStr (details a !!! level))))
             ["INFO"; "WARNING"; "ERROR"]).

Definition write_json_summary (a : analysis) (output_file : pystr)
  : M unit :=
  try_except
    (now <- datetime_now ;;
     let data := PDict [ (lit "timestamp", PStr (strftime_readable now));
                         (lit "total_lines",
                          PInt (Z.of_nat (total_lines a)));
                         (lit "summary", counts_value a);
                         (lit "details", details_value a) ] in
     open_w output_file ;;
     file_write output_file (json_dumps 2 data) ;;
     print (lit " JSON summary written to: " ++ output_file))
    [ (C_Exception, fun error =>
         print (lit "ERROR: Failed to write JSON summary: " ++
                str_exn error)) ].

Definition log_file : pystr := lit "app.log".
Definition text_output : pystr := lit "log_summary.txt".
Definition json_output : pystr := lit "log_summary.json".

Definition main : M unit :=
  print (nl ++ lit " Starting Log Analysis...") ;;
  print (lit " Reading log file: " ++ log_file) ;;
  log_lines <- read_log_file log_file ;;
  match log_lines with
  | None | Some [] =>
      print (nl ++ lit " Log analysis failed") ;;
      ret tt
  | Some lines =>
      print (lit " Successfully read " ++ str_nat (length lines) ++
             lit " lines") ;;
      let a := analyze_logs lines in
      print_summary a ;;
      print (lit " Writing output files...") ;;
      write_text_summary a text_output ;;
      write_json_summary a json_output ;;
      print (nl ++ lit " Log analysis completed successfully!" ++ nl)
  end.

End Day04.
End Day04.

(** ** day-02/practice/api_data_fetcher.py *)

Module Day02.
Section Day02.
Context {RT : Runtime}.

Definition API_URL : pystr := lit "https://jsonplaceholder.typicode.com/users".
Definition OUTPUT_FILE : pystr := lit "output.json".

(** No [try] here: whatever [requests.get], [raise_for_status] or
    [.json()] raises leaves the function. *)
Definition fetch_api_data : M pyval :=
  response <- requests_get API_URL None ;;
  raise_for_status response ;;
  response_json response.

(** The dictionary that [process_data] appends for one user; the values
    are evaluated in the order in which they are written. *)
Definition process_user (user : pyval) : outcome pyval :=
  and_then (py_getitem user (lit "id")) (fun id =>
  and_then (py_getitem user (lit "name")) (fun name =>
  and_then (py_getitem user (lit "email")) (fun email =>
  and_then (and_then (py_getitem user (lit "address"))
                     (fun address => py_getitem address (lit "city")))
           (fun city =>
  and_then (and_then (py_getitem user (lit "company"))
                     (fun company => py_getitem company (lit "name")))
           (fun company =>
  Return (PDict [ (lit "id", id);
                  (lit "name", name);
                  (lit "email", email);
                  (lit "city", city);
                  (lit "company", company) ])))))).

(** The loop of [process_data], with the list built so far. *)
Fixpoint process_users (users : list pyval) (processed_users : list pyval)
  : outcome (list pyval) :=
  match users with
  | [] => Return processed_users
  | user :: rest =>
      and_then (process_user user) (fun entry =>
        process_users rest (processed_users ++ [entry]))
  end.

Definition process_data (users : pyval) : outcome pyval :=
  and_then (py_iter users) (fun items =>
  and_then (process_users items []) (fun processed_users =>
  Return (PList processed_users))).

(** No [try] here either: a refused [open] or write leaves the
    function. *)
Definition save_to_json (data : pyval) : M unit :=
  open_w OUTPUT_FILE ;;
  file_write OUTPUT_FILE (json_dumps 4 data).

(** The line that [main] prints for one processed user. *)
Definition print_user (user : pyval) : M unit :=
  id <- lift (py_getitem user (lit "id")) ;;
  name <- lift (py_getitem user (lit "name")) ;;
  email <- lift (py_getitem user (lit "email")) ;;
  city <- lift (py_getitem user (lit "city")) ;;
  company <- lift (py_getitem user (lit "company")) ;;
  print (lit "ID: " ++ str_value id ++ lit " | " ++
         lit "Name: " ++ str_value name ++ lit " | " ++
         lit "Email: " ++ str_value email ++ lit " | " ++
         lit "City: " ++ str_value city ++ lit " | " ++
         lit "Company: " ++ str_value company).

Definition main : M unit :=
  print (lit " Fetching data from API...") ;;
  users <- fetch_api_data ;;
  print (lit " Processing data...") ;;
  processed_data <- lift (process_data users) ;;
  print (nl ++ lit " Processed User Data:" ++ nl) ;;
  rows <- lift (py_iter processed_data) ;;
  for_each rows print_user ;;
  save_to_json processed_data ;;
  print (nl ++ lit " Data successfully saved to '" ++ OUTPUT_FILE ++ lit "'").

(** The module run as a script: [main()], then the line at the end of
    the file. *)
Definition script : M unit :=
  main ;;
  print (lit "################################").

End Day02.
End Day02.

(** ** A concrete runtime and concrete worlds for running the scripts *)

Module Sample.

(** An excerpt of the Unicode character database: Basic Latin, the
    Latin-1 Supplement and the CJK Unified Ideographs U+4E00..U+9FFF
    (letters without case, category Lo).  No character of these blocks
    is titlecase. *)
Definition ucd_isupper (c : N) : bool :=
  ((65 <=? c) && (c <=? 90) || (192 <=? c) && (c <=? 214)
   || (216 <=? c) && (c <=? 222))%N.

Definition ucd_islower (c : N) : bool :=
  ((97 <=? c) && (c <=? 122) || (c =? 170) || (c =? 181) || (c =? 186)
   || (223 <=? c) && (c <=? 246) || (248 <=? c) && (c <=? 255))%N.

Definition ucd_isalpha (c : N) : bool :=
  ucd_isupper c || ucd_islower c || ((19968 <=? c) && (c <=? 40959))%N.

(** A compact JSON text, standing in for [json.dumps]: enough to run the
    scripts on examples (floats are shown by their bit pattern, strings
    are not escaped, the indent is not applied). *)
Fixpoint compact_dumps (v : pyval) : pystr :=
  match v with
  | PNone => lit "null"
  | PBool true => lit "true"
  | PBool false => lit "false"
  | PInt z => lit (pretty z)
  | PFloat bits => lit "0x" ++ str_N bits
  | PStr s => [34%N] ++ s ++ [34%N]
  | PList l =>
      lit "[" ++
      (fix elems (l : list pyval) : pystr :=
         match l with
         | [] => []
         | [x] => compact_dumps x
         | x :: rest => compact_dumps x ++ lit ", " ++ elems rest
         end) l ++ lit "]"
  | PDict items =>
      lit "{" ++
      (fix members (l : list (pystr * pyval)) : pystr :=
         match l with
         | [] => []
         | [(k, x)] => [34%N] ++ k ++ [34%N] ++ lit ": " ++ compact_dumps x
         | (k, x) :: rest =>
             [34%N] ++ k ++ [34%N] ++ lit ": " ++ compact_dumps x ++
             lit ", " ++ members rest
         end) items ++ lit "}"
  end.

(** One decimal, rounded half up, right-aligned in five columns. *)
Definition one_decimal (q : Q) : pystr :=
  let tenths := Z.to_N ((Qnum q * 20 + Z.pos (Qden q)) / (2 * Z.pos (Qden q))) in
  rjust 5 (str_N (tenths / 10) ++ lit "." ++ str_N (tenths mod 10)).

Definition runtime : Runtime :=
  {| Py_UNICODE_ISALPHA := ucd_isalpha;
     Py_UNICODE_ISUPPER := ucd_isupper;
     Py_UNICODE_ISLOWER := ucd_islower;
     Py_UNICODE_ISTITLE := fun _ => false;
     str_value := fun v => match v with PStr s => s | _ => compact_dumps v end;
     json_dumps := fun _ v => compact_dumps v;
     format_5_1f := one_decimal |}.

Definition noon : datetime :=
  {| year := 2024; month := 1; day := 3;
     hour := 14; minute := 30; second := 22; microsecond := 0 |}.

(** A well-formed answer of the API. *)
Definition daily_series : pyval :=
  PDict [ (lit "Meta Data", PDict [ (lit "2. Symbol", PStr (lit "IBM")) ]);
          (lit "Time Series (Daily)",
           PDict [ (lit "2024-01-02",
                    PDict [ (lit "4. close", PStr (lit "161.50")) ]) ]) ].

Definition ok_response (parsed : answer pyval) : response :=
  {| status_code := 200; reason := lit "OK"; resp_url := [];
     body := parsed |}.

(** A world with nothing on disk, a terminal that delivers [keys], a
    network that answers every request with [reply] and an operating
    system that refuses what [refuses] says. *)
Definition world_of (keys : list input_event)
  (reply : answer response) (refuses : fs_op -> option (exn_type * pystr))
  : world :=
  {| stdout := []; stdin := keys; fs_dirs := ∅; fs_files := ∅;
     net := fun _ _ => reply;
     os_errors := refuses; os_short_write := 12; os_made_dirs := 1;
     clock := fun _ => noon; clock_reads := 0 |}.

Definition nothing_refused : fs_op -> option (exn_type * pystr) :=
  fun _ => None.

(** The user accepts both defaults. *)
Definition two_enters : list input_event := [Line nl; Line nl].

Definition disk_full : exn_type * pystr :=
  (OtherOSError, lit "[Errno 28] No space left on device").

Definition permission_denied : exn_type * pystr :=
  (PermissionError, lit "[Errno 13] Permission denied").

Definition permission_error : exn :=
  Exc PermissionError (lit "[Errno 13] Permission denied").



(** A read that ran into the timeout. *)
Definition timed_out : answer response :=
  Fails ReadTimeout (lit "Read timed out. (read timeout=10)").

(** An operating system that refuses the calls selected by [which], with
    the error [e], and no other. *)
Definition refuses_only (which : fs_op -> bool) (e : exn_type * pystr)
  : fs_op -> option (exn_type * pystr) :=
  fun op => if which op then Some e else None.

Definition is_makedirs (op : fs_op) : bool :=
  match op with OpMakedirs _ => true | _ => false end.
Definition is_open_w (op : fs_op) : bool :=
  match op with OpOpenW _ => true | _ => false end.
Definition is_write (op : fs_op) : bool :=
  match op with OpWrite _ => true | _ => false end.

(** The API answers well and the user accepts both defaults. *)
Definition good_day (refuses : fs_op -> option (exn_type * pystr)) : world :=
  world_of two_enters (Ok (ok_response (Ok daily_series))) refuses.

(** The same terminal and operating system, with [app.log] on disk. *)
Definition with_log (text : pystr) (w : world) : world :=
  set_fs_files (insert (lit "app.log") text) w.

(** The name [main] gives to the output file at [noon] for IBM. *)
Definition ibm_file : pystr := lit "stock_data_IBM_20240103_143022.json".

End Sample.

(** * Vocabulary of the statements *)

(** [needle] occurs in [hay] as a substring. *)
Definition occurs_in (needle hay : pystr) : Prop :=
  exists pre post, hay = pre ++ needle ++ post.

(** ** Words for day-04 *)

Section Day04Terms.
Context {RT : Runtime}.
Import Day04.

Definition level_names : list string := ["INFO"; "WARNING"; "ERROR"].

(** [first_match line r]: [r] is the first level name, in the order INFO,
    WARNING, ERROR, that occurs in [line] as a substring, or [None] when
    no level name occurs. *)
Inductive first_match (line : pystr) : option string -> Prop :=
| first_match_level earlier level later :
    level_names = earlier ++ level :: later ->
    occurs_in (lit level) line ->
    Forall (fun other => ~ occurs_in (lit other) line) earlier ->
    first_match line (Some level)
| first_match_none :
    Forall (fun other => ~ occurs_in (lit other) line) level_names ->
    first_match line None.

(** The counters after one more occurrence of the level [r]. *)
Definition bump (r : option string) (m : gmap string nat) : gmap string nat :=
  match r with
  | Some level => <[level := m !!! level + 1]> m
  | None => m
  end.

(** The three counters of a dictionary of counts. *)
Definition sum3 (m : gmap string nat) : nat :=
  m !!! "INFO" + m !!! "WARNING" + m !!! "ERROR".

Definition three_levels (m : gmap string nat) : Prop :=
  dom m = ({["INFO"; "WARNING"; "ERROR"]} : gset string).

(** A non-blank line in which no level name occurs. *)
Definition unmatched (line : pystr) : bool :=
  let line := strip line in
  negb (bool_decide (line = [])) &&
  negb (contains (lit "INFO") line) &&
  negb (contains (lit "WARNING") line) &&
  negb (contains (lit "ERROR") line).

(** The line [read_log_file] prints when it cannot return the lines of a
    file that exists and is empty: which one depends on whether the system
    let the file be opened. *)
Definition empty_log_diagnostic (path : pystr) (refusal : option exn)
  : pystr :=
  match refusal with
  | None => lit "ERROR: Log file is empty"
  | Some e =>
      if isinstance e C_FileNotFoundError then
        lit "ERROR: File '" ++ path ++ lit "' not found"
      else if isinstance e C_ValueError then lit "ERROR: " ++ str_exn e
      else lit "ERROR: Unexpected error reading file: " ++ str_exn e
  end.

End Day04Terms.

(** ** Words for runs *)

(** An exception that [except Exception] catches. *)
Definition ordinary (e : exn) : Prop := isinstance e C_Exception = true.

(** [keeps disk w w']: the oracles of [w'] are those of [w] and, when
    [disk] is set, so are the files and the directories. *)
Definition keeps (disk : bool) (w w' : world) : Prop :=
  os_refuses w' = os_refuses w /\ network w' = network w /\
  (disk = true -> fs_files w' = fs_files w /\ fs_dirs w' = fs_dirs w).

(** [behaves disk P m]: [m] keeps the oracles (and the disk, when [disk]
    is set) and raises only exceptions that satisfy [P]. *)
Definition behaves {A} (disk : bool) (P : exn -> Prop) (m : M A) : Prop :=
  forall w, keeps disk w (snd (m w)) /\ forall e, fst (m w) = Raise e -> P e.

Definition never (e : exn) : Prop := False.

(** ** Words for day-03 *)

Section Day03Terms.
Context {RT : Runtime}.
Import Day03.

(** The URL that [fetch_stock_data] requests. *)
Definition query_url (api_url api_key symbol : pystr) : pystr :=
  api_url ++ lit "function=TIME_SERIES_DAILY" ++ lit "&symbol=" ++ symbol ++
  lit "&apikey=" ++ api_key.

Definition requesting (symbol : pystr) : pystr :=
  (lit " Requesting data for " ++ symbol ++ lit "...") ++ nl.

(** The status is not an error status: [raise_for_status] returns. *)
Definition status_ok (r : response) : Prop :=
  ((status_code r <? 400) || (600 <=? status_code r))%N = true.

(** The world after the first line of the fetch. *)
Definition asked (symbol : pystr) (w : world) : world :=
  set_stdout (fun o => o ++ [requesting symbol]) w.

(** The resource at [url] is reachable within ten seconds and answers
    with a good status and a well-formed body, whose parsed value is [v]:
    "Error Message" and "Note" are not found in it, "Time Series (Daily)"
    is. *)
Definition well_formed_answer (w : world) (url : pystr) (v : pyval) : Prop :=
  exists r,
    network w url (Some 10%N) = Return r /\
    status_ok r /\ json r = Return v /\
    py_in (lit "Error Message") v = Return false /\
    py_in (lit "Note") v = Return false /\
    py_in (lit "Time Series (Daily)") v = Return true.

(** What [get_user_input] shows before it reads. *)
Definition prompt_text (prompt : pystr) (default : option pystr) : pystr :=
  match default with
  | Some d =>
      if negb (bool_decide (d = [])) then prompt ++ lit " [" ++ d ++ lit "]: "
      else prompt ++ lit ": "
  | None => prompt ++ lit ": "
  end.

(** What it makes of a line that was typed. *)
Definition answer_of (default : option pystr) (typed : pystr) : pystr :=
  match default with
  | Some d =>
      if negb (bool_decide (d = [])) then
        if bool_decide (strip typed = []) then d else strip typed
      else strip typed
  | None => strip typed
  end.

Definition accepted (validator : option (pystr -> bool)) (s : pystr) : Prop :=
  s <> [] /\ forall check, validator = Some check -> check s = true.

Definition cancelled : pystr :=
  (nl ++ nl ++ lit "  Operation cancelled by user") ++ nl.

Definition end_of_input : pystr :=
  (nl ++ lit " Unexpected end of input") ++ nl.

(** The run ended at a prompt, before any request: by Ctrl-C, with exit
    status 0, or at the end of the input, with exit status 1. *)
Definition ended_at_prompt (o : outcome unit) (w' : world) : Prop :=
  (o = Raise (SystemExit 0) /\ exists pre, stdout w' = pre ++ [cancelled]) \/
  (o = Raise (SystemExit 1) /\ exists pre, stdout w' = pre ++ [end_of_input]).

(** How a call of [get_user_input] ends: with an accepted answer, or by
    leaving the process with status 0 after Ctrl-C or with status 1 at the
    end of the input.  It touches neither the disk nor the oracles. *)
Definition input_outcome (validator : option (pystr -> bool))
  (o : outcome pystr) (w' : world) : Prop :=
  (exists s, o = Return s /\ accepted validator s) \/
  (o = Raise (SystemExit 0) /\ exists pre, stdout w' = pre ++ [cancelled]) \/
  (o = Raise (SystemExit 1) /\ exists pre, stdout w' = pre ++ [end_of_input]).

(** The text that [save_data_to_file] hands to the file: the record with
    its metadata, the time being the next reading of the clock. *)
Definition record_text (data : pyval) (symbol : pystr) (w : world) : pystr :=
  json_dumps 4
    (output_data data symbol (isoformat (clock w (clock_reads w)))).

(** [directory and not os.path.exists(directory)] for the directory of
    [filename]. *)
Definition directory_missing (filename : pystr) (w : world) : bool :=
  negb (bool_decide (dirname filename = [])) &&
  negb (bool_decide (dirname filename ∈ fs_dirs w) ||
        bool_decide (is_Some (fs_files w !! dirname filename))).

(** The directories that [os.makedirs] makes for the directory of
    [filename], the directory itself first, and those that a refused call
    leaves behind. *)
Definition directories_to_make (filename : pystr) (w : world) : list pystr :=
  makedirs_steps (length (dirname filename)) (on_disk w) (dirname filename).

Definition directories_left (filename : pystr) (w : world) : list pystr :=
  take (os_made_dirs w) (rev (tl (directories_to_make filename w))).

Definition created_line (filename : pystr) : pystr :=
  (lit " Created directory: " ++ dirname filename) ++ nl.

Definition saved_line (filename text : pystr) : pystr :=
  (lit " Data saved successfully to '" ++ filename ++ lit "' (" ++
   group3 (length (str_N (utf8_len text))) (utf8_len text) ++
   lit " bytes)") ++ nl.

(** The suite from [open] on, in a world [w1] in which the directory has
    been dealt with. *)
Definition save_from_open (filename text : pystr) (w1 : world)
  : outcome bool * world :=
  match os_refuses w1 (OpOpenW filename) with
  | Some e => (Raise e, w1)
  | None =>
      match os_refuses w1 (OpWrite filename) with
      | Some e =>
          (Raise e,
           set_fs_files (insert filename (take (os_short_write w1) text)) w1)
      | None =>
          let w3 := set_fs_files (insert filename text) w1 in
          match os_refuses w1 (OpGetsize filename) with
          | Some e => (Raise e, w3)
          | None =>
              (Return true,
               set_stdout (fun o => o ++ [saved_line filename text]) w3)
          end
      end
  end.

(** What a call of [save_data_to_file] leaves on disk, from the least to
    the most: nothing new; new directories only, when the directory of
    the file was missing; the file, with the first [n] characters of the
    record; the file, with the whole record. *)
Inductive disk_after (filename text : pystr) (w w' : world) : Prop :=
| disk_untouched :
    fs_files w' = fs_files w -> fs_dirs w' = fs_dirs w ->
    disk_after filename text w w'
| disk_directories_only :
    directory_missing filename w = true ->
    fs_files w' = fs_files w -> fs_dirs w ⊆ fs_dirs w' ->
    disk_after filename text w w'
| disk_file_cut n :
    fs_files w' = <[filename := take n text]> (fs_files w) ->
    disk_after filename text w w'
| disk_file_whole :
    fs_files w' = <[filename := text]> (fs_files w) ->
    disk_after filename text w w'.

Definition denied_line (filename : pystr) : pystr :=
  (lit " Error: Permission denied writing to '" ++ filename ++ lit "'") ++ nl.

(** The name of the output file for a symbol, in a world whose next clock
    reading stamps it. *)
Definition output_name (symbol : pystr) (w : world) : pystr :=
  lit "stock_data_" ++ symbol ++ lit "_" ++
  strftime_compact (clock w (clock_reads w)) ++ lit ".json".

(** The world in which [main] calls [fetch_stock_data], once both answers
    are in and the world is [w]. *)
Definition before_fetch (w : world) : world :=
  set_stdout (fun o => o ++ [times (lit "-") 60 ++ nl])
    (set_stdout (fun o => o ++ [[] ++ nl]) (tick w)).

(** The lines that end a run whose fetch failed. *)
Definition no_data_lines : list pystr :=
  [ [] ++ nl;
    times (lit "=") 60 ++ nl;
    lit " Operation failed - no data to save" ++ nl;
    times (lit "=") 60 ++ nl;
    (nl ++ lit " Troubleshooting tips:") ++ nl;
    (lit "   " ++ bullet ++ lit " Check your API key is valid") ++ nl;
    (lit "   " ++ bullet ++ lit " Verify the stock symbol is correct") ++ nl;
    (lit "   " ++ bullet ++
     lit " Ensure you haven't exceeded API rate limits") ++ nl;
    (lit "   " ++ bullet ++ lit " Check your internet connection") ++ nl ].

Definition not_saved_line : pystr :=
  (nl ++ lit "  Data fetched but could not be saved") ++ nl.

Definition success_lines (symbol filename : pystr) : list pystr :=
  [ [] ++ nl;
    times (lit "=") 60 ++ nl;
    lit " Operation completed successfully!" ++ nl;
    (lit " Stock data for " ++ symbol ++ lit " saved to " ++ filename) ++ nl;
    times (lit "=") 60 ++ nl ].

Definition say (lines : list pystr) (w : world) : world :=
  set_stdout (fun o => o ++ lines) w.

(** The statements of [main] after the two prompts. *)
Definition pipeline (api_key stock_symbol : pystr) : M unit :=
  now <- datetime_now ;;
  let timestamp := strftime_compact now in
  let filename := lit "stock_data_" ++ stock_symbol ++ lit "_" ++
                  timestamp ++ lit ".json" in
  print [] ;;
  print (times (lit "-") 60) ;;
  stock_data <- fetch_stock_data api_url api_key stock_symbol ;;
  if truthy stock_data then
    print [] ;;
    success <- save_data_to_file stock_data filename stock_symbol ;;
    if success : bool then
      print [] ;;
      print (times (lit "=") 60) ;;
      print (lit " Operation completed successfully!") ;;
      print (lit " Stock data for " ++ stock_symbol ++ lit " saved to " ++
             filename) ;;
      print (times (lit "=") 60)
    else
      print (nl ++ lit "  Data fetched but could not be saved") ;;
      sys_exit 1
  else
    print [] ;;
    print (times (lit "=") 60) ;;
    print (lit " Operation failed - no data to save") ;;
    print (times (lit "=") 60) ;;
    print (nl ++ lit " Troubleshooting tips:") ;;
    print (lit "   " ++ bullet ++ lit " Check your API key is valid") ;;
    print (lit "   " ++ bullet ++ lit " Verify the stock symbol is correct") ;;
    print (lit "   " ++ bullet ++
           lit " Ensure you haven't exceeded API rate limits") ;;
    print (lit "   " ++ bullet ++ lit " Check your internet connection") ;;
    sys_exit 1.

Definition banner (w : world) : world :=
  say [ times (lit "=") 60 ++ nl;
        lit " Stock Market Data Fetcher - Enhanced Version" ++ nl;
        times (lit "=") 60 ++ nl;
        [] ++ nl ] w.

Definition key_prompt : pystr := lit "Enter your Alpha Vantage API key".
Definition symbol_prompt : pystr :=
  lit "Enter stock symbol (e.g., IBM, AAPL, MSFT)".
Definition symbol_check : pystr -> bool :=
  fun s => validate_stock_symbol (PStr s).

(** The world after the optional warning about the key. *)
Definition warned (api_key : pystr) (w : world) : world :=
  if negb (validate_api_key (PStr api_key)) &&
     negb (str_eqb api_key (lit "demo"))
  then say [lit "  Warning: API key looks invalid (using anyway)" ++ nl] w
  else w.

(** How a run of [main] can end.  [run_cancelled]: Ctrl-C at a prompt.
    [run_end_of_input]: the terminal closed at a prompt.  [run_no_data]:
    the fetch returned None.  [run_data]: the fetch returned a payload
    and [save_data_to_file] was called with it; [b] is what it
    returned. *)
Inductive main_run (w : world) (o : outcome unit) (w' : world) : Prop :=
| run_cancelled :
    o = Raise (SystemExit 0) -> keeps true w w' ->
    (exists pre, stdout w' = pre ++ [cancelled]) ->
    main_run w o w'
| run_end_of_input :
    o = Raise (SystemExit 1) -> keeps true w w' ->
    (exists pre, stdout w' = pre ++ [end_of_input]) ->
    main_run w o w'
| run_no_data api_key symbol wi wf :
    fetch_stock_data api_url api_key symbol (before_fetch wi) =
      (Return PNone, wf) ->
    o = Raise (SystemExit 1) -> keeps true w w' ->
    w' = say no_data_lines wf ->
    main_run w o w'
| run_data api_key symbol wi wf data b ws :
    accepted (Some symbol_check) symbol ->
    fetch_stock_data api_url api_key symbol (before_fetch wi) =
      (Return data, wf) ->
    well_formed_answer w (query_url api_url api_key symbol) data ->
    keeps true w wf ->
    save_data_to_file data (output_name symbol wi) symbol (say [[] ++ nl] wf) =
      (Return b, ws) ->
    disk_after (output_name symbol wi)
               (record_text data symbol (say [[] ++ nl] wf)) w ws ->
    (b = true ->
     fs_files ws = <[output_name symbol wi :=
                       record_text data symbol (say [[] ++ nl] wf)]>
                     (fs_files w)) ->
    (o, w') = (if b
               then (Return tt,
                     say (success_lines symbol (output_name symbol wi)) ws)
               else (Raise (SystemExit 1), say [not_saved_line] ws)) ->
    main_run w o w'.

(** What the user typed at the two prompts, defaults applied. *)
Definition typed_key (line : pystr) : pystr :=
  answer_of (Some (lit "demo")) line.
Definition typed_symbol (line : pystr) : pystr :=
  answer_of (Some (lit "IBM")) line.

(** The world after both prompts were answered with the lines [k] and
    [s]. *)
Definition after_prompts (k s : pystr) (rest : list input_event)
  (w : world) : world :=
  set_stdin rest
    (say [prompt_text symbol_prompt (Some (lit "IBM"))]
       (warned (typed_key k)
          (set_stdin (Line s :: rest)
             (say [prompt_text key_prompt (Some (lit "demo"))] (banner w))))).

Definition timed_out_line : pystr :=
  lit " Error: Request timed out after 10 seconds" ++ nl.

Definition fetched_line (symbol : pystr) : pystr :=
  (lit " Successfully fetched data for " ++ symbol) ++ nl.

End Day03Terms.

Section ScriptTerms.
Context {RT : Runtime}.

(** The two lines with which [main] of day-04 starts. *)
Definition started (w : world) : world :=
  say [ (nl ++ lit " Starting Log Analysis...") ++ nl;
        (lit " Reading log file: " ++ Day04.log_file) ++ nl ] w.

Definition analysis_failed_line : pystr :=
  (nl ++ lit " Log analysis failed") ++ nl.

End ScriptTerms.

(** ** Words for the further properties of day-04 *)

Section Day04MoreTerms.
Context {RT : Runtime}.

(** The level under which [analyze_logs] files a line, if any. *)
Definition level_of (line : pystr) : option string :=
  let line := strip line in
  if contains (lit "INFO") line then Some "INFO"
  else if contains (lit "WARNING") line then Some "WARNING"
  else if contains (lit "ERROR") line then Some "ERROR"
  else None.

Definition filed_under (level : string) (line : pystr) : bool :=
  bool_decide (level_of line = Some level).

(** A line with something other than white space on it. *)
Definition non_blank (line : pystr) : bool :=
  negb (bool_decide (strip line = [])).

End Day04MoreTerms.

(** ** Words for reading a text file *)

(** [translated raw text]: [text] is what reading [raw] with universal
    newlines gives: a carriage return followed by a line feed, and every
    other carriage return, has become one line feed; nothing else has
    changed. *)
Inductive translated : pystr -> pystr -> Prop :=
| translated_nil : translated [] []
| translated_crlf raw text :
    translated raw text ->
    translated (13%N :: 10%N :: raw) (10%N :: text)
| translated_cr raw text :
    (forall rest, raw <> 10%N :: rest) ->
    translated raw text ->
    translated (13%N :: raw) (10%N :: text)
| translated_other c raw text :
    c <> 13%N ->
    translated raw text ->
    translated (c :: raw) (c :: text).

(** A line that ends at its only line feed. *)
Definition ended_line (line : pystr) : Prop :=
  exists body, line = body ++ nl /\ 10%N ∉ body.

(** [lines_of text lines]: [lines] is [text] cut after every line feed:
    lines that end at their line feed, then, when the text does not end
    with a line feed, what follows the last one. *)
Definition lines_of (text : pystr) (lines : list pystr) : Prop :=
  concat lines = text /\
  exists ended rest,
    lines = ended ++ rest /\ Forall ended_line ended /\
    (rest = [] \/ exists last, rest = [last] /\ last <> [] /\ 10%N ∉ last).

(** ** Words for what a run writes *)

(** [writes_only paths w w']: from [w] to [w'] the directories are the
    same and no file other than those named in [paths] was created or
    changed. *)
Definition writes_only (paths : list pystr) (w w' : world) : Prop :=
  fs_dirs w' = fs_dirs w /\
  forall p, p ∉ paths -> fs_files w' !! p = fs_files w !! p.

(** [confined paths m]: whatever [m] does, it writes only to [paths]. *)
Definition confined {A} (paths : list pystr) (m : M A) : Prop :=
  forall w, writes_only paths w (snd (m w)).

(** [ends_with s m]: when [m] returns, the last thing it printed is the
    line [s]. *)
Definition ends_with {A} (s : pystr) (m : M A) : Prop :=
  forall w a w', m w = (Return a, w') -> last (stdout w') = Some (s ++ nl).

(** The system lets [path] be opened for writing and written to. *)
Definition writable (path : pystr) (w : world) : Prop :=
  os_refuses w (OpOpenW path) = None /\ os_refuses w (OpWrite path) = None.

(** [succeeds path m]: [m] returns whenever [path] is writable. *)
Definition succeeds {A} (path : pystr) (m : M A) : Prop :=
  forall w, writable path w -> exists a, fst (m w) = Return a.

Section Day04WriteTerms.
Context {RT : Runtime}.

Definition text_written_line (path : pystr) : pystr :=
  lit " Text summary written to: " ++ path.
Definition text_failed_line (e : exn) : pystr :=
  lit "ERROR: Failed to write text summary: " ++ str_exn e.
Definition json_written_line (path : pystr) : pystr :=
  lit " JSON summary written to: " ++ path.
Definition json_failed_line (e : exn) : pystr :=
  lit "ERROR: Failed to write JSON summary: " ++ str_exn e.

(** The object that [write_json_summary] serialises, for an analysis and
    a reading of the clock. *)
Definition json_summary (a : Day04.analysis) (now : datetime) : pyval :=
  PDict [ (lit "timestamp", PStr (strftime_readable now));
          (lit "total_lines", PInt (Z.of_nat (Day04.total_lines a)));
          (lit "summary", Day04.counts_value a);
          (lit "details", Day04.details_value a) ].

Definition completed_line : pystr :=
  (nl ++ lit " Log analysis completed successfully!" ++ nl) ++ nl.

End Day04WriteTerms.

(** ** Words for the further properties of day-03 *)

Section Day03MoreTerms.
Context {RT : Runtime}.

(** What [str.isupper] asks of a string: for one character, that it be
    uppercase; for more, that none be lowercase or titlecase and one be
    uppercase. *)
Definition upper_cased (s : pystr) : Prop :=
  match s with
  | [c] => Py_UNICODE_ISUPPER c = true
  | _ =>
      Forall (fun c => Py_UNICODE_ISLOWER c = false /\
                       Py_UNICODE_ISTITLE c = false) s /\
      Exists (fun c => Py_UNICODE_ISUPPER c = true) s
  end.

Definition placeholder_key : pystr := lit "YOUR_API_KEY".

Definition key_warning_line : pystr :=
  lit "  Warning: API key looks invalid (using anyway)" ++ nl.

End Day03MoreTerms.

Section Day03FetchTerms.
Context {RT : Runtime}.

(** A status for which [raise_for_status] raises. *)
Definition error_status (r : response) : Prop :=
  (400 <= status_code r < 600)%N.

(** The text of the [HTTPError] that [raise_for_status] raises. *)
Definition http_error_text (r : response) : pystr :=
  str_N (status_code r) ++
  (if (status_code r <? 500)%N then lit " Client Error: "
   else lit " Server Error: ") ++
  reason r ++ lit " for url: " ++ resp_url r.

(** A parsed body that is neither an object, nor an array, nor a
    string: [null], a boolean or a number. *)
Definition scalar (v : pyval) : Prop :=
  match v with
  | PStr _ | PList _ | PDict _ => False
  | _ => True
  end.

End Day03FetchTerms.

Section Day03InputTerms.
Context {RT : Runtime}.

(** An answer that [get_user_input] returns: not empty and, when there
    is a validator, passed by it. *)
Definition acceptable (validator : option (pystr -> bool)) (s : pystr)
  : bool :=
  negb (bool_decide (s = [])) &&
  match validator with
  | Some check => check s
  | None => true
  end.

Definition empty_complaint : pystr :=
  lit " Input cannot be empty. Please try again." ++ nl.

Definition format_complaint : pystr :=
  lit " Invalid input format. Please try again." ++ nl.

(** What [get_user_input] prints for a line that it does not accept: the
    prompt, then the complaint. *)
Definition rejection (prompt : pystr) (default : option pystr)
  (typed : pystr) : list pystr :=
  [ prompt_text prompt default;
    if bool_decide (answer_of default typed = []) then empty_complaint
    else format_complaint ].

(** What it prints for a sequence of such lines. *)
Definition rejections (prompt : pystr) (default : option pystr)
  (lines : list pystr) : list pystr :=
  concat (map (rejection prompt default) lines).

End Day03InputTerms.

Section Day03SaveTerms.
Context {RT : Runtime}.

(** None of the calls that [save_data_to_file] makes for [filename] is
    refused. *)
Definition unhindered (filename : pystr) (w : world) : Prop :=
  (directory_missing filename w = true ->
   os_refuses w (OpMakedirs (dirname filename)) = None) /\
  os_refuses w (OpOpenW filename) = None /\
  os_refuses w (OpWrite filename) = None /\
  os_refuses w (OpGetsize filename) = None.

End Day03SaveTerms.

(** ** Words for day-02 *)

Section Day02Terms.
Context {RT : Runtime}.

(** The dictionary that [process_data] makes of five values. *)
Definition processed_user (id name email city company : pyval) : pyval :=
  PDict [ (lit "id", id); (lit "name", name); (lit "email", email);
          (lit "city", city); (lit "company", company) ].

(** [user] has the fields that [process_data] reads, with these
    values. *)
Definition has_fields (user id name email city company : pyval) : Prop :=
  py_getitem user (lit "id") = Return id /\
  py_getitem user (lit "name") = Return name /\
  py_getitem user (lit "email") = Return email /\
  (exists address,
      py_getitem user (lit "address") = Return address /\
      py_getitem address (lit "city") = Return city) /\
  (exists employer,
      py_getitem user (lit "company") = Return employer /\
      py_getitem employer (lit "name") = Return company).

(** An exception that a subscription raises. *)
Definition lookup_error (e : exn) : Prop :=
  exists msg, e = Exc KeyError msg \/ e = Exc TypeError msg.

Definition fetching_line : pystr := lit " Fetching data from API..." ++ nl.
Definition processing_line : pystr := lit " Processing data..." ++ nl.
Definition processed_header : pystr :=
  (nl ++ lit " Processed User Data:" ++ nl) ++ nl.
Definition saved_to_json_line : pystr :=
  (nl ++ lit " Data successfully saved to '" ++ Day02.OUTPUT_FILE ++ lit "'")
  ++ nl.
Definition hashes_line : pystr := lit "################################" ++ nl.

End Day02Terms.

Section Day04AlertTerms.
Context {RT : Runtime}.

Definition critical_line (errors : nat) : pystr :=
  (nl ++ lit "  CRITICAL: Found " ++ str_nat errors ++ lit " ERROR message(s)")
  ++ nl.

Definition attention_line (warnings : nat) : pystr :=
  (lit "  ATTENTION: Found " ++ str_nat warnings ++ lit " WARNING message(s)")
  ++ nl.

End Day04AlertTerms.

(** ** Words for the runs of [main] of day-03 *)

Section Day03RunTerms.
Context {RT : Runtime}.
Import Day03.

(** A line typed at the second prompt that does not give a symbol:
    [validate_stock_symbol] rejects what it stands for. *)
Definition no_symbol (line : pystr) : Prop :=
  symbol_check (typed_symbol line) = false.

(** [unanswered events]: what the terminal delivers does not complete
    the two prompts of [main]: nothing at all, or a line for the key
    followed by lines that give no symbol. *)
Inductive unanswered : list input_event -> Prop :=
| unanswered_key : unanswered []
| unanswered_symbol k rejected :
    Forall no_symbol rejected -> unanswered (Line k :: map Line rejected).

(** Both prompts are answered: a line [k] for the key, lines that give
    no symbol, then a line [s] that gives one. *)
Definition answered (events : list input_event) (k s : pystr) : Prop :=
  exists rejected rest,
    events = Line k :: map Line rejected ++ Line s :: rest /\
    Forall no_symbol rejected /\ symbol_check (typed_symbol s) = true.

(** Ctrl-C comes while a prompt waits. *)
Definition interrupted (events : list input_event) : Prop :=
  exists pre rest, unanswered pre /\ events = pre ++ CtrlC :: rest.

(** [only_terminal w w']: from [w] to [w'] nothing has changed but what
    was printed and what is left to read. *)
Definition only_terminal (w w' : world) : Prop :=
  fs_files w' = fs_files w /\ fs_dirs w' = fs_dirs w /\
  net w' = net w /\ os_errors w' = os_errors w /\
  os_short_write w' = os_short_write w /\
  os_made_dirs w' = os_made_dirs w /\
  clock w' = clock w /\ clock_reads w' = clock_reads w.

(** The record that [save_data_to_file] writes in a run of [main] that
    starts in [w]: the clock is read once for the name of the file and
    once more for the record. *)
Definition run_record (data : pyval) (symbol : pystr) (w : world) : pystr :=
  json_dumps 4
    (PDict [ (lit "metadata",
              PDict [ (lit "symbol", PStr symbol);
                      (lit "fetched_at",
                       PStr (isoformat (clock w (S (clock_reads w)))));
                      (lit "script_version", PStr (lit "1.1")) ]);
             (lit "stock_data", data) ]).

End Day03RunTerms.

(** * Properties *)

(** ** Strings *)

Example dirname_nested : dirname (lit "out/day3/x.json") = lit "out/day3".
Proof. vm_compute. reflexivity. Qed.

Example dirname_plain : dirname (lit "x.json") = [].
Proof. vm_compute. reflexivity. Qed.

Example dirname_root : dirname (lit "//x.json") = lit "//".
Proof. vm_compute. reflexivity. Qed.

Example strip_both_ends : strip ([32; 9] ++ lit "a b" ++ [13; 10])%N = lit "a b".
Proof. vm_compute. reflexivity. Qed.

Example group3_millions : group3 7 1234567 = lit "1,234,567".
Proof. vm_compute. reflexivity. Qed.

Example group3_zeros_inside : group3 4 1005 = lit "1,005".
Proof. vm_compute. reflexivity. Qed.

Example universal_newlines_mixed :
  universal_newlines (lit "a" ++ [13; 10]%N ++ lit "b" ++ [13]%N ++ lit "c")
  = lit "a" ++ nl ++ lit "b" ++ nl ++ lit "c".
Proof. vm_compute. reflexivity. Qed.

Example makedirs_steps_nested :
  makedirs_steps 5 (fun _ => false) (lit "a/b/c") =
    [lit "a/b/c"; lit "a/b"; lit "a"].
Proof. vm_compute. reflexivity. Qed.

Example exception_classes :
  subclass ConnectTimeout C_Timeout = true /\
  subclass ConnectTimeout C_ConnectionError = true /\
  subclass ReadTimeout C_ConnectionError = false /\
  subclass RequestsJSONDecodeError C_RequestException = true /\
  subclass JSONDecodeError C_RequestException = false /\
  subclass JSONDecodeError C_ValueError = true /\
  subclass PermissionError C_OSError = true /\
  isinstance KeyboardInterrupt C_Exception = false /\
  isinstance KeyboardInterrupt C_KeyboardInterrupt = true.
Proof. repeat split. Qed.

Example contains_is_case_sensitive :
  contains (lit "INFO") (lit "xxINFOyy") = true /\
  contains (lit "INFO") (lit "some info here") = false.
Proof. vm_compute. split; reflexivity. Qed.

Lemma startswith_spec p s :
  startswith p s = true <-> exists post, s = p ++ post.
Proof.
  revert s. induction p as [|a p IH]; intros s; simpl.
  - split; [intros _; now exists s | reflexivity].
  - destruct s as [|b s].
    + split; [discriminate | intros [post H]; discriminate].
    + rewrite andb_true_iff, N.eqb_eq, IH. split.
      * intros [-> [post ->]]. now exists post.
      * intros [post H]. injection H as -> ->. split; [reflexivity|now exists post].
Qed.

Lemma contains_spec needle hay :
  contains needle hay = true <-> occurs_in needle hay.
Proof.
  unfold occurs_in. induction hay as [|c hay IH]; simpl.
  - rewrite orb_false_r, startswith_spec. split.
    + intros [post H]. exists [], post. exact H.
    + intros [pre [post H]]. destruct pre as [|x pre]; [|discriminate].
      now exists post.
  - rewrite orb_true_iff, startswith_spec, IH. split.
    + intros [[post H] | [pre [post H]]].
      * exists [], post. exact H.
      * exists (c :: pre), post. simpl. now rewrite H.
    + intros [pre [post H]]. destruct pre as [|x pre].
      * left. now exists post.
      * right. injection H as _ H. now exists pre, post.
Qed.

(** ** day-04: classification and counting *)

Section Day04Facts.
Context {RT : Runtime}.
Import Day04.

Lemma not_contains_absent needle hay :
  contains needle hay = false -> ~ occurs_in needle hay.
Proof. intros H Hocc. apply contains_spec in Hocc. congruence. Qed.

Lemma blank_has_no_level : first_match [] None.
Proof.
  constructor. repeat constructor; apply not_contains_absent; reflexivity.
Qed.

Lemma analyze_line_cases (a : analysis) (line : pystr) :
  exists r, first_match (strip line) r /\
            counts (analyze_line a line) = bump r (counts a) /\
            total_lines (analyze_line a line) =
              total_lines a + (if bool_decide (strip line = []) then 0 else 1).
Proof.
  unfold analyze_line. case_bool_decide as Hblank.
  - exists None. rewrite Hblank. split; [apply blank_has_no_level|].
    split; [reflexivity | lia].
  - destruct (contains (lit "INFO") (strip line)) eqn:HI.
    { exists (Some "INFO"). split; [|split; reflexivity].
      apply (first_match_level _ [] "INFO" ["WARNING"; "ERROR"]);
        [reflexivity | now apply contains_spec | constructor]. }
    destruct (contains (lit "WARNING") (strip line)) eqn:HW.
    { exists (Some "WARNING"). split; [|split; reflexivity].
      apply (first_match_level _ ["INFO"] "WARNING" ["ERROR"]);
        [reflexivity | now apply contains_spec |].
      repeat constructor. now apply not_contains_absent. }
    destruct (contains (lit "ERROR") (strip line)) eqn:HE.
    { exists (Some "ERROR"). split; [|split; reflexivity].
      apply (first_match_level _ ["INFO"; "WARNING"] "ERROR" []);
        [reflexivity | now apply contains_spec |].
      repeat constructor; now apply not_contains_absent. }
    exists None. split; [|split; reflexivity].
    constructor. repeat constructor; now apply not_contains_absent.
Qed.

Lemma bump_lookup (r : option string) (m : gmap string nat) (k : string) :
  bump r m !!! k = m !!! k + (if decide (r = Some k) then 1 else 0).
Proof.
  destruct r as [level|]; simpl.
  - rewrite lookup_total_insert.
    destruct (decide (level = k)) as [->|Hne];
      destruct (decide (_ = Some k)) as [Heq|Hneq]; try congruence; lia.
  - destruct (decide (None = Some k)); [discriminate | lia].
Qed.

(** C6.  For every log line, [analyze_logs] classifies by case-sensitive
    substring match, first match wins in the order INFO, WARNING, ERROR:
    the line increments exactly one counter, that of the first level name
    occurring in the stripped line, and no counter when no level name
    occurs in it. *)
Theorem analyze_logs_first_match_wins (lines : list pystr) (line : pystr) :
  let before := analyze_logs lines in
  let after := analyze_logs (lines ++ [line]) in
  exists r,
    first_match (strip line) r /\
    counts after = bump r (counts before) /\
    forall k, counts after !!! k =
              counts before !!! k + (if decide (r = Some k) then 1 else 0).
Proof.
  intros before after.
  assert (Hstep : after = analyze_line before line).
  { unfold after, before, analyze_logs. now rewrite fold_left_app. }
  rewrite Hstep.
  destruct (analyze_line_cases before line) as (r & Hr & Hc & _).
  exists r. split; [exact Hr|]. split; [exact Hc|].
  intros k. rewrite Hc. apply bump_lookup.
Qed.

Lemma three_levels_initial : three_levels (counts initial_analysis).
Proof. unfold three_levels. simpl. rewrite !dom_insert_L. set_solver. Qed.

Lemma three_levels_bump r m :
  (forall level, r = Some level -> In level level_names) ->
  three_levels m -> three_levels (bump r m).
Proof.
  unfold three_levels. intros Hr Hm. destruct r as [level|]; simpl; [|exact Hm].
  rewrite dom_insert_L, Hm. specialize (Hr level eq_refl). simpl in Hr.
  destruct Hr as [<-|[<-|[<-|[]]]]; set_solver.
Qed.

Lemma first_match_in_names line level :
  first_match line (Some level) -> In level level_names.
Proof.
  inversion 1 as [earlier l later Heq _ _|]; subst.
  rewrite Heq. apply in_or_app. right. now left.
Qed.

Lemma sum_values_three (m : gmap string nat) :
  three_levels m -> sum_values m = sum3 m.
Proof.
  unfold three_levels, sum_values, sum3. intros Hdom.
  assert (Hm : m = <["INFO" := m !!! "INFO"]>
                     (<["WARNING" := m !!! "WARNING"]>
                        (<["ERROR" := m !!! "ERROR"]> ∅))).
  { apply map_eq. intros i.
    assert (Hin : forall k, k ∈ dom m -> m !! k = Some (m !!! k)).
    { intros k Hk. apply lookup_lookup_total. now apply elem_of_dom. }
    destruct (decide (i = "INFO")) as [->|H1].
    { rewrite lookup_insert_eq. apply Hin. rewrite Hdom. set_solver. }
    rewrite lookup_insert_ne by congruence.
    destruct (decide (i = "WARNING")) as [->|H2].
    { rewrite lookup_insert_eq. apply Hin. rewrite Hdom. set_solver. }
    rewrite lookup_insert_ne by congruence.
    destruct (decide (i = "ERROR")) as [->|H3].
    { rewrite lookup_insert_eq. apply Hin. rewrite Hdom. set_solver. }
    rewrite lookup_insert_ne by congruence. rewrite lookup_empty.
    apply not_elem_of_dom. rewrite Hdom. set_solver. }
  rewrite Hm at 1.
  rewrite map_fold_insert_L.
  - rewrite map_fold_insert_L.
    + rewrite map_fold_insert_L, map_fold_empty.
      * lia.
      * intros; lia.
      * apply lookup_empty.
    + intros; lia.
    + rewrite lookup_insert_ne by discriminate. apply lookup_empty.
  - intros; lia.
  - rewrite !lookup_insert_ne by discriminate. apply lookup_empty.
Qed.

Lemma analyze_line_accounting (a : analysis) (line : pystr) :
  three_levels (counts a) ->
  three_levels (counts (analyze_line a line)) /\
  total_lines (analyze_line a line) + sum3 (counts a) =
    total_lines a + sum3 (counts (analyze_line a line)) +
    (if unmatched line then 1 else 0).
Proof.
  intros H3. unfold analyze_line, unmatched.
  case_bool_decide as Hblank; simpl; [split; [exact H3|lia]|].
  destruct (contains (lit "INFO") (strip line)); simpl.
  { split; [apply (three_levels_bump (Some "INFO")); [|exact H3];
            intros ? [= <-]; simpl; tauto|].
    unfold sum3. rewrite lookup_total_insert_eq.
    rewrite !lookup_total_insert_ne by discriminate. lia. }
  destruct (contains (lit "WARNING") (strip line)); simpl.
  { split; [apply (three_levels_bump (Some "WARNING")); [|exact H3];
            intros ? [= <-]; simpl; tauto|].
    unfold sum3. rewrite lookup_total_insert_eq.
    rewrite !lookup_total_insert_ne by discriminate. lia. }
  destruct (contains (lit "ERROR") (strip line)); simpl.
  { split; [apply (three_levels_bump (Some "ERROR")); [|exact H3];
            intros ? [= <-]; simpl; tauto|].
    unfold sum3. rewrite lookup_total_insert_eq.
    rewrite !lookup_total_insert_ne by discriminate. lia. }
  split; [exact H3 | lia].
Qed.

Lemma analyze_fold_accounting (lines : list pystr) (a : analysis) :
  three_levels (counts a) ->
  let a' := fold_left analyze_line lines a in
  three_levels (counts a') /\
  total_lines a' + sum3 (counts a) =
    total_lines a + sum3 (counts a') + length (filter unmatched lines).
Proof.
  revert a. induction lines as [|line lines IH]; intros a H3; simpl.
  - split; [exact H3 | lia].
  - destruct (analyze_line_accounting a line H3) as [H3' Hstep].
    destruct (IH _ H3') as [H3'' Hrest]. split; [exact H3''|].
    unfold filter. simpl. fold (filter unmatched lines).
    destruct (unmatched line); simpl; lia.
Qed.

Lemma print_run (s : pystr) (w : world) :
  print s w = (Return tt, set_stdout (fun o => o ++ [s ++ nl]) w).
Proof. reflexivity. Qed.

(** C9.  For every list of log lines the three level counts add up to at
    most [total_lines]: the difference is the number of non-blank lines in
    which no level name occurs.  The row that [print_summary] prints for
    a level shows, after the name and the count, the count divided by the
    sum of the three counts, times 100 (0 when the sum is 0); that sum
    is in general not [total_lines], and the quotient over [total_lines]
    would differ. *)
Theorem level_counts_within_total_lines (lines : list pystr) :
  let a := analyze_logs lines in
  let total_messages :=
    counts a !!! "INFO" + counts a !!! "WARNING" + counts a !!! "ERROR" in
  total_messages <= total_lines a /\
  total_lines a = total_messages + length (filter unmatched lines) /\
  sum_values (counts a) = total_messages /\
  (forall w, exists header footer,
      length header = 5 /\
      stdout (snd (print_summary a w)) =
        stdout w ++ header ++
        map (fun level =>
               let count := counts a !!! level in
               let share :=
                 if (total_messages =? 0)%nat then 0%Q
                 else (inject_Z (Z.of_nat count) /
                       inject_Z (Z.of_nat total_messages) * 100)%Q in
               (lit level ++ repeat 32%N (10 - length (lit level)) ++
                lit " : " ++
                repeat 32%N (4 - length (str_nat count)) ++ str_nat count ++
                lit " (" ++ format_5_1f share ++ lit "%)") ++ nl)
            ["INFO"; "WARNING"; "ERROR"] ++ footer) /\
  (exists other,
      let b := analyze_logs other in
      let count := counts b !!! "INFO" in
      let sum := counts b !!! "INFO" + counts b !!! "WARNING" +
                 counts b !!! "ERROR" in
      ~ (inject_Z (Z.of_nat count) / inject_Z (Z.of_nat sum) * 100 ==
         inject_Z (Z.of_nat count) / inject_Z (Z.of_nat (total_lines b)) * 100)%Q).
Proof.
  intros a total_messages.
  destruct (analyze_fold_accounting lines initial_analysis three_levels_initial)
    as [H3 Hacc].
  fold (analyze_logs lines) in H3, Hacc. fold a in H3, Hacc.
  assert (Hinit : sum3 (counts initial_analysis) = 0) by reflexivity.
  assert (Htot0 : total_lines initial_analysis = 0) by reflexivity.
  rewrite Hinit, Htot0 in Hacc.
  change (counts a !!! "INFO" + counts a !!! "WARNING" + counts a !!! "ERROR")
    with (sum3 (counts a)) in total_messages.
  subst total_messages.
  split; [lia|]. split; [lia|].
  split; [now apply sum_values_three|]. split.
  - intros w. unfold print_summary. rewrite (sum_values_three _ H3).
    unfold bind, for_each, bind. rewrite !print_run.
    destruct (0 <? counts a !!! "ERROR")%nat;
      destruct (0 <? counts a !!! "WARNING")%nat;
      unfold ret; rewrite ?print_run;
      unfold level_row, ljust, rjust, spaces, percentage;
      cbn [snd stdout set_stdout map]; rewrite <- !app_assoc; cbn [app];
      (eexists [_; _; _; _; _], _; split; [reflexivity|]);
      cbn [app]; reflexivity.
  - exists [lit "INFO started"; lit "plain text"].
    vm_compute. discriminate.
Qed.

End Day04Facts.

(** [analyze_logs] on a small log: one INFO line that also names ERROR,
    one WARNING line, one line without a level, one blank line. *)
Example analyze_logs_small :
  let a := Day04.analyze_logs
             [ lit "INFO retry after ERROR" ++ nl;
               lit "WARNING disk almost full" ++ nl;
               lit "started" ++ nl;
               nl ] in
  Day04.counts a !!! "INFO" = 1 /\ Day04.counts a !!! "WARNING" = 1 /\
  Day04.counts a !!! "ERROR" = 0 /\ Day04.total_lines a = 3.
Proof. vm_compute. auto. Qed.

(** ** Running computations: frames and raised exceptions *)

Lemma ordinary_Exc t msg : ordinary (Exc t msg).
Proof. now destruct t. Qed.

Lemma as_outcome_ordinary {A} (r : answer A) e :
  as_outcome r = Raise e -> ordinary e.
Proof. destruct r; [discriminate|]. intros [= <-]. apply ordinary_Exc. Qed.

Lemma os_refuses_ordinary w op e : os_refuses w op = Some e -> ordinary e.
Proof.
  unfold os_refuses. destruct (os_errors w op) as [[t msg]|]; [|discriminate].
  intros [= <-]. apply ordinary_Exc.
Qed.

Lemma network_ordinary w url t e : network w url t = Raise e -> ordinary e.
Proof. apply as_outcome_ordinary. Qed.

Lemma json_ordinary r e : json r = Raise e -> ordinary e.
Proof. apply as_outcome_ordinary. Qed.

(** Writing to the terminal, reading from it, changing the disk and
    reading the clock leave the oracles as they are. *)
Lemma os_refuses_stdout f w : os_refuses (set_stdout f w) = os_refuses w.
Proof. reflexivity. Qed.

Lemma os_refuses_stdin i w : os_refuses (set_stdin i w) = os_refuses w.
Proof. reflexivity. Qed.

Lemma os_refuses_files f w : os_refuses (set_fs_files f w) = os_refuses w.
Proof. reflexivity. Qed.

Lemma os_refuses_dirs f w : os_refuses (set_fs_dirs f w) = os_refuses w.
Proof. reflexivity. Qed.

Lemma os_refuses_tick w : os_refuses (tick w) = os_refuses w.
Proof. reflexivity. Qed.

Lemma network_stdout f w : network (set_stdout f w) = network w.
Proof. reflexivity. Qed.

Lemma network_stdin i w : network (set_stdin i w) = network w.
Proof. reflexivity. Qed.

Lemma network_files f w : network (set_fs_files f w) = network w.
Proof. reflexivity. Qed.

Lemma network_dirs f w : network (set_fs_dirs f w) = network w.
Proof. reflexivity. Qed.

Lemma network_tick w : network (tick w) = network w.
Proof. reflexivity. Qed.

Create Rewrite HintDb oracles.
#[export] Hint Rewrite os_refuses_stdout os_refuses_stdin os_refuses_files
  os_refuses_dirs os_refuses_tick network_stdout network_stdin
  network_files network_dirs network_tick : oracles.

Lemma keeps_refl disk w : keeps disk w w.
Proof. unfold keeps. auto. Qed.

Lemma keeps_trans disk w1 w2 w3 :
  keeps disk w1 w2 -> keeps disk w2 w3 -> keeps disk w1 w3.
Proof.
  unfold keeps. intros (Ho & Hn & Hd) (Ho' & Hn' & Hd').
  split; [congruence|]. split; [congruence|].
  intros Hdisk. destruct (Hd Hdisk), (Hd' Hdisk). split; congruence.
Qed.

Lemma keeps_any disk w w' : keeps true w w' -> keeps disk w w'.
Proof. unfold keeps. intros (Ho & Hn & Hd). auto. Qed.

Lemma keeps_stdout disk f w : keeps disk w (set_stdout f w).
Proof. unfold keeps. simpl. auto. Qed.

Lemma bind_cases {A B} (m : M A) (k : A -> M B) w o w' :
  bind m k w = (o, w') ->
  (exists a w1, m w = (Return a, w1) /\ k a w1 = (o, w')) \/
  (exists e, m w = (Raise e, w') /\ o = Raise e).
Proof.
  unfold bind. destruct (m w) as [[a|e] w1]; intros H.
  - left. eauto.
  - right. injection H as <- <-. eauto.
Qed.

Lemma bind_Return {A B} (m : M A) (k : A -> M B) w a w1 :
  m w = (Return a, w1) -> bind m k w = k a w1.
Proof. unfold bind. now intros ->. Qed.

Lemma bind_Raise {A B} (m : M A) (k : A -> M B) w e w1 :
  m w = (Raise e, w1) -> bind m k w = (Raise e, w1).
Proof. unfold bind. now intros ->. Qed.

Lemma try_Return {A} (body : M A) hs w a w1 :
  body w = (Return a, w1) -> try_except body hs w = (Return a, w1).
Proof. unfold try_except. now intros ->. Qed.

Lemma try_Raise {A} (body : M A) hs w e w1 h :
  body w = (Raise e, w1) -> find_handler e hs = Some h ->
  try_except body hs w = h e w1.
Proof. unfold try_except. now intros -> ->. Qed.

Section Behaves.
Context {A B : Type}.
Implicit Types (P Q : exn -> Prop) (disk : bool).

Lemma behaves_ret disk P (a : A) : behaves disk P (ret a).
Proof. intros w. split; [apply keeps_refl | discriminate]. Qed.

Lemma behaves_raise disk P e : P e -> behaves disk P (raise (A := A) e).
Proof.
  intros HP w. split; [apply keeps_refl|]. simpl. now intros ? [= <-].
Qed.

Lemma behaves_lift disk P (o : outcome A) :
  (forall e, o = Raise e -> P e) -> behaves disk P (lift o).
Proof. intros HP w. split; [apply keeps_refl | exact HP]. Qed.

Lemma behaves_weaken disk P Q (m : M A) :
  (forall e, P e -> Q e) -> behaves true P m -> behaves disk Q m.
Proof.
  intros HPQ Hm w. destruct (Hm w) as [Hk He].
  split; [now apply keeps_any | auto].
Qed.

Lemma behaves_mono disk P Q (m : M A) :
  (forall e, P e -> Q e) -> behaves disk P m -> behaves disk Q m.
Proof.
  intros HPQ Hm w. destruct (Hm w) as [Hk He]. split; auto.
Qed.

Lemma behaves_bind disk P (m : M A) (k : A -> M B) :
  behaves disk P m -> (forall a, behaves disk P (k a)) ->
  behaves disk P (bind m k).
Proof.
  intros Hm Hk w. destruct (Hm w) as [Hkeep He].
  unfold bind. destruct (m w) as [[a|e] w1]; simpl in *.
  - destruct (Hk a w1) as [Hkeep' He'].
    split; [eapply keeps_trans; eassumption | exact He'].
  - split; [exact Hkeep|]. intros e' [= <-]. now apply He.
Qed.

Lemma behaves_try disk P Q (body : M A) hs :
  behaves disk Q body ->
  Forall (fun ch => forall e, behaves disk P (snd ch e)) hs ->
  (forall e, Q e -> find_handler e hs = None -> P e) ->
  behaves disk P (try_except body hs).
Proof.
  intros Hbody Hhs Hmiss w. destruct (Hbody w) as [Hkeep He].
  unfold try_except. destruct (body w) as [[a|e] w1]; simpl in *.
  - split; [exact Hkeep | discriminate].
  - destruct (find_handler e hs) as [h|] eqn:Hfind.
    + assert (Hh : forall e', behaves disk P (h e')).
      { clear -Hhs Hfind. induction hs as [|[c h'] hs IH]; [discriminate|].
        inversion Hhs as [|? ? Hhead Htail]; subst. simpl in Hfind.
        destruct (isinstance e c); [injection Hfind as <-; exact Hhead|].
        now apply IH. }
      destruct (Hh e w1) as [Hkeep' He'].
      split; [eapply keeps_trans; eassumption | exact He'].
    + split; [exact Hkeep|]. intros e' [= <-]. apply Hmiss; auto.
Qed.

End Behaves.

Lemma behaves_print disk P s : behaves disk P (print s).
Proof. intros w. split; [apply keeps_stdout | discriminate]. Qed.

Lemma behaves_for_each {A} disk P (xs : list A) (body : A -> M unit) :
  (forall x, behaves disk P (body x)) -> behaves disk P (for_each xs body).
Proof.
  intros Hbody. induction xs as [|x xs IH]; simpl.
  - apply behaves_ret.
  - apply behaves_bind; [apply Hbody | intros _; exact IH].
Qed.

Lemma behaves_now disk P : behaves disk P datetime_now.
Proof.
  intros w. split; [|discriminate]. unfold keeps. simpl. auto.
Qed.

Lemma behaves_exists disk P path : behaves disk P (os_path_exists path).
Proof. intros w. split; [apply keeps_refl | discriminate]. Qed.

Lemma ordinary_not_found msg : ordinary (Exc FileNotFoundError msg).
Proof. reflexivity. Qed.

Lemma behaves_open_w path : behaves false ordinary (open_w path).
Proof.
  intros w. pose proof (os_refuses_ordinary w) as Hos. unfold open_w.
  destruct (os_refuses w (OpOpenW path)) as [e|] eqn:Href; simpl.
  - split; [apply keeps_refl|]. intros ? [= <-]. eauto.
  - split; [|discriminate]. unfold keeps. simpl. split; [|split]; auto.
    discriminate.
Qed.

Lemma behaves_file_write path text :
  behaves false ordinary (file_write path text).
Proof.
  intros w. pose proof (os_refuses_ordinary w) as Hos. unfold file_write.
  destruct (os_refuses w (OpWrite path)) as [e|] eqn:Href; simpl.
  - split; [|intros ? [= <-]; eauto].
    unfold keeps. simpl. split; [|split]; auto. discriminate.
  - split; [|discriminate]. unfold keeps. simpl. split; [|split]; auto.
    discriminate.
Qed.

Lemma behaves_makedirs path : behaves false ordinary (os_makedirs path).
Proof.
  intros w. pose proof (os_refuses_ordinary w) as Hos. unfold os_makedirs.
  destruct (os_refuses w (OpMakedirs path)) as [e|] eqn:Href; simpl.
  - split; [|intros ? [= <-]; eauto].
    unfold keeps. simpl. split; [|split]; auto. discriminate.
  - split; [|discriminate]. unfold keeps. simpl. split; [|split]; auto.
    discriminate.
Qed.

Lemma behaves_getsize disk path : behaves disk ordinary (os_path_getsize path).
Proof.
  intros w. pose proof (os_refuses_ordinary w) as Hos. unfold os_path_getsize.
  destruct (os_refuses w (OpGetsize path)) as [e|] eqn:Href; simpl.
  - split; [apply keeps_refl|]. intros ? [= <-]. eauto.
  - destruct (fs_files w !! path); simpl;
      (split; [apply keeps_refl|]); [discriminate|].
    intros ? [= <-]. reflexivity.
Qed.

Lemma behaves_readlines disk path :
  behaves disk ordinary (open_r_readlines path).
Proof.
  intros w. pose proof (os_refuses_ordinary w) as Hos. unfold open_r_readlines.
  destruct (os_refuses w (OpOpenR path)) as [e|] eqn:Href; simpl.
  - split; [apply keeps_refl|]. intros ? [= <-]. eauto.
  - destruct (fs_files w !! path); simpl;
      (split; [apply keeps_refl|]); [discriminate|].
    intros ? [= <-]. reflexivity.
Qed.

(** A handler list that ends in [except Exception] catches every
    ordinary exception. *)
Lemma find_handler_ordinary {A} e (hs : list (exn_class * (exn -> M A))) h :
  ordinary e -> In (C_Exception, h) hs -> find_handler e hs <> None.
Proof.
  intros He. induction hs as [|[c h'] hs IH]; simpl; [tauto|].
  intros [Heq|Hin].
  - injection Heq as -> ->. unfold ordinary in He. now rewrite He.
  - destruct (isinstance e c); [discriminate | now apply IH].
Qed.

Create HintDb behaves.
#[export] Hint Resolve behaves_ret behaves_print behaves_now behaves_exists
  behaves_open_w behaves_file_write behaves_makedirs behaves_getsize
  behaves_readlines : behaves.

Lemma behaves_returns {A} disk (m : M A) w :
  behaves disk never m ->
  exists a w', m w = (Return a, w') /\ keeps disk w w'.
Proof.
  intros Hm. destruct (Hm w) as [Hkeep He].
  destruct (m w) as [[a|e] w']; simpl in *.
  - eauto.
  - destruct (He e eq_refl).
Qed.

(** Splitting a sequence of statements into its steps. *)
Ltac behave :=
  cbv zeta;
  repeat first
    [ apply behaves_ret
    | apply behaves_print
    | apply behaves_now
    | apply behaves_exists
    | apply behaves_open_w
    | apply behaves_file_write
    | apply behaves_makedirs
    | apply behaves_getsize
    | apply behaves_readlines
    | apply behaves_bind; [|intros ?]
    | apply behaves_for_each; intros ?
    | apply behaves_raise; reflexivity
    | match goal with
      | |- behaves _ _ (if ?c then _ else _) => destruct c
      | |- behaves _ _ (match ?x with _ => _ end) => destruct x
      end ]; cbv zeta.

(** The obligations of a [try] whose last clause is [except Exception]. *)
Ltac behave_try_all :=
  apply behaves_try with (Q := ordinary);
  [ | repeat (apply List.Forall_cons; [intros ?; simpl|]); try apply List.Forall_nil
    | intros e He Hnone; exfalso;
      eapply (find_handler_ordinary e); [exact He | | exact Hnone];
      simpl; eauto 10 ].

(** ** day-04: reading the log and the exit status *)

Section Day04Runs.
Context {RT : Runtime}.
Import Day04.

Lemma read_log_file_behaves path : behaves true never (read_log_file path).
Proof. unfold read_log_file. behave_try_all; behave. Qed.

Lemma print_summary_behaves a : behaves true never (print_summary a).
Proof. unfold print_summary. behave. Qed.

Lemma write_text_summary_behaves a path :
  behaves false never (write_text_summary a path).
Proof. unfold write_text_summary. behave_try_all; behave. Qed.

Lemma write_json_summary_behaves a path :
  behaves false never (write_json_summary a path).
Proof. unfold write_json_summary. behave_try_all; behave. Qed.

Lemma day04_main_behaves : behaves false never main.
Proof.
  unfold main. behave.
  - eapply behaves_weaken; [|apply read_log_file_behaves]. auto.
  - apply write_text_summary_behaves.
  - apply write_json_summary_behaves.
Qed.

End Day04Runs.

Lemma splitlines_keepends_concat cur text :
  concat (splitlines_keepends cur text) = cur ++ text.
Proof.
  revert cur. induction text as [|c t IH]; intros cur; cbn.
  - destruct cur; cbn; [reflexivity | now rewrite app_nil_r].
  - destruct (c =? 10)%N; cbn; rewrite IH, <- ?app_assoc; reflexivity.
Qed.

Lemma splitlines_keepends_nil cur text :
  splitlines_keepends cur text = [] -> cur = [] /\ text = [].
Proof.
  revert cur. induction text as [|c t IH]; intros cur; cbn.
  - destruct cur; [auto | discriminate].
  - destruct (c =? 10)%N; [discriminate|].
    intros H. destruct (IH _ H) as [Hcur _]. now destruct cur.
Qed.

Lemma universal_newlines_nil text : universal_newlines text = [] -> text = [].
Proof.
  destruct text as [|c t]; [reflexivity|]. cbn.
  destruct (c =? 13)%N; discriminate.
Qed.

Lemma universal_newlines_plain text :
  13%N ∉ text -> universal_newlines text = text.
Proof.
  induction text as [|c t IH]; [reflexivity|]. intros Hc. cbn.
  destruct (N.eqb_spec c 13) as [->|_]; [exfalso; apply Hc; left|].
  rewrite IH; [reflexivity|]. intros H. apply Hc. now right.
Qed.

Lemma universal_newlines_translated raw :
  translated raw (universal_newlines raw).
Proof.
  assert (H : forall n raw, length raw <= n ->
                            translated raw (universal_newlines raw)).
  { clear raw. induction n as [|n IH]; intros raw Hn.
    - destruct raw; [constructor | cbn in Hn; lia].
    - destruct raw as [|c t]; [constructor|]. cbn in Hn. cbn.
      destruct (N.eqb_spec c 13) as [->|Hc].
      + destruct t as [|c' t'].
        * apply translated_cr; [discriminate | constructor].
        * destruct (N.eqb_spec c' 10) as [->|Hc'].
          -- apply translated_crlf, IH. cbn in Hn. lia.
          -- apply translated_cr; [intros rest [= ? _]; contradiction|].
             apply IH. lia.
      + apply translated_other; [exact Hc|]. apply IH. lia. }
  now apply (H (length raw)).
Qed.

Lemma splitlines_keepends_lines cur text :
  10%N ∉ cur -> lines_of (cur ++ text) (splitlines_keepends cur text).
Proof.
  intros Hcur. split; [apply splitlines_keepends_concat|].
  revert cur Hcur. induction text as [|c t IH]; intros cur Hcur; cbn.
  - exists []. destruct cur as [|x cur].
    + exists []. auto.
    + exists [x :: cur]. split; [reflexivity|]. split; [constructor|].
      right. exists (x :: cur). auto.
  - destruct (N.eqb_spec c 10) as [->|Hc].
    + destruct (IH [] (not_elem_of_nil _)) as (ended & rest & -> & He & Hr).
      exists ((cur ++ [10%N]) :: ended), rest. split; [reflexivity|].
      split; [|exact Hr]. constructor; [|exact He]. now exists cur.
    + apply IH. rewrite elem_of_app, list_elem_of_singleton. intros [H|H];
        [contradiction | congruence].
Qed.

Section Day04Empty.
Context {RT : Runtime}.
Import Day04.

Lemma read_log_file_empty (w : world) (path text : pystr) :
  fs_files w !! path = Some text ->
  splitlines_keepends [] text = [] ->
  read_log_file path w =
    (Return None,
     set_stdout
       (fun o => o ++ [empty_log_diagnostic path
                         (os_refuses w (OpOpenR path)) ++ nl]) w).
Proof.
  intros Hfile Hlines.
  unfold read_log_file, try_except, bind, open_r_readlines.
  destruct (os_refuses w (OpOpenR path)) as [e|] eqn:Href.
  - pose proof (os_refuses_ordinary w _ e Href) as Hord. destruct e as [t msg| |code]; [|discriminate|discriminate].
    destruct t; try discriminate; reflexivity.
  - apply splitlines_keepends_nil in Hlines as [_ ->].
    rewrite Hfile. reflexivity.
Qed.

(** C10.  [read_log_file] treats an empty log file as an error: for an
    existing file with no lines it returns None after printing a
    diagnostic (the [ValueError] it raises itself is caught by its own
    handler), so [main] reports "Log analysis failed", returns, and
    writes no summary file. *)
Theorem empty_log_file_is_reported_as_failure
  (w : world) (path text : pystr) :
  fs_files w !! path = Some text ->
  splitlines_keepends [] text = [] ->
  exists diag,
    read_log_file path w =
      (Return None, set_stdout (fun o => o ++ [diag ++ nl]) w) /\
    (os_refuses w (OpOpenR path) = None ->
     diag = lit "ERROR: Log file is empty") /\
    (path = log_file ->
     exists w',
       main w = (Return tt, w') /\
       stdout w' = stdout w ++
                   [ nl ++ lit " Starting Log Analysis..." ++ nl;
                     lit " Reading log file: app.log" ++ nl;
                     diag ++ nl;
                     nl ++ lit " Log analysis failed" ++ nl ] /\
       fs_files w' = fs_files w /\ fs_dirs w' = fs_dirs w).
Proof.
  intros Hfile Hlines.
  exists (empty_log_diagnostic path (os_refuses w (OpOpenR path))).
  split; [now apply (read_log_file_empty w path text)|].
  split; [now intros ->|].
  intros ->. unfold main.
  set (w2 := set_stdout (fun o => o ++ [(lit " Reading log file: " ++ log_file) ++ nl])
               (set_stdout (fun o => o ++ [(nl ++ lit " Starting Log Analysis...") ++ nl]) w)).
  pose proof (read_log_file_empty w2 log_file text Hfile Hlines) as Hread2.
  change (os_refuses w2) with (os_refuses w) in Hread2.
  eexists. split.
  - unfold bind at 1. rewrite print_run. unfold bind at 1. rewrite print_run.
    fold w2. unfold bind at 1. rewrite Hread2. unfold bind, ret.
    rewrite print_run. reflexivity.
  - cbn [stdout fs_files fs_dirs set_stdout w2]. subst w2.
    cbn [stdout fs_files fs_dirs set_stdout].
    rewrite <- !app_assoc. auto.
Qed.

End Day04Empty.

Lemma empty_log_file_is_reported_as_failure_witness :
  let w := Sample.with_log [] (Sample.good_day Sample.nothing_refused) in
  fs_files w !! Day04.log_file = Some [] /\
  exists w',
    Day04.main (RT := Sample.runtime) w = (Return tt, w') /\
    last (stdout w') = Some analysis_failed_line /\
    fs_files w' = fs_files w.
Proof.
  intros w. split; [vm_compute; reflexivity|].
  destruct (empty_log_file_is_reported_as_failure (RT := Sample.runtime)
              w Day04.log_file [])
    as (diag & _ & _ & Hmain);
    [vm_compute; reflexivity | reflexivity |].
  destruct (Hmain eq_refl) as (w' & Hrun & Hout & Hfiles & _).
  exists w'. split; [exact Hrun|]. split; [|exact Hfiles].
  rewrite Hout. reflexivity.
Defined.

(** ** day-03: the fetch *)

Section Day03Fetch.
Context {RT : Runtime}.
Import Day03.

Lemma raise_for_status_ok r w :
  status_ok r -> raise_for_status r w = (Return tt, w).
Proof.
  unfold status_ok, raise_for_status.
  rewrite orb_true_iff, N.ltb_lt, N.leb_le. intros H.
  destruct (N.leb_spec 400 (status_code r)), (N.ltb_spec (status_code r) 500),
    (N.leb_spec 500 (status_code r)), (N.ltb_spec (status_code r) 600);
    simpl; try reflexivity; exfalso; lia.
Qed.

Lemma py_in_ordinary key v e : py_in key v = Raise e -> ordinary e.
Proof. destruct v; simpl; intros [= <-]; reflexivity. Qed.

Lemma py_getitem_ordinary v key e : py_getitem v key = Raise e -> ordinary e.
Proof.
  destruct v; simpl; try (intros [= <-]; reflexivity).
  destruct (find _ _); intros [= <-]; reflexivity.
Qed.

(** A value in which a non-empty key is found is not None and is true. *)
Lemma py_in_true_truthy key v :
  key <> [] -> py_in key v = Return true -> v <> PNone /\ truthy v = true.
Proof.
  intros Hkey. destruct v as [| | | |s|l|items]; simpl; try discriminate.
  - intros [= Hc]. split; [discriminate|].
    destruct s; [|reflexivity]. destruct key; [congruence | discriminate].
  - intros [= Hc]. split; [discriminate|]. destruct l; [discriminate | reflexivity].
  - intros [= Hc]. split; [discriminate|].
    destruct items; [discriminate | reflexivity].
Qed.

Lemma fetch_except_catches e :
  ordinary e ->
  exists h line,
    find_handler e fetch_stock_data_except = Some h /\
    forall w, h e w = (Return PNone, set_stdout (fun o => o ++ [line ++ nl]) w).
Proof.
  destruct e as [t msg| |code]; [|discriminate|discriminate].
  destruct t; try discriminate; intros _; cbn;
    eexists _, _; split; reflexivity.
Qed.

Lemma fetch_try_unreachable api_url api_key symbol w e :
  network w (query_url api_url api_key symbol) (Some 10%N) = Raise e ->
  fetch_stock_data_try api_url api_key symbol w = (Raise e, asked symbol w).
Proof.
  intros Hnet. unfold fetch_stock_data_try. cbv zeta.
  unfold bind at 1. rewrite print_run. unfold bind at 1, requests_get.
  rewrite network_stdout. unfold query_url in Hnet. rewrite Hnet.
  reflexivity.
Qed.

Lemma fetch_try_http_error api_url api_key symbol w r :
  network w (query_url api_url api_key symbol) (Some 10%N) = Return r ->
  ~ status_ok r ->
  exists msg,
    fetch_stock_data_try api_url api_key symbol w =
      (Raise (Exc HTTPError msg), asked symbol w).
Proof.
  intros Hnet Hstatus. unfold fetch_stock_data_try. cbv zeta.
  unfold bind at 1. rewrite print_run. unfold bind at 1, requests_get.
  rewrite network_stdout. unfold query_url in Hnet. rewrite Hnet.
  unfold bind at 1, raise_for_status. unfold status_ok in Hstatus.
  rewrite orb_true_iff, N.ltb_lt, N.leb_le in Hstatus.
  destruct (N.leb_spec 400 (status_code r)), (N.ltb_spec (status_code r) 500),
    (N.leb_spec 500 (status_code r)), (N.ltb_spec (status_code r) 600);
    simpl; try (exfalso; lia); eexists; reflexivity.
Qed.

Lemma fetch_try_parsed api_url api_key symbol w r :
  network w (query_url api_url api_key symbol) (Some 10%N) = Return r ->
  status_ok r ->
  fetch_stock_data_try api_url api_key symbol w =
    match json r with
    | Raise e => (Raise e, asked symbol w)
    | Return data =>
        match py_in (lit "Error Message") data with
        | Raise e => (Raise e, asked symbol w)
        | Return true =>
            (Return PNone,
             set_stdout (fun o => o ++ [(lit " API Error: Invalid stock symbol '" ++
                                         symbol ++ lit "'") ++ nl])
                        (asked symbol w))
        | Return false =>
            match py_in (lit "Note") data with
            | Raise e => (Raise e, asked symbol w)
            | Return true =>
                match py_getitem data (lit "Note") with
                | Raise e => (Raise e, asked symbol w)
                | Return note =>
                    (Return PNone,
                     set_stdout (fun o => o ++ [(lit "  API Rate Limit: " ++
                                                 str_value note) ++ nl])
                                (asked symbol w))
                end
            | Return false =>
                match py_in (lit "Time Series (Daily)") data with
                | Raise e => (Raise e, asked symbol w)
                | Return false =>
                    (Return PNone,
                     set_stdout (fun o => o ++ [lit " Unexpected API response format" ++ nl])
                                (asked symbol w))
                | Return true =>
                    (Return data,
                     set_stdout (fun o => o ++ [(lit " Successfully fetched data for " ++
                                                 symbol) ++ nl])
                                (asked symbol w))
                end
            end
        end
    end.
Proof.
  intros Hnet Hstatus. unfold fetch_stock_data_try. cbv zeta.
  unfold bind at 1. rewrite print_run. unfold bind at 1, requests_get.
  rewrite network_stdout. unfold query_url in Hnet. rewrite Hnet.
  unfold bind at 1. rewrite (raise_for_status_ok _ _ Hstatus).
  unfold bind at 1, response_json, lift.
  destruct (json r) as [data|e]; [|reflexivity].
  unfold bind at 1.
  destruct (py_in (lit "Error Message") data) as [[|]|e]; [reflexivity| |reflexivity].
  unfold bind at 1.
  destruct (py_in (lit "Note") data) as [[|]|e]; [| |reflexivity].
  - unfold bind at 1.
    destruct (py_getitem data (lit "Note")) as [note|e]; reflexivity.
  - unfold bind at 1.
    destruct (py_in (lit "Time Series (Daily)") data) as [[|]|e]; reflexivity.
Qed.

(** Every call of [fetch_stock_data] returns, after printing two lines
    and touching nothing else; what it returns is None, or else the body
    of a response with a good status, parsed, in which "Error Message"
    and "Note" are not found and "Time Series (Daily)" is. *)
Lemma fetch_stock_data_cases api_url api_key symbol w :
  exists v line,
    fetch_stock_data api_url api_key symbol w =
      (Return v, set_stdout (fun o => o ++ [line ++ nl]) (asked symbol w)) /\
    (v = PNone \/
     well_formed_answer w (query_url api_url api_key symbol) v /\
     line = lit " Successfully fetched data for " ++ symbol).
Proof.
  assert (Hcatch : forall e,
    ordinary e ->
    fetch_stock_data_try api_url api_key symbol w = (Raise e, asked symbol w) ->
    exists v line,
      fetch_stock_data api_url api_key symbol w =
        (Return v, set_stdout (fun o => o ++ [line ++ nl]) (asked symbol w)) /\
      (v = PNone \/
       well_formed_answer w (query_url api_url api_key symbol) v /\
       line = lit " Successfully fetched data for " ++ symbol)).
  { intros e He Htry. destruct (fetch_except_catches e He) as (h & line & Hh & Hrun).
    exists PNone, line. split; [|now left].
    unfold fetch_stock_data. rewrite (try_Raise _ _ _ _ _ _ Htry Hh). apply Hrun. }
  destruct (network w (query_url api_url api_key symbol) (Some 10%N))
    as [r|e] eqn:Hget.
  2:{ apply (Hcatch e);
        [eapply network_ordinary; exact Hget | now apply fetch_try_unreachable]. }
  destruct (bool_decide (status_ok r)) eqn:Hst.
  2:{ apply bool_decide_eq_false in Hst.
      destruct (fetch_try_http_error _ _ _ _ _ Hget Hst) as [msg Htry].
      apply (Hcatch (Exc HTTPError msg)); [reflexivity | exact Htry]. }
  apply bool_decide_eq_true in Hst.
  pose proof (fetch_try_parsed _ _ _ _ _ Hget Hst) as Htry.
  destruct (json r) as [data|e] eqn:Hbody.
  2:{ apply (Hcatch e); [eapply json_ordinary; exact Hbody | exact Htry]. }
  destruct (py_in (lit "Error Message") data) as [[|]|e] eqn:H1.
  3:{ apply (Hcatch e); [eapply py_in_ordinary; eauto | exact Htry]. }
  { eexists PNone, _. split; [|now left].
    unfold fetch_stock_data. now rewrite (try_Return _ _ _ _ _ Htry). }
  destruct (py_in (lit "Note") data) as [[|]|e] eqn:H2.
  3:{ apply (Hcatch e); [eapply py_in_ordinary; eauto | exact Htry]. }
  { destruct (py_getitem data (lit "Note")) as [note|e] eqn:H3.
    - eexists PNone, _. split; [|now left].
      unfold fetch_stock_data. now rewrite (try_Return _ _ _ _ _ Htry).
    - apply (Hcatch e); [eapply py_getitem_ordinary; eauto | exact Htry]. }
  destruct (py_in (lit "Time Series (Daily)") data) as [[|]|e] eqn:H3.
  3:{ apply (Hcatch e); [eapply py_in_ordinary; eauto | exact Htry]. }
  - exists data, (lit " Successfully fetched data for " ++ symbol).
    split; [unfold fetch_stock_data; now rewrite (try_Return _ _ _ _ _ Htry)|].
    right. split; [|reflexivity]. exists r. auto 10.
  - eexists PNone, _. split; [|now left].
    unfold fetch_stock_data. now rewrite (try_Return _ _ _ _ _ Htry).
Qed.

End Day03Fetch.

(** ** day-03: the prompts *)

Section Day03Input.
Context {RT : Runtime}.
Import Day03.

Lemma body_eof prompt default validator w :
  stdin w = [] ->
  get_user_input_body prompt default validator w =
    (Raise (SystemExit 1),
     set_stdout (fun o => o ++ [end_of_input])
       (set_stdout (fun o => o ++ [prompt_text prompt default]) w)).
Proof.
  intros Hin. unfold get_user_input_body, try_except, prompt_text.
  destruct default as [d|]; [destruct (bool_decide (d = []))|]; cbn [negb];
    unfold bind at 1; unfold bind at 1; unfold bind at 1, input;
    cbn [stdin set_stdout]; rewrite Hin; reflexivity.
Qed.

Lemma body_ctrl_c prompt default validator w rest :
  stdin w = CtrlC :: rest ->
  get_user_input_body prompt default validator w =
    (Raise (SystemExit 0),
     set_stdout (fun o => o ++ [cancelled])
       (set_stdin rest
          (set_stdout (fun o => o ++ [prompt_text prompt default]) w))).
Proof.
  intros Hin. unfold get_user_input_body, try_except, prompt_text.
  destruct default as [d|]; [destruct (bool_decide (d = []))|]; cbn [negb];
    unfold bind at 1; unfold bind at 1; unfold bind at 1, input;
    cbn [stdin set_stdout]; rewrite Hin; reflexivity.
Qed.

Lemma body_line prompt default validator w typed rest :
  stdin w = Line typed :: rest ->
  let w1 := set_stdin rest
              (set_stdout (fun o => o ++ [prompt_text prompt default]) w) in
  let s := answer_of default typed in
  get_user_input_body prompt default validator w =
    if bool_decide (s = []) then
      (Return None,
       set_stdout (fun o => o ++ [lit " Input cannot be empty. Please try again." ++ nl]) w1)
    else if match validator with
            | Some check => negb (check s)
            | None => false
            end
    then
      (Return None,
       set_stdout (fun o => o ++ [lit " Invalid input format. Please try again." ++ nl]) w1)
    else (Return (Some s), w1).
Proof.
  intros Hin. unfold get_user_input_body, try_except, prompt_text, answer_of.
  destruct default as [d|]; [destruct (bool_decide (d = []))|]; cbn [negb];
    unfold bind at 1; unfold bind at 1; unfold bind at 1, input;
    cbn [stdin set_stdout]; rewrite Hin; cbn [ret];
    repeat match goal with
           | |- context [bool_decide ?P] => destruct (bool_decide P) eqn:?
           | |- context [match validator with _ => _ end] => destruct validator
           | |- context [negb (?c ?s)] => destruct (c s) eqn:?
           end; try reflexivity.
Qed.

Lemma keeps_stdin disk i w : keeps disk w (set_stdin i w).
Proof. unfold keeps. simpl. auto. Qed.

Lemma get_user_input_loop_cases prompt default validator passes w :
  length (stdin w) < passes ->
  exists o w',
    get_user_input_loop passes prompt default validator w = (o, w') /\
    keeps true w w' /\ input_outcome validator o w'.
Proof.
  revert w. induction passes as [|passes IH]; intros w Hlen; [lia|].
  cbn [get_user_input_loop]. destruct (stdin w) as [|[typed|] rest] eqn:Hin.
  - rewrite (bind_Raise _ _ _ _ _ (body_eof _ _ _ _ Hin)).
    eexists _, _. split; [reflexivity|]. split.
    + eapply keeps_trans; apply keeps_stdout.
    + right. right. split; [reflexivity|]. cbn [stdout set_stdout]. eauto.
  - pose proof (body_line prompt default validator w typed rest Hin) as Hbody.
    cbv zeta in Hbody.
    set (w1 := set_stdin rest
                 (set_stdout (fun o => o ++ [prompt_text prompt default]) w)) in *.
    assert (Hk1 : keeps true w w1).
    { eapply keeps_trans; [apply keeps_stdout | apply keeps_stdin]. }
    assert (Hagain : forall line,
      exists o w',
        get_user_input_loop passes prompt default validator
          (set_stdout (fun o => o ++ [line]) w1) = (o, w') /\
        keeps true w w' /\ input_outcome validator o w').
    { intros line.
      destruct (IH (set_stdout (fun o => o ++ [line]) w1)) as (o & w' & Hrun & Hk & Hout).
      - cbn [stdin set_stdout set_stdin w1]. simpl in Hlen. lia.
      - exists o, w'. split; [exact Hrun|]. split; [|exact Hout].
        eapply keeps_trans; [exact Hk1|].
        eapply keeps_trans; [apply keeps_stdout | exact Hk]. }
    destruct (bool_decide (answer_of default typed = [])) eqn:Hempty.
    { rewrite (bind_Return _ _ _ _ _ Hbody). apply Hagain. }
    apply bool_decide_eq_false in Hempty.
    destruct validator as [check|].
    + destruct (check (answer_of default typed)) eqn:Hcheck; cbn [negb] in Hbody.
      * rewrite (bind_Return _ _ _ _ _ Hbody). eexists _, _.
        split; [reflexivity|]. split; [exact Hk1|]. left.
        eexists. split; [reflexivity|]. split; [exact Hempty|].
        intros ? [= <-]. exact Hcheck.
      * rewrite (bind_Return _ _ _ _ _ Hbody). apply Hagain.
    + rewrite (bind_Return _ _ _ _ _ Hbody). eexists _, _.
      split; [reflexivity|]. split; [exact Hk1|]. left.
      eexists. split; [reflexivity|]. split; [exact Hempty|]. discriminate.
  - rewrite (bind_Raise _ _ _ _ _ (body_ctrl_c _ _ _ _ _ Hin)).
    eexists _, _. split; [reflexivity|]. split.
    + eapply keeps_trans; [|apply keeps_stdout].
      eapply keeps_trans; [apply keeps_stdout | apply keeps_stdin].
    + right. left. split; [reflexivity|]. cbn [stdout set_stdout]. eauto.
Qed.

Lemma get_user_input_cases prompt default validator w :
  exists o w',
    get_user_input prompt default validator w = (o, w') /\
    keeps true w w' /\ input_outcome validator o w'.
Proof. unfold get_user_input. apply get_user_input_loop_cases. lia. Qed.

End Day03Input.

(** ** day-03: the save *)

Section Day03Save.
Context {RT : Runtime}.
Import Day03.

Lemma set_fs_files_twice f g w :
  set_fs_files f (set_fs_files g w) = set_fs_files (fun m => f (g m)) w.
Proof. reflexivity. Qed.

Lemma save_tail_eval filename text w1 :
  (open_w filename ;;
   file_write filename text ;;
   file_size <- os_path_getsize filename ;;
   print (lit " Data saved successfully to '" ++ filename ++ lit "' (" ++
          group3 (length (str_N file_size)) file_size ++ lit " bytes)") ;;
   ret true) w1 = save_from_open filename text w1.
Proof.
  unfold save_from_open. unfold bind at 1, open_w.
  destruct (os_refuses w1 (OpOpenW filename)) as [e|]; [reflexivity|].
  unfold bind at 1, file_write. rewrite os_refuses_files.
  cbn [set_fs_files fs_files os_short_write].
  rewrite lookup_insert_eq. cbn [default app].
  destruct (os_refuses w1 (OpWrite filename)) as [e|].
  { rewrite set_fs_files_twice.
    f_equal. unfold set_fs_files. f_equal. apply insert_insert_eq. }
  unfold bind at 1, os_path_getsize.
  rewrite !os_refuses_files. cbn [set_fs_files fs_files].
  destruct (os_refuses w1 (OpGetsize filename)) as [e|].
  { f_equal. unfold set_fs_files. cbn. f_equal. apply insert_insert_eq. }
  rewrite lookup_insert_eq. unfold bind at 1. rewrite print_run.
  unfold ret, saved_line. f_equal. unfold set_fs_files, set_stdout. cbn.
  f_equal. apply insert_insert_eq.
Qed.

(** The whole suite, step by step. *)
Lemma save_try_eval data filename symbol w :
  save_data_to_file_try data filename symbol w =
    let text := record_text data symbol w in
    if directory_missing filename w then
      match os_refuses w (OpMakedirs (dirname filename)) with
      | Some e =>
          (Raise e,
           set_fs_dirs (fun d => list_to_set (directories_left filename w) ∪ d)
                       (tick w))
      | None =>
          save_from_open filename text
            (set_stdout (fun o => o ++ [created_line filename])
               (set_fs_dirs
                  (fun d => list_to_set (directories_to_make filename w) ∪ d)
                  (tick w)))
      end
    else save_from_open filename text (tick w).
Proof.
  unfold save_data_to_file_try. unfold bind at 1, datetime_now. cbv zeta.
  unfold directory_missing, record_text.
  destruct (bool_decide (dirname filename = [])); cbn [negb andb].
  - unfold bind at 1, ret. unfold bind at 1, ret. apply save_tail_eval.
  - unfold bind at 1. unfold bind at 1, os_path_exists.
    cbn [fs_dirs fs_files tick ret].
    destruct (bool_decide (dirname filename ∈ fs_dirs w) ||
              bool_decide (is_Some (fs_files w !! dirname filename)));
      cbn [negb].
    + unfold bind at 1, ret. apply save_tail_eval.
    + unfold bind at 1. unfold bind at 1, os_makedirs. rewrite os_refuses_tick.
      destruct (os_refuses w (OpMakedirs (dirname filename))) as [e|];
        [reflexivity|].
      rewrite print_run. apply save_tail_eval.
Qed.

Lemma save_except_catches filename e :
  ordinary e ->
  exists h line,
    find_handler e (save_data_to_file_except filename) = Some h /\
    (forall w, h e w = (Return false, set_stdout (fun o => o ++ [line ++ nl]) w)) /\
    (isinstance e C_PermissionError = true ->
     line = lit " Error: Permission denied writing to '" ++ filename ++ lit "'").
Proof.
  destruct e as [t msg| |code]; [|discriminate|discriminate].
  destruct t; try discriminate; intros _; cbn;
    eexists _, _; (split; [reflexivity|]); (split; [reflexivity|]);
    try discriminate; reflexivity.
Qed.

End Day03Save.

Section Day03SaveFacts.
Context {RT : Runtime}.
Import Day03.

Lemma makedirs_steps_head fuel present name :
  name ∈ makedirs_steps fuel present name.
Proof.
  destruct fuel; cbn [makedirs_steps]; [apply list_elem_of_here|].
  destruct (path_split name) as [head tail].
  destruct (if bool_decide (tail = []) then path_split head else (head, tail))
    as [head' tail'].
  destruct (negb (bool_decide (head' = [])) && _ && _);
    apply list_elem_of_here.
Qed.

Lemma directory_made filename w :
  dirname filename ∈
    (list_to_set (directories_to_make filename w) ∪ fs_dirs w : gset pystr).
Proof. apply elem_of_union_l, elem_of_list_to_set, makedirs_steps_head. Qed.

(** Every call of [save_data_to_file] returns.  When it returns True the
    file holds the whole record; when it returns False one line was
    printed by the clause that caught the error. *)
Lemma save_data_to_file_cases data filename symbol w :
  exists b w',
    save_data_to_file data filename symbol w = (Return b, w') /\
    keeps false w w' /\
    disk_after filename (record_text data symbol w) w w' /\
    (b = true ->
     fs_files w' = <[filename := record_text data symbol w]> (fs_files w) /\
     exists pre, stdout w' =
                 pre ++ [saved_line filename (record_text data symbol w)]) /\
    (b = false -> exists pre line, stdout w' = pre ++ [line ++ nl]).
Proof.
  pose proof (os_refuses_ordinary w) as Hos.
  unfold save_data_to_file.
  pose proof (save_try_eval data filename symbol w) as Htry. cbv zeta in Htry.
  set (text := record_text data symbol w) in *.
  assert (Hcaught : forall e w1,
    ordinary e ->
    save_data_to_file_try data filename symbol w = (Raise e, w1) ->
    keeps false w w1 -> disk_after filename text w w1 ->
    exists b w',
      try_except (save_data_to_file_try data filename symbol)
                 (save_data_to_file_except filename) w = (Return b, w') /\
      keeps false w w' /\ disk_after filename text w w' /\
      (b = true ->
       fs_files w' = <[filename := text]> (fs_files w) /\
       exists pre, stdout w' = pre ++ [saved_line filename text]) /\
      (b = false -> exists pre line, stdout w' = pre ++ [line ++ nl])).
  { intros e w1 He Hrun Hk Hdisk.
    destruct (save_except_catches filename e He) as (h & line & Hh & Hrun' & _).
    exists false, (set_stdout (fun o => o ++ [line ++ nl]) w1).
    rewrite (try_Raise _ _ _ _ _ _ Hrun Hh), Hrun'.
    split; [reflexivity|]. split.
    { eapply keeps_trans; [exact Hk | apply keeps_stdout]. }
    split; [|split; [discriminate | intros _; cbn; eauto]].
    destruct Hdisk as [H1 H2|H0 H1 H2|n H1|H1];
      [ apply disk_untouched | apply disk_directories_only
      | apply (disk_file_cut _ _ _ _ n) | apply disk_file_whole ]; assumption. }
  assert (Hopen : forall w1,
    save_data_to_file_try data filename symbol w =
      save_from_open filename text w1 ->
    keeps false w w1 -> fs_files w1 = fs_files w ->
    os_refuses w1 = os_refuses w ->
    disk_after filename text w w1 ->
    exists b w',
      try_except (save_data_to_file_try data filename symbol)
                 (save_data_to_file_except filename) w = (Return b, w') /\
      keeps false w w' /\ disk_after filename text w w' /\
      (b = true ->
       fs_files w' = <[filename := text]> (fs_files w) /\
       exists pre, stdout w' = pre ++ [saved_line filename text]) /\
      (b = false -> exists pre line, stdout w' = pre ++ [line ++ nl])).
  { intros w1 Hrun Hk Hfiles Hsame Hdisk. unfold save_from_open in Hrun.
    rewrite Hsame in Hrun.
    assert (Hkf : forall f, keeps false w (set_fs_files f w1)).
    { intros f. eapply keeps_trans; [exact Hk|].
      unfold keeps. cbn. split; [|split]; auto; discriminate. }
    destruct (os_refuses w (OpOpenW filename)) as [e|] eqn:Ho.
    { apply (Hcaught e w1); eauto. }
    destruct (os_refuses w (OpWrite filename)) as [e|] eqn:Hwr.
    { eapply (Hcaught e); [eauto | exact Hrun | apply Hkf|].
      apply (disk_file_cut _ _ _ _ (os_short_write w1)). cbn. now rewrite Hfiles. }
    cbv zeta in Hrun.
    destruct (os_refuses w (OpGetsize filename)) as [e|] eqn:Hg.
    { eapply (Hcaught e); [eauto | exact Hrun | apply Hkf|].
      apply disk_file_whole. cbn. now rewrite Hfiles. }
    eexists true, _. rewrite (try_Return _ _ _ _ _ Hrun).
    split; [reflexivity|]. split.
    { eapply keeps_trans; [apply Hkf | apply keeps_stdout]. }
    split; [apply disk_file_whole; cbn; now rewrite Hfiles|].
    split; [|discriminate]. intros _.
    cbn [fs_files stdout set_stdout set_fs_files]. rewrite Hfiles.
    split; [reflexivity | eexists; reflexivity]. }
  assert (Hk0 : keeps false w (tick w)).
  { unfold keeps. cbn. split; [|split]; auto; discriminate. }
  destruct (directory_missing filename w) eqn:Hmiss.
  - destruct (os_refuses w (OpMakedirs (dirname filename))) as [e|] eqn:Hmk.
    + eapply (Hcaught e); [eauto | exact Htry | |].
      * unfold keeps. cbn. split; [|split]; auto; discriminate.
      * apply disk_directories_only; [exact Hmiss | reflexivity|].
        cbn. set_solver.
    + apply (Hopen _ Htry); try reflexivity.
      * unfold keeps. cbn. split; [|split]; auto; discriminate.
      * apply disk_directories_only; [exact Hmiss | reflexivity|].
        cbn. set_solver.
  - apply (Hopen _ Htry); try reflexivity; [exact Hk0|].
    now apply disk_untouched.
Qed.

End Day03SaveFacts.

Section Day03Persist.
Context {RT : Runtime}.
Import Day03.

Lemma save_denied data filename symbol w e w1 :
  isinstance e C_PermissionError = true ->
  save_data_to_file_try data filename symbol w = (Raise e, w1) ->
  save_data_to_file data filename symbol w =
    (Return false, set_stdout (fun o => o ++ [denied_line filename]) w1).
Proof.
  intros He Hrun. unfold save_data_to_file.
  assert (Hord : ordinary e).
  { destruct e as [t msg| |c]; [|discriminate|discriminate].
    apply ordinary_Exc. }
  destruct (save_except_catches filename e Hord) as (h & line & Hh & Hrun' & Hline).
  rewrite (try_Raise _ _ _ _ _ _ Hrun Hh), Hrun', (Hline He). reflexivity.
Qed.

End Day03Persist.

(** ** Paths and the directories above them *)

Lemma lstrip_by_suffix p s : exists pre, s = pre ++ lstrip_by p s.
Proof.
  induction s as [|c s [pre IH]]; cbn; [now exists []|].
  destruct (p c); [|now exists []].
  exists (c :: pre). cbn. now rewrite <- IH.
Qed.

Lemma rstrip_by_prefix p s : exists post, s = rstrip_by p s ++ post.
Proof.
  unfold rstrip_by. destruct (lstrip_by_suffix p (rev s)) as [pre H].
  exists (rev pre). rewrite <- rev_app_distr, <- H. now rewrite rev_involutive.
Qed.

(** A path is its head, the slashes that end the head, and its tail. *)
Lemma path_split_parts p :
  exists slashes, p = fst (path_split p) ++ slashes ++ snd (path_split p).
Proof.
  unfold path_split, dirname. cbn [fst snd].
  set (i := rfind_slash_plus1 p).
  destruct (_ && _).
  - destruct (rstrip_by_prefix (fun c => (c =? 47)%N) (take i p)) as [post H].
    exists post. fold rstrip_slash in H.
    rewrite app_assoc, <- H. now rewrite take_drop.
  - exists []. cbn. now rewrite take_drop.
Qed.

(** The directories that [os.makedirs] makes before the one it is asked
    for are strictly above it. *)
Lemma makedirs_steps_above fuel present : forall name d,
  d ∈ tl (makedirs_steps fuel present name) ->
  exists rest, rest <> [] /\ name = d ++ rest.
Proof.
  induction fuel as [|fuel IH]; intros name d; cbn [makedirs_steps tl].
  { intros H. inversion H. }
  destruct (path_split_parts name) as [s0 H0].
  destruct (path_split name) as [head0 tail0]. cbn [fst snd] in H0.
  assert (Hsplit : exists head tail mid,
    (if bool_decide (tail0 = []) then path_split head0 else (head0, tail0))
      = (head, tail) /\ name = head ++ mid /\ (tail <> [] -> mid <> [])).
  { case_bool_decide as Ht.
    - destruct (path_split_parts head0) as [s1 H1].
      destruct (path_split head0) as [head tail]. cbn [fst snd] in H1.
      exists head, tail, (s1 ++ tail ++ s0 ++ tail0).
      split; [reflexivity|]. split.
      + rewrite H0 at 1. rewrite H1 at 1. now rewrite <- !app_assoc.
      + intros Hne H. apply app_eq_nil in H as [_ H].
        apply app_eq_nil in H as [H _]. contradiction.
    - exists head0, tail0, (s0 ++ tail0). split; [reflexivity|].
      split; [exact H0|]. intros _ H. apply app_eq_nil in H as [_ H].
      contradiction. }
  destruct Hsplit as (head & tail & mid & -> & Hname & Hmid).
  destruct (negb (bool_decide (head = [])) && negb (bool_decide (tail = [])) &&
            negb (present head)) eqn:Hcond; cbn [tl].
  2:{ intros H. inversion H. }
  apply andb_true_iff in Hcond as [Hcond _].
  apply andb_true_iff in Hcond as [_ Htail].
  apply negb_true_iff, bool_decide_eq_false in Htail.
  intros Hd.
  assert (Hhead : d = head \/ d ∈ tl (makedirs_steps fuel present head)).
  { destruct fuel; cbn [makedirs_steps] in Hd |- *.
    - apply list_elem_of_singleton in Hd. now left.
    - destruct (path_split head) as [h t].
      destruct (if bool_decide (t = []) then path_split h else (h, t))
        as [h' t'].
      destruct (negb (bool_decide (h' = [])) && _ && _).
      + apply elem_of_cons in Hd as [->|Hd]; [now left | now right].
      + apply list_elem_of_singleton in Hd. now left. }
  destruct Hhead as [->|Hd'].
  - exists mid. split; [now apply Hmid | exact Hname].
  - destruct (IH head d Hd') as (rest & Hrest & ->).
    exists (rest ++ mid). split.
    + intros H. apply app_eq_nil in H as [H _]. contradiction.
    + now rewrite <- app_assoc in Hname.
Qed.

Section Day03Refused.
Context {RT : Runtime}.
Import Day03.

Lemma directories_left_above filename w d :
  d ∈ directories_left filename w ->
  exists rest, rest <> [] /\ dirname filename = d ++ rest.
Proof.
  unfold directories_left, directories_to_make. intros H.
  apply elem_of_take in H as (i & H & _).
  apply list_elem_of_lookup_2, list_elem_of_In in H.
  apply in_rev, list_elem_of_In in H.
  now apply (makedirs_steps_above _ _ _ _ H).
Qed.

Lemma directory_missing_absent filename w :
  directory_missing filename w = true -> dirname filename ∉ fs_dirs w.
Proof.
  unfold directory_missing. intros H.
  apply andb_true_iff in H as [_ H]. apply negb_true_iff in H.
  apply orb_false_iff in H as [H _]. now apply bool_decide_eq_false in H.
Qed.

(** C8, as the code has it.  When the directory of the destination does
    not exist, [save_data_to_file] calls [os.makedirs] for it and, if
    the system refuses neither that nor the open, the write and the size
    query that follow, returns True with the directory and the file in
    place.  When [os.makedirs] or [open] is refused with
    [PermissionError], it returns False after the line of the
    [PermissionError] clause and creates no file.  Directories may stay
    behind: those above the directory of the destination that
    [os.makedirs] had made before it was refused, and the directory
    itself when it was made and the [open] that follows was refused. *)
Theorem save_data_to_file_directory_and_permission
  (data : pyval) (filename symbol : pystr) (w : world) :
  (directory_missing filename w = true ->
   os_refuses w (OpMakedirs (dirname filename)) = None ->
   os_refuses w (OpOpenW filename) = None ->
   os_refuses w (OpWrite filename) = None ->
   os_refuses w (OpGetsize filename) = None ->
   exists w',
     save_data_to_file data filename symbol w = (Return true, w') /\
     dirname filename ∈ fs_dirs w' /\
     fs_files w' = <[filename := record_text data symbol w]> (fs_files w)) /\
  (forall e,
     isinstance e C_PermissionError = true ->
     (directory_missing filename w = true /\
      os_refuses w (OpMakedirs (dirname filename)) = Some e ->
      exists w',
        save_data_to_file data filename symbol w = (Return false, w') /\
        stdout w' = stdout w ++ [denied_line filename] /\
        fs_files w' = fs_files w /\
        fs_dirs w ⊆ fs_dirs w' /\
        (dirname filename ∉ fs_dirs w') /\
        (forall d, d ∈ fs_dirs w' ->
                   d ∈ fs_dirs w \/
                   exists rest, rest <> [] /\ dirname filename = d ++ rest)) /\
     (directory_missing filename w = false /\
      os_refuses w (OpOpenW filename) = Some e ->
      exists w',
        save_data_to_file data filename symbol w = (Return false, w') /\
        stdout w' = stdout w ++ [denied_line filename] /\
        fs_files w' = fs_files w /\ fs_dirs w' = fs_dirs w) /\
     (directory_missing filename w = true /\
      os_refuses w (OpMakedirs (dirname filename)) = None /\
      os_refuses w (OpOpenW filename) = Some e ->
      exists w',
        save_data_to_file data filename symbol w = (Return false, w') /\
        stdout w' = stdout w ++ [created_line filename; denied_line filename] /\
        fs_files w' = fs_files w /\ dirname filename ∈ fs_dirs w')).
Proof.
  pose proof (save_try_eval data filename symbol w) as Htry. cbv zeta in Htry.
  split.
  - intros Hmiss Hmk Hopen Hwrite Hsize.
    rewrite Hmiss, Hmk in Htry. unfold save_from_open in Htry.
    autorewrite with oracles in Htry.
    rewrite Hopen, Hwrite, Hsize in Htry. cbv zeta in Htry.
    eexists. split; [unfold save_data_to_file; apply (try_Return _ _ _ _ _ Htry)|].
    cbn [fs_dirs fs_files set_stdout set_fs_files set_fs_dirs tick].
    split; [apply directory_made | reflexivity].
  - intros e He. split; [|split].
    + intros [Hmiss Hmk]. rewrite Hmiss, Hmk in Htry.
      eexists. split; [apply (save_denied _ _ _ _ _ _ He Htry)|].
      cbn [stdout fs_dirs fs_files set_stdout set_fs_dirs tick].
      split; [reflexivity|]. split; [reflexivity|].
      assert (Hnew : forall d,
        d ∈ (list_to_set (directories_left filename w) ∪ fs_dirs w
             : gset pystr) ->
        d ∈ fs_dirs w \/
        exists rest, rest <> [] /\ dirname filename = d ++ rest).
      { intros d Hd. apply elem_of_union in Hd as [Hd|Hd]; [right | now left].
        apply elem_of_list_to_set in Hd.
        now apply (directories_left_above filename w). }
      split; [set_solver|]. split; [|exact Hnew].
      intros Hin. destruct (Hnew _ Hin) as [Hold|(rest & Hrest & Heq)].
      * now apply (directory_missing_absent filename w).
      * apply (f_equal length) in Heq. rewrite length_app in Heq.
        destruct rest; [contradiction | cbn in Heq; lia].
    + intros [Hmiss Hopen]. rewrite Hmiss in Htry.
      unfold save_from_open in Htry. autorewrite with oracles in Htry.
      rewrite Hopen in Htry.
      eexists. split; [apply (save_denied _ _ _ _ _ _ He Htry)|].
      cbn [stdout fs_dirs fs_files set_stdout tick]. auto.
    + intros (Hmiss & Hmk & Hopen). rewrite Hmiss, Hmk in Htry.
      unfold save_from_open in Htry.
      autorewrite with oracles in Htry.
      rewrite Hopen in Htry.
      eexists. split; [apply (save_denied _ _ _ _ _ _ He Htry)|].
      cbn [stdout fs_dirs fs_files set_stdout set_fs_dirs tick].
      split; [now rewrite <- app_assoc|]. split; [reflexivity|].
      apply directory_made.
Qed.

End Day03Refused.

(** A destination two directories deep, neither of which exists.  On a
    system that lets the first directory be made and refuses the second
    with "Permission denied", [save_data_to_file] reports the refusal,
    returns False, and the first directory stays on disk.  On a system
    that lets both be made and refuses the [open] with "Permission
    denied", it reports the refusal after "Created directory", returns
    False, and both directories stay on disk. *)
Lemma permission_denied_leaves_directories :
  let barred := Sample.good_day
                  (Sample.refuses_only Sample.is_makedirs
                     Sample.permission_denied) in
  let locked := Sample.good_day
                  (Sample.refuses_only Sample.is_open_w
                     Sample.permission_denied) in
  let save := Day03.save_data_to_file (RT := Sample.runtime)
                Sample.daily_series (lit "a/b/x.json") (lit "IBM") in
  (fs_dirs barred = ∅ /\ fs_files barred = ∅ /\
   fst (save barred) = Return false /\
   stdout (snd (save barred)) = [denied_line (lit "a/b/x.json")] /\
   fs_dirs (snd (save barred)) = {[ lit "a" ]} /\
   fs_files (snd (save barred)) = ∅) /\
  (fs_dirs locked = ∅ /\ fs_files locked = ∅ /\
   fst (save locked) = Return false /\
   stdout (snd (save locked)) =
     [created_line (lit "a/b/x.json"); denied_line (lit "a/b/x.json")] /\
   fs_dirs (snd (save locked)) = {[ lit "a"; lit "a/b" ]} /\
   fs_files (snd (save locked)) = ∅).
Proof. vm_compute. auto 20. Qed.

Lemma save_data_to_file_directory_and_permission_witness :
  let ok := Sample.good_day Sample.nothing_refused in
  let locked := Sample.good_day
                  (Sample.refuses_only Sample.is_open_w Sample.permission_denied) in
  let barred := Sample.good_day
                  (Sample.refuses_only Sample.is_makedirs Sample.permission_denied) in
  let save := Day03.save_data_to_file (RT := Sample.runtime)
                Sample.daily_series (lit "a/b/x.json") (lit "IBM") in
  (exists w', save ok = (Return true, w') /\ lit "a/b" ∈ fs_dirs w') /\
  (exists w', save locked = (Return false, w') /\ fs_files w' = ∅ /\
              lit "a/b" ∈ fs_dirs w') /\
  (exists w', save barred = (Return false, w') /\ fs_files w' = ∅ /\
              lit "a/b" ∉ fs_dirs w').
Proof.
  intros ok locked barred save. split; [|split].
  - destruct (save_data_to_file_directory_and_permission (RT := Sample.runtime)
                Sample.daily_series (lit "a/b/x.json") (lit "IBM") ok)
      as [Hcreate _].
    destruct Hcreate as (w' & Hrun & Hdir & _);
      [vm_compute; reflexivity | reflexivity | reflexivity | reflexivity
      | reflexivity |].
    exists w'. split; [exact Hrun | exact Hdir].
  - destruct (save_data_to_file_directory_and_permission (RT := Sample.runtime)
                Sample.daily_series (lit "a/b/x.json") (lit "IBM") locked)
      as [_ Hdenied].
    destruct (Hdenied Sample.permission_error eq_refl) as (_ & _ & Hstay).
    destruct Hstay as (w' & Hrun & _ & Hfiles & Hdir);
      [split; [vm_compute; reflexivity | split; reflexivity]|].
    exists w'. split; [exact Hrun|]. split; [exact Hfiles | exact Hdir].
  - destruct (save_data_to_file_directory_and_permission (RT := Sample.runtime)
                Sample.daily_series (lit "a/b/x.json") (lit "IBM") barred)
      as [_ Hdenied].
    destruct (Hdenied Sample.permission_error eq_refl) as (Hbar & _ & _).
    destruct Hbar as (w' & Hrun & _ & Hfiles & _ & Hdir & _);
      [split; [vm_compute; reflexivity | reflexivity]|].
    exists w'. split; [exact Hrun|]. split; [exact Hfiles | exact Hdir].
Defined.

(** ** day-03: [main] *)

Section Day03Main.
Context {RT : Runtime}.
Import Day03.

Lemma say_app l1 l2 w : say l2 (say l1 w) = say (l1 ++ l2) w.
Proof.
  unfold say, set_stdout. cbn. f_equal. now rewrite app_assoc.
Qed.

Lemma print_say s w : print s w = (Return tt, say [s ++ nl] w).
Proof. reflexivity. Qed.

Lemma main_unfold w :
  main w =
    match get_user_input key_prompt (Some (lit "demo")) None (banner w) with
    | (Raise e, w1) => (Raise e, w1)
    | (Return api_key, w1) =>
        match get_user_input symbol_prompt (Some (lit "IBM"))
                (Some symbol_check) (warned api_key w1) with
        | (Raise e, w2) => (Raise e, w2)
        | (Return symbol, w2) => pipeline api_key symbol w2
        end
    end.
Proof.
  unfold main. do 4 (unfold bind at 1; rewrite print_say).
  rewrite !say_app.
  match goal with
  | |- context [bind (get_user_input ?p ?d ?v) ?k ?w0] =>
      change (bind (get_user_input p d v) k w0)
        with (bind (get_user_input key_prompt d v) k (banner w))
  end.
  unfold bind at 1.
  destruct (get_user_input key_prompt (Some (lit "demo")) None (banner w))
    as [[api_key|e] w1]; [|reflexivity].
  unfold bind at 1, warned.
  destruct (negb (validate_api_key (PStr api_key)) &&
            negb (str_eqb api_key (lit "demo")));
    [rewrite print_say | unfold ret]; reflexivity.
Qed.

Lemma pipeline_no_data api_key symbol w wf :
  fetch_stock_data api_url api_key symbol (before_fetch w) = (Return PNone, wf) ->
  pipeline api_key symbol w = (Raise (SystemExit 1), say no_data_lines wf).
Proof.
  intros Hfetch. unfold pipeline. unfold bind at 1, datetime_now. cbv zeta.
  do 2 (unfold bind at 1; rewrite print_run). fold (before_fetch w).
  unfold bind at 1. rewrite Hfetch. cbn [truthy].
  do 9 (unfold bind at 1; rewrite print_say). rewrite !say_app. reflexivity.
Qed.

Lemma pipeline_data api_key symbol w data wf b ws :
  fetch_stock_data api_url api_key symbol (before_fetch w) = (Return data, wf) ->
  truthy data = true ->
  save_data_to_file data (output_name symbol w) symbol (say [[] ++ nl] wf) =
    (Return b, ws) ->
  pipeline api_key symbol w =
    if b then (Return tt, say (success_lines symbol (output_name symbol w)) ws)
    else (Raise (SystemExit 1), say [not_saved_line] ws).
Proof.
  intros Hfetch Htrue Hsave. unfold pipeline.
  unfold bind at 1, datetime_now. cbv zeta.
  do 2 (unfold bind at 1; rewrite print_run). fold (before_fetch w).
  unfold bind at 1. rewrite Hfetch, Htrue.
  unfold bind at 1. rewrite print_say. unfold bind at 1.
  fold (output_name symbol w). rewrite Hsave. destruct b.
  - do 4 (unfold bind at 1; rewrite print_say). rewrite print_say, !say_app.
    reflexivity.
  - unfold bind at 1. rewrite print_say. reflexivity.
Qed.

End Day03Main.

Section Day03Runs.
Context {RT : Runtime}.
Import Day03.

Lemma keeps_tick disk w : keeps disk w (tick w).
Proof. unfold keeps. cbn. auto. Qed.

Lemma keeps_say disk lines w : keeps disk w (say lines w).
Proof. apply keeps_stdout. Qed.

Lemma keeps_before_fetch disk w : keeps disk w (before_fetch w).
Proof.
  unfold before_fetch.
  eapply keeps_trans; [apply keeps_tick|].
  eapply keeps_trans; apply keeps_stdout.
Qed.

Lemma keeps_warned disk api_key w : keeps disk w (warned api_key w).
Proof. unfold warned. destruct (_ && _); [apply keeps_say | apply keeps_refl]. Qed.

Lemma keeps_asked disk symbol w : keeps disk w (asked symbol w).
Proof. apply keeps_stdout. Qed.

Lemma well_formed_answer_keeps disk w w' url v :
  keeps disk w w' -> well_formed_answer w' url v -> well_formed_answer w url v.
Proof.
  intros (_ & Hnet & _) (r & Hget & Hrest). exists r.
  rewrite Hnet in Hget. auto.
Qed.

Lemma well_formed_answer_truthy w url v :
  well_formed_answer w url v -> v <> PNone /\ truthy v = true.
Proof.
  intros (r & _ & _ & _ & _ & _ & Hseries).
  apply (py_in_true_truthy (lit "Time Series (Daily)")); [discriminate | exact Hseries].
Qed.

Lemma disk_after_keeps filename text w0 w w' :
  keeps true w0 w -> directory_missing filename w = directory_missing filename w0 ->
  disk_after filename text w w' -> disk_after filename text w0 w'.
Proof.
  intros (_ & _ & Hdisk) Hmiss. destruct (Hdisk eq_refl) as [Hf Hd].
  intros [H1 H2|H0 H1 H2|n H1|H1].
  - apply disk_untouched; congruence.
  - apply disk_directories_only; [congruence.. |]. now rewrite <- Hd.
  - apply (disk_file_cut _ _ _ _ n); congruence.
  - apply disk_file_whole; congruence.
Qed.

Lemma directory_missing_keeps filename w w' :
  keeps true w w' -> directory_missing filename w' = directory_missing filename w.
Proof.
  intros (_ & _ & Hdisk). destruct (Hdisk eq_refl) as [Hf Hd].
  unfold directory_missing. now rewrite Hf, Hd.
Qed.

(** A run of [main] ends at a prompt or reaches the statements after the
    prompts with an accepted symbol, the disk and the oracles being what
    they were. *)
Lemma main_reaches_pipeline w :
  exists o w',
    main w = (o, w') /\
    ((ended_at_prompt o w' /\ keeps true w w') \/
     exists api_key symbol wi,
       accepted (Some symbol_check) symbol /\ keeps true w wi /\
       pipeline api_key symbol wi = (o, w')).
Proof.
  rewrite main_unfold.
  assert (Hkb : keeps true w (banner w)) by apply keeps_say.
  destruct (get_user_input_cases key_prompt (Some (lit "demo")) None (banner w))
    as (o1 & w1 & Hrun1 & Hk1 & Hout1).
  rewrite Hrun1.
  assert (Hkw1 : keeps true w w1).
  { eapply keeps_trans; [exact Hkb | exact Hk1]. }
  destruct Hout1 as [(api_key & -> & _) | [[-> Hpre] | [-> Hpre]]].
  2:{ eexists _, _. split; [reflexivity|]. left. split; [now left | exact Hkw1]. }
  2:{ eexists _, _. split; [reflexivity|]. left. split; [now right | exact Hkw1]. }
  destruct (get_user_input_cases symbol_prompt (Some (lit "IBM"))
              (Some symbol_check) (warned api_key w1))
    as (o2 & w2 & Hrun2 & Hk2 & Hout2).
  rewrite Hrun2.
  assert (Hkw2 : keeps true w w2).
  { eapply keeps_trans; [exact Hkw1|].
    eapply keeps_trans; [apply keeps_warned | exact Hk2]. }
  destruct Hout2 as [(symbol & -> & Hacc) | [[-> Hpre] | [-> Hpre]]].
  2:{ eexists _, _. split; [reflexivity|]. left. split; [now left | exact Hkw2]. }
  2:{ eexists _, _. split; [reflexivity|]. left. split; [now right | exact Hkw2]. }
  destruct (pipeline api_key symbol w2) as [o w'] eqn:Hpipe.
  exists o, w'. split; [reflexivity|]. right. exists api_key, symbol, w2. auto.
Qed.

Lemma pipeline_cases w api_key symbol wi :
  keeps true w wi -> accepted (Some symbol_check) symbol ->
  exists o w', pipeline api_key symbol wi = (o, w') /\ main_run w o w'.
Proof.
  intros Hki Hacc.
  assert (Hkb : keeps true w (before_fetch wi)).
  { eapply keeps_trans; [exact Hki | apply keeps_before_fetch]. }
  destruct (fetch_stock_data_cases api_url api_key symbol (before_fetch wi))
    as (v & line & Hfetch & Hv).
  set (wf := set_stdout (fun o => o ++ [line ++ nl])
               (asked symbol (before_fetch wi))) in *.
  assert (Hkf : keeps true w wf).
  { eapply keeps_trans; [exact Hkb|].
    eapply keeps_trans; [apply keeps_asked | apply keeps_stdout]. }
  destruct Hv as [-> | [Hwf _]].
  - eexists _, _. split; [apply (pipeline_no_data _ _ _ _ Hfetch)|].
    apply (run_no_data w _ _ api_key symbol wi _ Hfetch); [reflexivity | | reflexivity].
    eapply keeps_trans; [exact Hkf | apply keeps_say].
  - destruct (well_formed_answer_truthy _ _ _ Hwf) as [_ Htrue].
    assert (Hks : keeps true w (say [[] ++ nl] wf)).
    { eapply keeps_trans; [exact Hkf | apply keeps_say]. }
    destruct (save_data_to_file_cases v (output_name symbol wi) symbol
                (say [[] ++ nl] wf))
      as (b & ws & Hsave & _ & Hdisk & Htrue' & _).
    pose proof (pipeline_data _ _ _ _ _ _ _ Hfetch Htrue Hsave) as Hrun.
    destruct (pipeline api_key symbol wi) as [o w'].
    exists o, w'. split; [reflexivity|].
    apply (run_data w _ _ api_key symbol wi wf v b ws Hacc Hfetch);
      [ | exact Hkf | exact Hsave | | |].
    + eapply well_formed_answer_keeps; [exact Hkb | exact Hwf].
    + eapply disk_after_keeps; [exact Hks | | exact Hdisk].
      apply directory_missing_keeps. exact Hks.
    + intros Hb. destruct (Htrue' Hb) as [Hfiles _]. rewrite Hfiles.
      destruct Hks as (_ & _ & Hd). destruct (Hd eq_refl) as [-> _]. reflexivity.
    + exact Hrun.
Qed.

(** Every run of [main] ends in one of the four ways of [main_run]. *)
Lemma main_cases w :
  exists o w', main w = (o, w') /\ main_run w o w'.
Proof.
  destruct (main_reaches_pipeline w)
    as (o & w' & Hrun & [[Hend Hk] | (api_key & symbol & wi & Hacc & Hki & Hpipe)]).
  - exists o, w'. split; [exact Hrun|].
    destruct Hend as [[-> Hpre] | [-> Hpre]];
      [now apply run_cancelled | now apply run_end_of_input].
  - destruct (pipeline_cases w api_key symbol wi Hki Hacc)
      as (o2 & w2 & Hrun2 & Hcase).
    rewrite Hpipe in Hrun2. injection Hrun2 as <- <-.
    exists o, w'. split; [exact Hrun | exact Hcase].
Qed.

End Day03Runs.

(** ** day-03: runs in which the user answers both prompts *)

Section Day03Typed.
Context {RT : Runtime}.
Import Day03.

Lemma answer_of_default d typed : d <> [] -> answer_of (Some d) typed <> [].
Proof.
  intros Hd. unfold answer_of.
  rewrite (bool_decide_eq_false_2 _ Hd). cbn [negb].
  case_bool_decide; assumption.
Qed.

Lemma get_user_input_typed prompt default validator w typed rest :
  stdin w = Line typed :: rest ->
  accepted validator (answer_of default typed) ->
  get_user_input prompt default validator w =
    (Return (answer_of default typed),
     set_stdin rest (say [prompt_text prompt default] w)).
Proof.
  intros Hin [Hne Hcheck]. unfold get_user_input. rewrite Hin.
  cbn [length get_user_input_loop].
  pose proof (body_line prompt default validator w typed rest Hin) as Hbody.
  cbv zeta in Hbody. rewrite (bool_decide_eq_false_2 _ Hne) in Hbody.
  destruct validator as [check|].
  - rewrite (Hcheck check eq_refl) in Hbody. cbn [negb] in Hbody.
    now rewrite (bind_Return _ _ _ _ _ Hbody).
  - now rewrite (bind_Return _ _ _ _ _ Hbody).
Qed.

Lemma keeps_after_prompts disk k s rest w :
  keeps disk w (after_prompts k s rest w).
Proof.
  unfold after_prompts.
  eapply keeps_trans; [apply keeps_say|].
  eapply keeps_trans; [apply keeps_say|].
  eapply keeps_trans; [apply (keeps_stdin _ (Line s :: rest))|].
  eapply keeps_trans; [apply keeps_warned|].
  eapply keeps_trans; [apply keeps_say | apply keeps_stdin].
Qed.

Lemma main_typed w k s rest :
  stdin w = Line k :: Line s :: rest ->
  symbol_check (typed_symbol s) = true ->
  main w = pipeline (typed_key k) (typed_symbol s) (after_prompts k s rest w).
Proof.
  intros Hin Hcheck. rewrite main_unfold.
  rewrite (get_user_input_typed key_prompt (Some (lit "demo")) None
             (banner w) k (Line s :: rest) Hin).
  2:{ split; [apply answer_of_default; discriminate | discriminate]. }
  fold (typed_key k).
  rewrite (get_user_input_typed symbol_prompt (Some (lit "IBM"))
             (Some symbol_check) _ s rest).
  - reflexivity.
  - unfold warned. destruct (_ && _); reflexivity.
  - split; [apply answer_of_default; discriminate|].
    intros check [= <-]. exact Hcheck.
Qed.

Lemma fetch_timeout api_url api_key symbol w t msg :
  network w (query_url api_url api_key symbol) (Some 10%N) = Raise (Exc t msg) ->
  subclass t C_Timeout = true ->
  fetch_stock_data api_url api_key symbol w =
    (Return PNone, say [timed_out_line] (asked symbol w)).
Proof.
  intros Hnet Ht. unfold fetch_stock_data.
  erewrite try_Raise;
    [ | apply fetch_try_unreachable; exact Hnet | cbn; rewrite Ht; reflexivity ].
  reflexivity.
Qed.

(** The user answers both prompts and the request runs into the timeout:
    the [Timeout] clause fires, [fetch_stock_data] returns None, the run
    exits with status 1, files and directories are what they were. *)
Lemma timeout_after_two_answers
  (w : world) (k s : pystr) (rest : list input_event) (t : exn_type)
  (msg : pystr) :
  stdin w = Line k :: Line s :: rest ->
  symbol_check (typed_symbol s) = true ->
  network w (query_url api_url (typed_key k) (typed_symbol s)) (Some 10%N)
    = Raise (Exc t msg) ->
  subclass t C_Timeout = true ->
  let wf := before_fetch (after_prompts k s rest w) in
  fetch_stock_data api_url (typed_key k) (typed_symbol s) wf =
    (Return PNone, say [timed_out_line] (asked (typed_symbol s) wf)) /\
  run_script main w =
    (1%Z, say no_data_lines
            (say [timed_out_line] (asked (typed_symbol s) wf))) /\
  fs_files (snd (run_script main w)) = fs_files w /\
  fs_dirs (snd (run_script main w)) = fs_dirs w.
Proof.
  intros Hin Hcheck Hnet Ht wf.
  assert (Hfetch :
    fetch_stock_data api_url (typed_key k) (typed_symbol s) wf =
      (Return PNone, say [timed_out_line] (asked (typed_symbol s) wf))).
  { apply (fetch_timeout _ _ _ _ t msg); [|exact Ht].
    destruct (keeps_trans true _ _ _ (keeps_after_prompts true k s rest w)
                (keeps_before_fetch true _)) as (_ & Hsame & _).
    fold wf in Hsame. now rewrite Hsame. }
  split; [exact Hfetch|].
  assert (Hrun : run_script main w =
    (1%Z, say no_data_lines (say [timed_out_line] (asked (typed_symbol s) wf)))).
  { unfold run_script. rewrite (main_typed w k s rest Hin Hcheck).
    now rewrite (pipeline_no_data _ _ _ _ Hfetch). }
  split; [exact Hrun|]. rewrite Hrun.
  destruct (keeps_trans true _ _ _ (keeps_after_prompts true k s rest w)
              (keeps_before_fetch true _)) as (_ & _ & Hdisk).
  fold wf in Hdisk. destruct (Hdisk eq_refl) as [Hf Hd].
  cbn [snd fs_files fs_dirs say set_stdout asked]. auto.
Qed.

End Day03Typed.

Example timeout_after_two_enters :
  let w := Sample.world_of Sample.two_enters
             Sample.timed_out
             Sample.nothing_refused in
  fst (run_script (Day03.main (RT := Sample.runtime)) w) = 1%Z /\
  fs_files (snd (run_script (Day03.main (RT := Sample.runtime)) w)) = ∅.
Proof.
  intros w.
  destruct (timeout_after_two_answers (RT := Sample.runtime)
              w nl nl [] ReadTimeout (lit "Read timed out. (read timeout=10)"))
    as (_ & Hrun & Hfiles & _);
    [reflexivity | vm_compute; reflexivity | reflexivity | reflexivity |].
  split; [now rewrite Hrun | exact Hfiles].
Qed.

(** ** Malformed response bodies *)

Section MalformedBody.
Context {RT : Runtime}.
Import Day03.


End MalformedBody.



(** ** The stock symbol check *)

(** [validate_stock_symbol] for a string, spelled out. *)
Lemma validate_stock_symbol_str {RT : Runtime} (s : pystr) :
  Day03.validate_stock_symbol (PStr s) =
    (1 <=? length s)%nat && (length s <=? 5)%nat && isalpha s && isupper s.
Proof.
  unfold Day03.validate_stock_symbol. cbn [truthy is_str negb orb].
  destruct s as [|c s]; [reflexivity|].
  rewrite bool_decide_eq_false_2 by discriminate. cbn [negb].
  now destruct (_ && _ && _ && _).
Qed.

(** It answers False for everything that is not a string. *)
Lemma validate_stock_symbol_not_str {RT : Runtime} (v : pyval) :
  is_str v = false -> Day03.validate_stock_symbol v = false.
Proof.
  intros Hv. unfold Day03.validate_stock_symbol. rewrite Hv.
  now rewrite orb_true_r.
Qed.

(** X12.  When every character of the string is in Basic Latin, and the
    database classifies Basic Latin as Unicode does, the check is the one
    of the comment: one to five letters A to Z. *)
Lemma validate_stock_symbol_ascii {RT : Runtime} (s : pystr) :
  (forall c, (c < 128)%N ->
     Py_UNICODE_ISALPHA c = ((65 <=? c) && (c <=? 90) || (97 <=? c) && (c <=? 122))%N /\
     Py_UNICODE_ISUPPER c = ((65 <=? c) && (c <=? 90))%N /\
     Py_UNICODE_ISLOWER c = ((97 <=? c) && (c <=? 122))%N /\
     Py_UNICODE_ISTITLE c = false) ->
  Forall (fun c => (c < 128)%N) s ->
  Day03.validate_stock_symbol (PStr s) =
    (1 <=? length s)%nat && (length s <=? 5)%nat &&
    forallb (fun c => (65 <=? c) && (c <=? 90))%N s.
Proof.
  intros Hdb Hascii. rewrite validate_stock_symbol_str.
  destruct s as [|c s]; [reflexivity|].
  assert (Hloop : forall l cased,
    Forall (fun c => (c < 128)%N) l ->
    forallb Py_UNICODE_ISALPHA l && isupper_loop cased l =
    forallb (fun c => (65 <=? c) && (c <=? 90))%N l &&
    (cased || negb (bool_decide (l = [])))).
  { induction l as [|x l IH]; intros cased Hl; cbn.
    - now rewrite orb_false_r.
    - inversion Hl as [|? ? Hx Hl']; subst.
      destruct (Hdb x Hx) as (Ha & Hu & Hlo & Hti). rewrite Ha, Hu, Hlo, Hti.
      rewrite orb_false_r, <- andb_assoc.
      destruct ((65 <=? x) && (x <=? 90))%N eqn:Hup;
        destruct ((97 <=? x) && (x <=? 122))%N eqn:Hlow; cbn.
      + exfalso. apply andb_true_iff in Hup as [H1 H2].
        apply andb_true_iff in Hlow as [H3 H4].
        apply N.leb_le in H1, H2, H3, H4. lia.
      + rewrite orb_true_r, IH by assumption. reflexivity.
      + now rewrite andb_false_r.
      + reflexivity. }
  inversion Hascii as [|? ? Hc Hs]; subst.
  destruct s as [|c' s].
  - cbn. destruct (Hdb c Hc) as (Ha & Hu & _). rewrite Ha, Hu.
    destruct ((65 <=? c) && (c <=? 90))%N; cbn; [reflexivity|].
    now rewrite andb_false_r.
  - change (isalpha (c :: c' :: s)) with (forallb Py_UNICODE_ISALPHA (c :: c' :: s)).
    change (isupper (c :: c' :: s)) with (isupper_loop false (c :: c' :: s)).
    rewrite <- !andb_assoc. f_equal. f_equal.
    rewrite (Hloop _ false Hascii). cbn [orb].
    rewrite bool_decide_eq_false_2 by discriminate. cbn [negb].
    now rewrite andb_true_r.
Qed.

(** C7 fails on the code.  The string made of "A" and U+4E2D, an
    ideograph, which is a letter without case, is accepted:
    [str.isupper] only asks that no character be lowercase and that one
    be uppercase.  The string is not made of uppercase letters only. *)
Theorem validate_stock_symbol_accepts_letter_without_case :
  Day03.validate_stock_symbol (RT := Sample.runtime) (PStr [65; 20013]%N) = true /\
  Py_UNICODE_ISALPHA (Runtime := Sample.runtime) 20013 = true /\
  Py_UNICODE_ISUPPER (Runtime := Sample.runtime) 20013 = false.
Proof. vm_compute. auto. Qed.

(** ** day-03: the payload on disk *)

Section Day03Payload.
Context {RT : Runtime}.
Import Day03.

Lemma fetch_well_formed api_url api_key symbol w data :
  well_formed_answer w (query_url api_url api_key symbol) data ->
  fetch_stock_data api_url api_key symbol w =
    (Return data, say [fetched_line symbol] (asked symbol w)).
Proof.
  intros (r & Hnet & Hstatus & Hbody & H1 & H2 & H3).
  pose proof (fetch_try_parsed api_url api_key symbol w r Hnet Hstatus) as Htry.
  rewrite Hbody, H1, H2, H3 in Htry. unfold fetch_stock_data.
  now rewrite (try_Return _ _ _ _ _ Htry).
Qed.

Lemma save_succeeds data filename symbol w :
  (forall op, os_refuses w op = None) ->
  exists w',
    save_data_to_file data filename symbol w = (Return true, w') /\
    fs_files w' = <[filename := record_text data symbol w]> (fs_files w).
Proof.
  intros Hnone.
  pose proof (save_try_eval data filename symbol w) as Htry. cbv zeta in Htry.
  unfold save_from_open in Htry.
  rewrite Hnone in Htry.
  autorewrite with oracles in Htry.
  rewrite !Hnone in Htry. cbv zeta in Htry.
  destruct (directory_missing filename w);
    (eexists; split;
     [unfold save_data_to_file; apply (try_Return _ _ _ _ _ Htry) | reflexivity]).
Qed.

(** The user answers both prompts, the resource answers with a
    well-formed body and the system refuses no file-system call: the run
    ends with exit status 0 and the output file holds the record whose
    "stock_data" member is the value that [fetch_stock_data] returned. *)
Lemma payload_saved_after_two_answers
  (w : world) (k s : pystr) (rest : list input_event) (data : pyval) :
  stdin w = Line k :: Line s :: rest ->
  symbol_check (typed_symbol s) = true ->
  well_formed_answer w (query_url api_url (typed_key k) (typed_symbol s)) data ->
  (forall op, os_refuses w op = None) ->
  let wi := after_prompts k s rest w in
  exists fetched_at wf w',
    fetch_stock_data api_url (typed_key k) (typed_symbol s) (before_fetch wi) =
      (Return data, wf) /\
    run_script main w = (0%Z, w') /\
    fs_files w' =
      <[output_name (typed_symbol s) wi :=
          json_dumps 4
            (PDict [ (lit "metadata",
                      PDict [ (lit "symbol", PStr (typed_symbol s));
                              (lit "fetched_at", PStr fetched_at);
                              (lit "script_version", PStr (lit "1.1")) ]);
                     (lit "stock_data", data) ])]> (fs_files w).
Proof.
  intros Hin Hcheck Hwf Hnone wi.
  pose proof (keeps_trans true _ _ _ (keeps_after_prompts true k s rest w)
                (keeps_before_fetch true _)) as Hk.
  fold wi in Hk. destruct Hk as (Hos & Hnet & Hdisk).
  destruct (Hdisk eq_refl) as [Hfiles _].
  assert (Hwf' : well_formed_answer (before_fetch wi)
                   (query_url api_url (typed_key k) (typed_symbol s)) data).
  { destruct Hwf as (r & Hget & Hrest). exists r. now rewrite Hnet. }
  pose proof (fetch_well_formed _ _ _ _ _ Hwf') as Hfetch.
  set (wf := say [fetched_line (typed_symbol s)]
               (asked (typed_symbol s) (before_fetch wi))) in *.
  destruct (save_succeeds data (output_name (typed_symbol s) wi)
              (typed_symbol s) (say [[] ++ nl] wf)) as (ws & Hsave & Hws).
  { intros op. unfold wf, say, asked. autorewrite with oracles.
    rewrite Hos. apply Hnone. }
  destruct (well_formed_answer_truthy _ _ _ Hwf) as [_ Htrue].
  pose proof (pipeline_data _ _ _ _ _ _ _ Hfetch Htrue Hsave) as Hrun.
  cbv iota in Hrun.
  eexists _, wf, _. split; [exact Hfetch|]. split.
  - unfold run_script. rewrite (main_typed w k s rest Hin Hcheck).
    fold wi. rewrite Hrun. reflexivity.
  - cbn [fs_files say set_stdout]. rewrite Hws.
    cbn [fs_files say set_stdout wf asked]. rewrite Hfiles. reflexivity.
Qed.

End Day03Payload.

Example payload_saved_after_two_enters :
  let w := Sample.good_day Sample.nothing_refused in
  exists w' fetched_at,
    run_script (Day03.main (RT := Sample.runtime)) w = (0%Z, w') /\
    fs_files w' !! Sample.ibm_file =
      Some (json_dumps (Runtime := Sample.runtime) 4
              (Day03.output_data Sample.daily_series (lit "IBM") fetched_at)).
Proof.
  intros w.
  destruct (payload_saved_after_two_answers (RT := Sample.runtime)
              w nl nl [] Sample.daily_series)
    as (fetched_at & wf & w' & _ & Hrun & Hfiles);
    [ reflexivity | vm_compute; reflexivity
    | exists (Sample.ok_response (Ok Sample.daily_series));
      repeat split; vm_compute; reflexivity
    | reflexivity | ].
  exists w', fetched_at. split; [exact Hrun|].
  rewrite Hfiles. apply lookup_insert_eq.
Qed.

(** ** day-03: every run *)

Section Day03EveryRun.
Context {RT : Runtime}.
Import Day03.


End Day03EveryRun.

(** The API answers well, but the working directory is read-only: the
    run fails and no file holds the payload. *)
Lemma well_formed_answer_not_saved_when_open_is_refused :
  let w := Sample.good_day
             (Sample.refuses_only Sample.is_open_w Sample.permission_denied) in
  well_formed_answer w
    (query_url Day03.api_url (lit "demo") (lit "IBM")) Sample.daily_series /\
  fst (run_script (Day03.main (RT := Sample.runtime)) w) = 1%Z /\
  fs_files (snd (run_script (Day03.main (RT := Sample.runtime)) w)) = ∅.
Proof.
  intros w. split.
  - exists (Sample.ok_response (Ok Sample.daily_series)).
    repeat split; vm_compute; reflexivity.
  - vm_compute. auto.
Qed.


(** ** When the output file is written, and how the scripts exit *)

Section Runs.
Context {RT : Runtime}.

Lemma disk_after_say filename text w w' lines :
  disk_after filename text w w' -> disk_after filename text w (say lines w').
Proof.
  intros [H1 H2|H0 H1 H2|n H1|H1];
    [ apply disk_untouched | apply disk_directories_only
    | apply (disk_file_cut _ _ _ _ n) | apply disk_file_whole ]; assumption.
Qed.

Lemma day04_main_failed_read w w1 :
  Day04.read_log_file Day04.log_file (started w) = (Return None, w1) ->
  Day04.main w = (Return tt, say [analysis_failed_line] w1).
Proof.
  intros Hread. unfold Day04.main.
  do 2 (unfold bind at 1; rewrite print_say). rewrite say_app.
  change (say _ w) with (started w).
  unfold bind at 1. rewrite Hread.
  unfold bind at 1. rewrite print_say. reflexivity.
Qed.

End Runs.

(** The write fails when the disk is full: the run exits with status 1
    and leaves the output file with the first characters of the
    record. *)
Lemma failed_write_leaves_a_partial_record :
  let w := Sample.good_day
             (Sample.refuses_only Sample.is_write Sample.disk_full) in
  let run := run_script (Day03.main (RT := Sample.runtime)) w in
  let text := json_dumps (Runtime := Sample.runtime) 4
                (Day03.output_data Sample.daily_series (lit "IBM")
                   (lit "2024-01-03T14:30:22")) in
  fst run = 1%Z /\
  fs_files (snd run) !! Sample.ibm_file = Some (take 12 text) /\
  take 12 text <> text.
Proof. vm_compute. repeat split; discriminate. Qed.

(** No [app.log]: [main] of day-04 reports the failure and the process
    exits with status 0. *)
Lemma log_analysis_failure_exits_with_status_zero :
  let run := run_script (Day04.main (RT := Sample.runtime))
               (Sample.world_of [] Sample.timed_out
                                Sample.nothing_refused) in
  fst run = 0%Z /\
  last (stdout (snd run)) = Some analysis_failed_line.
Proof. vm_compute. split; reflexivity. Qed.

(** ** Further properties: stripping *)

Lemma lstrip_by_snoc p l c :
  p c = false -> lstrip_by p (l ++ [c]) = lstrip_by p l ++ [c].
Proof.
  intros Hc. induction l as [|x l IH]; simpl.
  - now rewrite Hc.
  - destruct (p x); [exact IH | reflexivity].
Qed.

Lemma lstrip_by_head p s :
  lstrip_by p s = [] \/ exists c t, lstrip_by p s = c :: t /\ p c = false.
Proof.
  induction s as [|x s IH]; simpl; [now left|].
  destruct (p x) eqn:Hx; [exact IH|]. right. eauto.
Qed.

Lemma lstrip_by_fixed p c t : p c = false -> lstrip_by p (c :: t) = c :: t.
Proof. intros Hc. simpl. now rewrite Hc. Qed.

Lemma rstrip_by_cons p c t :
  p c = false -> rstrip_by p (c :: t) = c :: rstrip_by p t.
Proof.
  intros Hc. unfold rstrip_by. simpl.
  rewrite (lstrip_by_snoc _ _ _ Hc), rev_app_distr. reflexivity.
Qed.

Lemma rstrip_by_idem p s : rstrip_by p (rstrip_by p s) = rstrip_by p s.
Proof.
  unfold rstrip_by. rewrite rev_involutive.
  destruct (lstrip_by_head p (rev s)) as [->|(c & t & -> & Hc)];
    [reflexivity|].
  now rewrite (lstrip_by_fixed _ _ _ Hc).
Qed.

Lemma strip_idem s : strip (strip s) = strip s.
Proof.
  unfold strip, lstrip, rstrip.
  destruct (lstrip_by_head Py_UNICODE_ISSPACE s) as [->|(c & t & -> & Hc)];
    [reflexivity|].
  rewrite (rstrip_by_cons _ _ _ Hc), (lstrip_by_fixed _ _ _ Hc).
  rewrite <- (rstrip_by_cons _ _ _ Hc). apply rstrip_by_idem.
Qed.

(** ** Further properties of [analyze_logs] *)

Section Day04More.
Context {RT : Runtime}.
Import Day04.

Lemma level_of_blank line : strip line = [] -> level_of line = None.
Proof. unfold level_of. now intros ->. Qed.

Lemma analyze_line_level a line :
  analyze_line a line =
    if non_blank line then
      match level_of line with
      | Some level => record_line level (strip line) (count_line a)
      | None => count_line a
      end
    else a.
Proof.
  unfold analyze_line, non_blank, level_of.
  case_bool_decide; cbn [negb]; [reflexivity|].
  now repeat destruct (contains _ _).
Qed.

Lemma level_of_names line level :
  level_of line = Some level -> In level level_names.
Proof.
  unfold level_of, level_names.
  repeat destruct (contains _ _); intros [= <-]; simpl; tauto.
Qed.

Lemma filed_non_blank level line :
  filed_under level line = true -> non_blank line = true.
Proof.
  unfold filed_under, non_blank. intros H%bool_decide_eq_true.
  case_bool_decide as Hb; [|reflexivity].
  now rewrite (level_of_blank _ Hb) in H.
Qed.

(** What one pass of the loop adds, level by level. *)
Lemma analyze_line_adds a line k :
  counts (analyze_line a line) !!! k =
    counts a !!! k + (if filed_under k line then 1 else 0) /\
  details (analyze_line a line) !!! k =
    details a !!! k ++ (if filed_under k line then [strip line] else []) /\
  total_lines (analyze_line a line) =
    total_lines a + (if non_blank line then 1 else 0).
Proof.
  rewrite analyze_line_level. unfold filed_under.
  destruct (non_blank line) eqn:Hnb.
  - destruct (level_of line) as [level|]; cbn.
    + destruct (decide (level = k)) as [->|Hne].
      * rewrite !lookup_total_insert_eq, bool_decide_eq_true_2 by reflexivity.
        auto.
      * rewrite !lookup_total_insert_ne by exact Hne.
        rewrite bool_decide_eq_false_2 by congruence.
        rewrite app_nil_r. auto with lia.
    + rewrite bool_decide_eq_false_2 by discriminate.
      rewrite app_nil_r. auto with lia.
  - unfold non_blank in Hnb. apply negb_false_iff, bool_decide_eq_true in Hnb.
    rewrite (level_of_blank _ Hnb), bool_decide_eq_false_2 by discriminate.
    rewrite app_nil_r. auto with lia.
Qed.

Lemma analyze_fold_adds lines a k :
  let a' := fold_left analyze_line lines a in
  counts a' !!! k = counts a !!! k + length (List.filter (filed_under k) lines) /\
  details a' !!! k =
    details a !!! k ++ map strip (List.filter (filed_under k) lines) /\
  total_lines a' = total_lines a + length (List.filter non_blank lines).
Proof.
  revert a. induction lines as [|line lines IH]; intros a; cbn.
  - rewrite app_nil_r. auto with lia.
  - destruct (IH (analyze_line a line)) as (Hc & Hd & Ht).
    destruct (analyze_line_adds a line k) as (Hc1 & Hd1 & Ht1).
    rewrite Hc, Hd, Ht, Hc1, Hd1, Ht1.
    destruct (filed_under k line), (non_blank line); cbn;
      rewrite <- ?app_assoc; cbn; auto with lia.
Qed.

Lemma initial_analysis_lookup k :
  counts initial_analysis !!! k = 0 /\ details initial_analysis !!! k = [].
Proof.
  unfold initial_analysis; cbn.
  destruct (decide (k = "INFO")) as [->|H1];
    [now rewrite !lookup_total_insert_eq|].
  rewrite !(lookup_total_insert_ne _ "INFO") by congruence.
  destruct (decide (k = "WARNING")) as [->|H2];
    [now rewrite !lookup_total_insert_eq|].
  rewrite !(lookup_total_insert_ne _ "WARNING") by congruence.
  destruct (decide (k = "ERROR")) as [->|H3];
    [now rewrite !lookup_total_insert_eq|].
  rewrite !(lookup_total_insert_ne _ "ERROR") by congruence.
  split; rewrite lookup_total_empty; reflexivity.
Qed.

Lemma analyze_logs_closed lines k :
  counts (analyze_logs lines) !!! k =
    length (List.filter (filed_under k) lines) /\
  details (analyze_logs lines) !!! k =
    map strip (List.filter (filed_under k) lines) /\
  total_lines (analyze_logs lines) = length (List.filter non_blank lines).
Proof.
  destruct (analyze_fold_adds lines initial_analysis k) as (Hc & Hd & Ht).
  destruct (initial_analysis_lookup k) as [Hc0 Hd0].
  unfold analyze_logs. rewrite Hc, Hd, Ht, Hc0, Hd0. auto.
Qed.

(** X1.  The analysis of a log cut in two parts is the sum of the
    analyses of the parts: for every level the counts add up and the
    messages of the second part follow those of the first, and the
    numbers of processed lines add up. *)
Theorem analyze_logs_of_two_parts (first second : list pystr) (level : string) :
  let a := analyze_logs (first ++ second) in
  let a1 := analyze_logs first in
  let a2 := analyze_logs second in
  counts a !!! level = counts a1 !!! level + counts a2 !!! level /\
  details a !!! level = details a1 !!! level ++ details a2 !!! level /\
  total_lines a = total_lines a1 + total_lines a2.
Proof.
  cbv zeta.
  destruct (analyze_logs_closed (first ++ second) level) as (-> & -> & ->).
  destruct (analyze_logs_closed first level) as (-> & -> & ->).
  destruct (analyze_logs_closed second level) as (-> & -> & ->).
  rewrite !List.filter_app, !length_app, map_app. auto.
Qed.

(** X2.  [analyze_logs] keeps under each level the lines it filed there,
    stripped, in the order of the log, and the count of a level is the
    number of its messages; the level of a line is the first of INFO,
    WARNING, ERROR that occurs in it, and a blank line has none.  The
    processed lines are the lines that are not blank. *)
Theorem details_are_the_filed_lines_in_order (lines : list pystr) (level : string) :
  let a := analyze_logs lines in
  details a !!! level = map strip (List.filter (filed_under level) lines) /\
  counts a !!! level = length (details a !!! level) /\
  total_lines a = length (List.filter non_blank lines) /\
  (forall line, first_match (strip line) (level_of line)) /\
  (forall line, non_blank line = false -> level_of line = None).
Proof.
  cbv zeta. destruct (analyze_logs_closed lines level) as (Hc & Hd & Ht).
  rewrite Hd, Hc, Ht, length_map. repeat split.
  - intros line. unfold level_of.
    destruct (contains (lit "INFO") (strip line)) eqn:HI.
    { apply (first_match_level _ [] "INFO" ["WARNING"; "ERROR"]);
        [reflexivity | now apply contains_spec | constructor]. }
    destruct (contains (lit "WARNING") (strip line)) eqn:HW.
    { apply (first_match_level _ ["INFO"] "WARNING" ["ERROR"]);
        [reflexivity | now apply contains_spec |].
      repeat constructor. now apply not_contains_absent. }
    destruct (contains (lit "ERROR") (strip line)) eqn:HE.
    { apply (first_match_level _ ["INFO"; "WARNING"] "ERROR" []);
        [reflexivity | now apply contains_spec |].
      repeat constructor; now apply not_contains_absent. }
    constructor. repeat constructor; now apply not_contains_absent.
  - intros line Hb. apply level_of_blank.
    unfold non_blank in Hb. now apply negb_false_iff, bool_decide_eq_true in Hb.
Qed.

Lemma analyze_line_strip a line :
  analyze_line a (strip line) = analyze_line a line.
Proof. unfold analyze_line. now rewrite strip_idem. Qed.

Lemma analyze_fold_strip lines a :
  fold_left analyze_line (map strip lines) a = fold_left analyze_line lines a.
Proof.
  revert a. induction lines as [|line lines IH]; intros a; cbn; [reflexivity|].
  now rewrite analyze_line_strip, IH.
Qed.

Lemma analyze_fold_non_blank lines a :
  fold_left analyze_line (List.filter non_blank lines) a =
    fold_left analyze_line lines a.
Proof.
  revert a. induction lines as [|line lines IH]; intros a; cbn; [reflexivity|].
  destruct (non_blank line) eqn:Hnb; cbn; [apply IH|].
  rewrite IH. f_equal. unfold analyze_line.
  unfold non_blank in Hnb. apply negb_false_iff in Hnb. now rewrite Hnb.
Qed.

(** X3.  White space around a line and blank lines do not matter to
    [analyze_logs]: the analysis of a log is that of its lines stripped,
    and that of its lines without the blank ones. *)
Theorem analyze_logs_ignores_blank_space (lines : list pystr) :
  analyze_logs (map strip lines) = analyze_logs lines /\
  analyze_logs (List.filter non_blank lines) = analyze_logs lines.
Proof.
  unfold analyze_logs. split;
    [apply analyze_fold_strip | apply analyze_fold_non_blank].
Qed.

End Day04More.

(** ** Further properties of [read_log_file] *)

Section Day04Read.
Context {RT : Runtime}.
Import Day04.

Lemma read_log_file_refused w path e :
  os_refuses w (OpOpenR path) = Some e ->
  read_log_file path w =
    (Return None,
     say [ (if isinstance e C_FileNotFoundError then
              lit "ERROR: File '" ++ path ++ lit "' not found"
            else if isinstance e C_ValueError then lit "ERROR: " ++ str_exn e
            else lit "ERROR: Unexpected error reading file: " ++ str_exn e)
           ++ nl ] w).
Proof.
  intros Href. pose proof (os_refuses_ordinary w _ e Href) as Hord.
  unfold read_log_file, try_except, bind, open_r_readlines. rewrite Href.
  destruct e as [t msg| |code]; [|discriminate|discriminate].
  destruct t; reflexivity.
Qed.

Lemma read_log_file_missing w path :
  os_refuses w (OpOpenR path) = None -> fs_files w !! path = None ->
  read_log_file path w =
    (Return None,
     say [(lit "ERROR: File '" ++ path ++ lit "' not found") ++ nl] w).
Proof.
  intros Href Hfile.
  unfold read_log_file, try_except, bind, open_r_readlines.
  now rewrite Href, Hfile.
Qed.

Lemma read_log_file_lines w path text :
  os_refuses w (OpOpenR path) = None -> fs_files w !! path = Some text ->
  text <> [] ->
  read_log_file path w =
    (Return (Some (splitlines_keepends [] (universal_newlines text))), w) /\
  splitlines_keepends [] (universal_newlines text) <> [].
Proof.
  intros Href Hfile Htext.
  assert (Hne : splitlines_keepends [] (universal_newlines text) <> []).
  { intros H. apply splitlines_keepends_nil in H as [_ H].
    now apply universal_newlines_nil in H. }
  split; [|exact Hne].
  unfold read_log_file, try_except, bind, open_r_readlines.
  rewrite Href, Hfile.
  now destruct (splitlines_keepends [] (universal_newlines text)).
Qed.

(** X4.  [read_log_file] never raises and leaves the files, the
    directories and the terminal input as they are.  It returns the
    lines of the file without printing when the file exists, can be read
    and is not empty: the text of the file, with every carriage return
    or carriage return and line feed read as one line feed, cut after
    every line feed, nothing missing; a file without carriage returns
    comes back as it is.  In every other case it prints one line that
    starts with "ERROR: " and returns None.  It never returns an empty
    list. *)
Theorem read_log_file_returns_lines_or_reports (w : world) (path : pystr) :
  exists r w',
    read_log_file path w = (Return r, w') /\
    fs_files w' = fs_files w /\ fs_dirs w' = fs_dirs w /\
    stdin w' = stdin w /\
    match r with
    | Some lines =>
        stdout w' = stdout w /\ lines <> [] /\
        os_refuses w (OpOpenR path) = None /\
        exists raw text,
          fs_files w !! path = Some raw /\ raw <> [] /\
          translated raw text /\ lines_of text lines /\
          (13%N ∉ raw -> concat lines = raw)
    | None =>
        (exists diag,
            stdout w' = stdout w ++ [(lit "ERROR: " ++ diag) ++ nl]) /\
        (is_Some (os_refuses w (OpOpenR path)) \/
         fs_files w !! path = None \/ fs_files w !! path = Some [])
    end.
Proof.
  destruct (os_refuses w (OpOpenR path)) as [e|] eqn:Href.
  { exists None. eexists. split; [apply (read_log_file_refused _ _ _ Href)|].
    cbn [say set_stdout fs_files fs_dirs stdin stdout].
    repeat (split; [reflexivity|]). split; [|left; eauto].
    destruct (isinstance e C_FileNotFoundError);
      [|destruct (isinstance e C_ValueError)]; eexists; reflexivity. }
  destruct (fs_files w !! path) as [raw|] eqn:Hfile.
  2:{ exists None. eexists.
      split; [apply (read_log_file_missing _ _ Href Hfile)|].
      cbn [say set_stdout fs_files fs_dirs stdin stdout].
      repeat (split; [reflexivity|]). split; [|auto].
      eexists; reflexivity. }
  destruct raw as [|c raw].
  { exists None. eexists.
    split; [apply (read_log_file_empty w path [] Hfile eq_refl)|].
    rewrite Href.
    cbn [say set_stdout fs_files fs_dirs stdin stdout empty_log_diagnostic].
    repeat (split; [reflexivity|]). split; [|auto].
    eexists; reflexivity. }
  destruct (read_log_file_lines w path (c :: raw) Href Hfile) as [Hrun Hne];
    [discriminate|].
  exists (Some (splitlines_keepends [] (universal_newlines (c :: raw)))), w.
  split; [exact Hrun|]. repeat (split; [reflexivity|]).
  split; [exact Hne|]. split; [reflexivity|].
  exists (c :: raw), (universal_newlines (c :: raw)).
  split; [reflexivity|]. split; [discriminate|].
  split; [apply universal_newlines_translated|].
  split; [apply (splitlines_keepends_lines []), not_elem_of_nil|].
  intros Hplain. rewrite splitlines_keepends_concat.
  now apply universal_newlines_plain.
Qed.

(** X5.  Which line [read_log_file] prints for which failure.  A file
    that is not there is reported as not found.  When the system refuses
    the read, the first clause that matches the error decides: the one
    for [FileNotFoundError], then the one for [ValueError], which prints
    the text of the error alone (a log that cannot be decoded is reported
    there), then the one for every other error. *)
Theorem read_log_file_diagnostics (w : world) (path : pystr) :
  (os_refuses w (OpOpenR path) = None -> fs_files w !! path = None ->
   read_log_file path w =
     (Return None,
      say [(lit "ERROR: File '" ++ path ++ lit "' not found") ++ nl] w)) /\
  (forall e,
     os_refuses w (OpOpenR path) = Some e ->
     exists line,
       read_log_file path w = (Return None, say [line ++ nl] w) /\
       (isinstance e C_FileNotFoundError = true ->
        line = lit "ERROR: File '" ++ path ++ lit "' not found") /\
       (isinstance e C_FileNotFoundError = false ->
        isinstance e C_ValueError = true ->
        line = lit "ERROR: " ++ str_exn e) /\
       (isinstance e C_FileNotFoundError = false ->
        isinstance e C_ValueError = false ->
        line = lit "ERROR: Unexpected error reading file: " ++ str_exn e)).
Proof.
  split; [apply read_log_file_missing|].
  intros e Href. eexists. split; [apply (read_log_file_refused _ _ _ Href)|].
  destruct (isinstance e C_FileNotFoundError);
    [|destruct (isinstance e C_ValueError)];
    repeat split; intros; try discriminate; reflexivity.
Qed.

End Day04Read.

Lemma read_log_file_diagnostics_witness :
  let absent := Sample.world_of [] Sample.timed_out Sample.nothing_refused in
  let garbled :=
    Sample.with_log (lit "INFO ok")
      (Sample.world_of [] Sample.timed_out
         (fun op => match op with
                    | OpOpenR _ =>
                        Some (UnicodeDecodeError,
                              lit "'utf-8' codec can't decode byte 0xff")
                    | _ => None
                    end)) in
  stdout (snd (Day04.read_log_file Day04.log_file absent))
    = [lit "ERROR: File 'app.log' not found" ++ nl] /\
  stdout (snd (Day04.read_log_file Day04.log_file garbled))
    = [lit "ERROR: 'utf-8' codec can't decode byte 0xff" ++ nl].
Proof.
  intros absent garbled.
  destruct (read_log_file_diagnostics absent Day04.log_file)
    as [Hmissing _].
  destruct (read_log_file_diagnostics garbled Day04.log_file)
    as [_ Hrefused].
  split.
  - rewrite Hmissing; reflexivity.
  - destruct (Hrefused (Exc UnicodeDecodeError
                          (lit "'utf-8' codec can't decode byte 0xff")) eq_refl)
      as (line & Hrun & _ & Hvalue & _).
    rewrite Hrun, (Hvalue eq_refl eq_refl). reflexivity.
Defined.

(** ** What a computation writes, and what it prints last *)

Lemma writes_only_refl paths w : writes_only paths w w.
Proof. split; auto. Qed.

Lemma writes_only_trans paths w1 w2 w3 :
  writes_only paths w1 w2 -> writes_only paths w2 w3 ->
  writes_only paths w1 w3.
Proof.
  intros [Hd Hf] [Hd' Hf']. split; [congruence|].
  intros p Hp. rewrite Hf', Hf; auto.
Qed.

Lemma writes_only_keeps paths w w' : keeps true w w' -> writes_only paths w w'.
Proof.
  intros (_ & _ & Hdisk). destruct (Hdisk eq_refl) as [Hf Hd].
  split; [exact Hd|]. intros p _. now rewrite Hf.
Qed.

Lemma writes_only_mono paths paths' w w' :
  (forall p, p ∈ paths -> p ∈ paths') ->
  writes_only paths w w' -> writes_only paths' w w'.
Proof. intros Hsub [Hd Hf]. split; [exact Hd|]. intros p Hp. auto. Qed.

Lemma confined_behaves {A} paths P (m : M A) :
  behaves true P m -> confined paths m.
Proof. intros Hm w. apply writes_only_keeps, Hm. Qed.

Lemma confined_bind {A B} paths (m : M A) (k : A -> M B) :
  confined paths m -> (forall a, confined paths (k a)) ->
  confined paths (bind m k).
Proof.
  intros Hm Hk w. specialize (Hm w). unfold bind.
  destruct (m w) as [[a|e] w1]; cbn in *; [|exact Hm].
  eapply writes_only_trans; [exact Hm | apply Hk].
Qed.

Lemma confined_try {A} paths (body : M A) hs :
  confined paths body ->
  Forall (fun ch => forall e, confined paths (snd ch e)) hs ->
  confined paths (try_except body hs).
Proof.
  intros Hbody Hhs w. specialize (Hbody w). unfold try_except.
  destruct (body w) as [[a|e] w1]; cbn in *; [exact Hbody|].
  destruct (find_handler e hs) as [h|] eqn:Hfind; [|exact Hbody].
  assert (Hh : forall e', confined paths (h e')).
  { clear -Hhs Hfind. induction hs as [|[c h'] hs IH]; [discriminate|].
    inversion Hhs as [|? ? Hhead Htail]; subst. cbn in Hfind.
    destruct (isinstance e c); [injection Hfind as <-; exact Hhead|].
    now apply IH. }
  eapply writes_only_trans; [exact Hbody | apply Hh].
Qed.

Lemma confined_for_each {A} paths (xs : list A) (body : A -> M unit) :
  (forall x, confined paths (body x)) -> confined paths (for_each xs body).
Proof.
  intros Hbody. induction xs as [|x xs IH]; cbn.
  - intros w. apply writes_only_refl.
  - apply confined_bind; [apply Hbody | intros _; exact IH].
Qed.

Lemma confined_open_w paths path : path ∈ paths -> confined paths (open_w path).
Proof.
  intros Hin w. unfold open_w.
  destruct (os_refuses w (OpOpenW path)); cbn; [apply writes_only_refl|].
  split; [reflexivity|]. intros p Hp. apply lookup_insert_ne. congruence.
Qed.

Lemma confined_file_write paths path text :
  path ∈ paths -> confined paths (file_write path text).
Proof.
  intros Hin w. unfold file_write.
  destruct (os_refuses w (OpWrite path)); cbn;
    (split; [reflexivity|]); intros p Hp; apply lookup_insert_ne; congruence.
Qed.

Lemma confined_mono {A} paths paths' (m : M A) :
  (forall p, p ∈ paths -> p ∈ paths') -> confined paths m -> confined paths' m.
Proof. intros Hsub Hm w. eapply writes_only_mono; [exact Hsub | apply Hm]. Qed.

(** Splitting a sequence of statements that writes to known files. *)
Ltac confine :=
  cbv zeta;
  repeat first
    [ apply confined_open_w; set_solver
    | apply confined_file_write; set_solver
    | apply confined_bind; [|intros ?]
    | apply confined_for_each; intros ?
    | apply confined_try;
      [|repeat (apply List.Forall_cons; [intros ?; cbn [snd]|]);
        try apply List.Forall_nil]
    | match goal with
      | |- confined _ (if ?c then _ else _) => destruct c
      | |- confined _ (match ?x with _ => _ end) => destruct x
      end
    | (eapply confined_behaves with (P := fun _ => True);
       solve [behave]) ]; cbv zeta.

Lemma ends_with_print s : ends_with s (print s).
Proof.
  intros w a w' [= _ <-]. cbn [stdout set_stdout]. apply last_snoc.
Qed.

Lemma ends_with_bind {A B} s (m : M A) (k : A -> M B) :
  (forall a, ends_with s (k a)) -> ends_with s (bind m k).
Proof.
  intros Hk w b w' Hrun.
  apply bind_cases in Hrun as [(a & w1 & _ & Hrun) | (e & _ & [=])].
  now apply (Hk a w1 b).
Qed.

Lemma succeeds_behaves {A} path (m : M A) :
  behaves false never m -> succeeds path m.
Proof.
  intros Hm w _. destruct (behaves_returns false m w Hm) as (a & w' & -> & _).
  eauto.
Qed.

Lemma writable_keeps path w w' :
  keeps false w w' -> writable path w -> writable path w'.
Proof. intros (Hos & _) [H1 H2]. unfold writable. now rewrite Hos. Qed.

Lemma succeeds_bind {A B} path P (m : M A) (k : A -> M B) :
  behaves false P m -> succeeds path m -> (forall a, succeeds path (k a)) ->
  succeeds path (bind m k).
Proof.
  intros Hb Hm Hk w Hw. destruct (Hm w Hw) as [a Ha].
  destruct (Hb w) as [Hkeep _]. unfold bind.
  destruct (m w) as [o w1]; cbn in *. subst o.
  apply Hk. now apply (writable_keeps path w).
Qed.

Lemma succeeds_for_each {A} path P (xs : list A) (body : A -> M unit) :
  (forall x, behaves false P (body x)) -> (forall x, succeeds path (body x)) ->
  succeeds path (for_each xs body).
Proof.
  intros Hb Hbody. induction xs as [|x xs IH]; cbn.
  - intros w _. now exists tt.
  - eapply succeeds_bind; [apply Hb | apply Hbody | intros _; exact IH].
Qed.

Lemma succeeds_open_w path : succeeds path (open_w path).
Proof. intros w [Ho _]. unfold open_w. rewrite Ho. now exists tt. Qed.

Lemma succeeds_file_write path text : succeeds path (file_write path text).
Proof. intros w [_ Hw]. unfold file_write. rewrite Hw. now exists tt. Qed.

Lemma succeeds_print path s : succeeds path (print s).
Proof. intros w _. now exists tt. Qed.

Lemma succeeds_ret {A} path (a : A) : succeeds path (ret a).
Proof. intros w _. now exists a. Qed.

Lemma succeeds_now path : succeeds path datetime_now.
Proof. intros w _. eexists. reflexivity. Qed.

(** Splitting a sequence of statements that writes one file. *)
Ltac succeed :=
  cbv zeta;
  repeat first
    [ apply succeeds_open_w
    | apply succeeds_file_write
    | apply succeeds_print
    | apply succeeds_ret
    | apply succeeds_now
    | eapply (succeeds_bind _ ordinary); [solve [behave] | |intros ?]
    | eapply (succeeds_for_each _ ordinary); [intros ?; solve [behave] | intros ?]
    | match goal with
      | |- succeeds _ (if ?c then _ else _) => destruct c
      end ]; cbv zeta.

(** ** Further properties of the summary writers of day-04 *)

Section Day04Write.
Context {RT : Runtime}.
Import Day04.

Lemma handler_of_all {A} e (h : exn -> M A) :
  ordinary e -> find_handler e [(C_Exception, h)] = Some h.
Proof. unfold ordinary. cbn. now intros ->. Qed.

Lemma write_text_summary_refused a path w e :
  os_refuses w (OpOpenW path) = Some e ->
  write_text_summary a path w =
    (Return tt, say [text_failed_line e ++ nl] w).
Proof.
  intros Href. pose proof (os_refuses_ordinary w _ e Href) as Hord.
  unfold write_text_summary.
  erewrite try_Raise; [ | | apply (handler_of_all _ _ Hord)]; cycle 1.
  { unfold bind at 1, open_w. now rewrite Href. }
  reflexivity.
Qed.

Lemma write_text_summary_cut a path w e :
  os_refuses w (OpOpenW path) = None ->
  os_refuses w (OpWrite path) = Some e ->
  exists w1,
    write_text_summary a path w =
      (Return tt, say [text_failed_line e ++ nl] w1).
Proof.
  intros Hopen Hwrite. pose proof (os_refuses_ordinary w _ e Hwrite) as Hord.
  unfold write_text_summary. eexists.
  erewrite try_Raise; [ | | apply (handler_of_all _ _ Hord)]; cycle 1.
  { unfold bind at 1, open_w. rewrite Hopen. cbv zeta.
    unfold bind at 1, file_write. rewrite os_refuses_files, Hwrite.
    reflexivity. }
  reflexivity.
Qed.

Lemma write_text_summary_confined a path :
  confined [path] (write_text_summary a path).
Proof. unfold write_text_summary. confine. Qed.

Lemma write_json_summary_confined a path :
  confined [path] (write_json_summary a path).
Proof. unfold write_json_summary. confine. Qed.

Lemma write_text_summary_written a path w :
  writable path w ->
  exists w',
    write_text_summary a path w = (Return tt, w') /\
    last (stdout w') = Some (text_written_line path ++ nl).
Proof.
  intros Hw. unfold write_text_summary.
  match goal with
  | |- context [try_except ?b ?h] => set (body := b); set (hs := h)
  end.
  assert (Hs : succeeds path body) by (unfold body; succeed).
  assert (He : ends_with (text_written_line path) body).
  { unfold body. cbv zeta.
    repeat (apply ends_with_bind; intros ?). apply ends_with_print. }
  destruct (Hs w Hw) as [[] Hrun].
  destruct (body w) as [o w'] eqn:Hbody. cbn in Hrun. subst o.
  exists w'. split; [now apply try_Return | now apply (He w tt)].
Qed.

(** X6.  [write_text_summary] never raises and writes to no file but its
    output file.  When the system lets that file be opened and written,
    the last line printed is the one that names the file; otherwise it is
    the line that reports the failure with the text of the error, and the
    function returns all the same.  When the open is refused nothing on
    disk changes. *)
Theorem write_text_summary_reports_and_returns
  (a : analysis) (path : pystr) (w : world) :
  exists w',
    write_text_summary a path w = (Return tt, w') /\
    writes_only [path] w w' /\
    (writable path w ->
     last (stdout w') = Some (text_written_line path ++ nl)) /\
    (forall e,
       os_refuses w (OpOpenW path) = Some e ->
       fs_files w' = fs_files w /\
       stdout w' = stdout w ++ [text_failed_line e ++ nl]) /\
    (forall e,
       os_refuses w (OpOpenW path) = None ->
       os_refuses w (OpWrite path) = Some e ->
       last (stdout w') = Some (text_failed_line e ++ nl)).
Proof.
  pose proof (write_text_summary_confined a path w) as Hconf.
  destruct (os_refuses w (OpOpenW path)) as [e|] eqn:Hopen.
  { rewrite (write_text_summary_refused a path w e Hopen) in *.
    eexists. split; [reflexivity|]. split; [exact Hconf|].
    split; [intros [? _]; congruence|].
    split; [|discriminate]. intros ? [= <-]. auto. }
  destruct (os_refuses w (OpWrite path)) as [e|] eqn:Hwrite.
  { destruct (write_text_summary_cut a path w e Hopen Hwrite) as [w1 Hrun].
    rewrite Hrun in *.
    eexists. split; [reflexivity|]. split; [exact Hconf|].
    split; [intros [_ ?]; congruence|].
    split; [discriminate|]. intros ? _ [= <-].
    cbn [say set_stdout stdout]. apply last_snoc. }
  destruct (write_text_summary_written a path w (conj Hopen Hwrite))
    as (w' & Hrun & Hlast).
  rewrite Hrun in *. exists w'. split; [reflexivity|]. split; [exact Hconf|].
  split; [auto|]. split; discriminate.
Qed.

Lemma write_json_summary_refused a path w e :
  os_refuses w (OpOpenW path) = Some e ->
  write_json_summary a path w =
    (Return tt, say [json_failed_line e ++ nl] (tick w)).
Proof.
  intros Hopen. pose proof (os_refuses_ordinary w _ e Hopen) as Hord.
  unfold write_json_summary.
  erewrite try_Raise; [ | | apply (handler_of_all _ _ Hord)]; cycle 1.
  { unfold bind at 1, datetime_now. cbv zeta.
    unfold bind at 1, open_w. now rewrite os_refuses_tick, Hopen. }
  reflexivity.
Qed.

(** X7.  [write_json_summary] never raises.  When the system lets the
    file be opened and written, the file holds the JSON text of the
    analysis and nothing of what it held before; when the open is
    refused nothing on disk changes; when a write is refused the file is
    left with the beginning of the text.  In both cases of failure the
    line that reports it is printed and the function returns. *)
Theorem write_json_summary_overwrites_or_reports
  (a : analysis) (path : pystr) (w : world) :
  let text := json_dumps 2 (json_summary a (clock w (clock_reads w))) in
  exists w',
    write_json_summary a path w = (Return tt, w') /\
    (writable path w ->
     fs_files w' = <[path := text]> (fs_files w) /\
     stdout w' = stdout w ++ [json_written_line path ++ nl]) /\
    (forall e,
       os_refuses w (OpOpenW path) = Some e ->
       fs_files w' = fs_files w /\
       stdout w' = stdout w ++ [json_failed_line e ++ nl]) /\
    (forall e,
       os_refuses w (OpOpenW path) = None ->
       os_refuses w (OpWrite path) = Some e ->
       fs_files w' = <[path := take (os_short_write w) text]> (fs_files w) /\
       stdout w' = stdout w ++ [json_failed_line e ++ nl]).
Proof.
  intros text. unfold write_json_summary.
  match goal with
  | |- context [try_except ?b ?h] => set (body := b)
  end.
  destruct (os_refuses w (OpOpenW path)) as [e|] eqn:Hopen.
  { pose proof (os_refuses_ordinary w _ e Hopen) as Hord.
    assert (Hbody : body w = (Raise e, tick w)).
    { unfold body. unfold bind at 1, datetime_now. cbv zeta.
      unfold bind at 1, open_w. now rewrite os_refuses_tick, Hopen. }
    eexists. split.
    { rewrite (try_Raise _ _ _ _ _ _ Hbody (handler_of_all _ _ Hord)).
      reflexivity. }
    split; [intros [? _]; congruence|].
    split; [|discriminate]. intros ? [= <-]. auto. }
  destruct (os_refuses w (OpWrite path)) as [e|] eqn:Hwrite.
  { pose proof (os_refuses_ordinary w _ e Hwrite) as Hord.
    assert (Hbody : body w =
      (Raise e, set_fs_files (insert path (take (os_short_write w) text))
                  (tick w))).
    { unfold body. unfold bind at 1, datetime_now. cbv zeta.
      unfold bind at 1, open_w. rewrite os_refuses_tick, Hopen.
      unfold bind at 1, file_write. rewrite os_refuses_files, os_refuses_tick.
      rewrite Hwrite. cbn [set_fs_files fs_files os_short_write tick].
      rewrite lookup_insert_eq. cbn [default app].
      f_equal. unfold set_fs_files. cbn. f_equal. apply insert_insert_eq. }
    eexists. split.
    { rewrite (try_Raise _ _ _ _ _ _ Hbody (handler_of_all _ _ Hord)).
      reflexivity. }
    split; [intros [_ ?]; congruence|].
    split; [discriminate|]. intros ? _ [= <-]. auto. }
  assert (Hbody : body w =
    (Return tt, say [json_written_line path ++ nl]
                  (set_fs_files (insert path text) (tick w)))).
  { unfold body. unfold bind at 1, datetime_now. cbv zeta.
    unfold bind at 1, open_w. rewrite os_refuses_tick, Hopen.
    unfold bind at 1, file_write. rewrite os_refuses_files, os_refuses_tick.
    rewrite Hwrite. cbn [set_fs_files fs_files os_short_write tick].
    rewrite lookup_insert_eq. cbn [default app]. rewrite print_say.
    f_equal. unfold say, set_stdout, set_fs_files. cbn. f_equal.
    apply insert_insert_eq. }
  eexists. split; [apply (try_Return _ _ _ _ _ Hbody)|].
  split; [auto|]. split; discriminate.
Qed.

Lemma day04_main_confined : confined [text_output; json_output] main.
Proof.
  unfold main. apply confined_bind; [confine|intros _].
  apply confined_bind; [confine|intros _].
  apply confined_bind;
    [apply (confined_behaves _ never), read_log_file_behaves|intros r].
  destruct r as [[|line lines]|]; [confine | | confine].
  apply confined_bind; [confine|intros _]. cbv zeta.
  apply confined_bind;
    [apply (confined_behaves _ never), print_summary_behaves|intros _].
  apply confined_bind; [confine|intros _].
  apply confined_bind.
  { eapply confined_mono; [|apply write_text_summary_confined]. set_solver. }
  intros _. apply confined_bind; [|intros _; confine].
  eapply confined_mono; [|apply write_json_summary_confined]. set_solver.
Qed.

(** X8.  [main] of day-04 writes to no file but the two summaries and
    creates no directory, in every run: the log it analyses is never
    changed. *)
Theorem log_analysis_writes_only_the_summaries (w : world) :
  writes_only [text_output; json_output] w (snd (main w)) /\
  fs_files (snd (main w)) !! log_file = fs_files w !! log_file.
Proof.
  pose proof (day04_main_confined w) as Hconf.
  split; [exact Hconf|]. destruct Hconf as [_ Hfiles]. apply Hfiles.
  intros Hin. apply list_elem_of_In in Hin. cbn in Hin.
  destruct Hin as [H|[H|[]]]; vm_compute in H; discriminate.
Qed.

Lemma day04_main_read w text :
  fs_files w !! log_file = Some text -> text <> [] ->
  os_refuses w (OpOpenR log_file) = None ->
  exists line lines,
    read_log_file log_file (started w) = (Return (Some (line :: lines)), started w).
Proof.
  intros Hfile Htext Hopen.
  destruct (read_log_file_lines (started w) log_file text) as [Hrun Hne];
    [exact Hopen | exact Hfile | exact Htext |].
  destruct (splitlines_keepends [] (universal_newlines text))
    as [|line lines]; [contradiction|].
  eauto.
Qed.

(** X9.  When the log exists, can be read and is not empty, [main] of
    day-04 returns and the last thing it prints is "Log analysis
    completed successfully!", whatever became of the summaries: when the
    system refuses both output files, the two failures are reported, no
    file is written, and the run still ends with that line. *)
Theorem log_analysis_ends_with_the_success_line (w : world) (text : pystr) :
  fs_files w !! log_file = Some text -> text <> [] ->
  os_refuses w (OpOpenR log_file) = None ->
  exists w',
    main w = (Return tt, w') /\
    last (stdout w') = Some completed_line /\
    (forall e1 e2,
       os_refuses w (OpOpenW text_output) = Some e1 ->
       os_refuses w (OpOpenW json_output) = Some e2 ->
       fs_files w' = fs_files w /\
       exists pre,
         stdout w' = pre ++ [ text_failed_line e1 ++ nl;
                              json_failed_line e2 ++ nl;
                              completed_line ]).
Proof.
  intros Hfile Htext Hopen.
  destruct (day04_main_read w text Hfile Htext Hopen) as (line & lines & Hread).
  destruct (behaves_returns false main w day04_main_behaves)
    as ([] & w' & Hrun & _).
  exists w'. split; [exact Hrun|]. revert Hrun. unfold main.
  do 2 (unfold bind at 1; rewrite print_say). rewrite say_app.
  change (say _ w) with (started w). unfold bind at 1. rewrite Hread.
  cbv zeta. set (a := analyze_logs (line :: lines)).
  intros Hrun. split.
  - revert Hrun.
    match goal with
    | |- ?k _ = _ -> _ =>
        assert (He : ends_with (nl ++ lit " Log analysis completed successfully!" ++ nl) k)
    end.
    { repeat (apply ends_with_bind; intros ?). apply ends_with_print. }
    apply He.
  - intros e1 e2 H1 H2. revert Hrun.
    unfold bind at 1. rewrite print_say. unfold bind at 1.
    match goal with
    | |- context [print_summary a ?w0] =>
        destruct (behaves_returns true (print_summary a) w0
                    (print_summary_behaves a)) as ([] & w2 & Hps & Hk2);
        assert (Hk1 : keeps true w w0)
          by (eapply keeps_trans; apply keeps_say)
    end.
    rewrite Hps. unfold bind at 1. rewrite print_say.
    pose proof (keeps_trans true _ _ _ Hk1 Hk2) as (Hos & _ & Hdisk).
    destruct (Hdisk eq_refl) as [Hfiles _].
    unfold bind at 1.
    rewrite (write_text_summary_refused a text_output _ e1)
      by (unfold say; rewrite os_refuses_stdout, Hos; exact H1).
    unfold bind at 1.
    rewrite (write_json_summary_refused a json_output _ e2)
      by (unfold say; rewrite !os_refuses_stdout, Hos; exact H2).
    rewrite print_say.
    intros [= <-]. cbn [fs_files stdout say set_stdout tick].
    split; [exact Hfiles|].
    exists (stdout w2 ++ [lit " Writing output files..." ++ nl]).
    rewrite <- !app_assoc. reflexivity.
Qed.

End Day04Write.

Lemma log_analysis_ends_with_the_success_line_witness :
  let w := Sample.with_log (lit "ERROR disk almost full")
             (Sample.world_of [] Sample.timed_out
                (Sample.refuses_only Sample.is_open_w
                   Sample.permission_denied)) in
  exists w',
    Day04.main (RT := Sample.runtime) w = (Return tt, w') /\
    last (stdout w') = Some completed_line /\
    fs_files w' = fs_files w.
Proof.
  intros w.
  destruct (log_analysis_ends_with_the_success_line (RT := Sample.runtime)
              w (lit "ERROR disk almost full"))
    as (w' & Hrun & Hlast & Hboth);
    [reflexivity | intros H; vm_compute in H; discriminate | reflexivity |].
  destruct (Hboth Sample.permission_error Sample.permission_error
              eq_refl eq_refl) as [Hfiles _].
  exists w'. auto.
Defined.

(** ** Further properties of the validators of day-03 *)

Section Day03Validators.
Context {RT : Runtime}.
Import Day03.

Lemma isupper_loop_spec cased s :
  isupper_loop cased s = true <->
  Forall (fun c => Py_UNICODE_ISLOWER c = false /\
                   Py_UNICODE_ISTITLE c = false) s /\
  (cased = true \/ Exists (fun c => Py_UNICODE_ISUPPER c = true) s).
Proof.
  revert cased. induction s as [|c s IH]; intros cased; cbn.
  - split.
    + intros ->. split; [constructor | now left].
    + intros [_ [H|H]]; [exact H | inversion H].
  - destruct (Py_UNICODE_ISLOWER c) eqn:Hl; cbn.
    { split; [discriminate|]. intros [H _]. inversion H as [|? ? [? _] _].
      congruence. }
    destruct (Py_UNICODE_ISTITLE c) eqn:Ht; cbn.
    { split; [discriminate|]. intros [H _]. inversion H as [|? ? [_ ?] _].
      congruence. }
    rewrite IH. split.
    + intros [Hall Hsome]. split; [constructor; auto|].
      destruct Hsome as [Hsome|Hsome]; [|right; now apply Exists_cons_tl].
      apply orb_true_iff in Hsome as [Hsome|Hsome]; [now left|].
      right. now apply Exists_cons_hd.
    + intros [Hall Hsome]. inversion Hall as [|? ? _ Hall']; subst.
      split; [exact Hall'|]. destruct Hsome as [->|Hsome]; [now left|].
      inversion Hsome as [? ? Hc|? ? Hs']; subst.
      * left. rewrite Hc. apply orb_true_r.
      * now right.
Qed.

Lemma isupper_spec s : isupper s = true <-> s <> [] /\ upper_cased s.
Proof.
  destruct s as [|c [|c' s]].
  - split; [discriminate | intros [H _]; contradiction].
  - cbn. split; [intros H; split; [discriminate | exact H] | now intros [_ H]].
  - change (isupper (c :: c' :: s)) with (isupper_loop false (c :: c' :: s)).
    rewrite isupper_loop_spec. unfold upper_cased. split.
    + intros [Hall [Hc|Hsome]]; [discriminate|]. split; [discriminate | auto].
    + intros [_ [Hall Hsome]]. auto.
Qed.

Lemma isalpha_spec s :
  isalpha s = true <->
  s <> [] /\ Forall (fun c => Py_UNICODE_ISALPHA c = true) s.
Proof.
  destruct s as [|c [|c' s]].
  - split; [discriminate | intros [H _]; contradiction].
  - cbn. split.
    + intros H. split; [discriminate | repeat constructor; exact H].
    + intros [_ H]. now inversion H.
  - change (isalpha (c :: c' :: s))
      with (forallb Py_UNICODE_ISALPHA (c :: c' :: s)).
    rewrite forallb_forall, List.Forall_forall. split.
    + intros H. split; [discriminate | exact H].
    + now intros [_ H].
Qed.

(** X10.  What [validate_stock_symbol] accepts, exactly: a string of one
    to five characters, all of them alphabetic, that [str.isupper] takes
    for uppercase, which for two characters or more means that none is
    lowercase or titlecase and at least one is uppercase.  Everything
    that is not a string is rejected. *)
Theorem validate_stock_symbol_accepts_exactly (symbol : pyval) :
  validate_stock_symbol symbol = true <->
  exists s,
    symbol = PStr s /\ 1 <= length s <= 5 /\
    Forall (fun c => Py_UNICODE_ISALPHA c = true) s /\
    upper_cased s.
Proof.
  destruct (is_str symbol) eqn:Hstr.
  2:{ rewrite (validate_stock_symbol_not_str _ Hstr). split; [discriminate|].
      intros (s & -> & _). discriminate. }
  destruct symbol as [| | | |s| |]; try discriminate.
  rewrite validate_stock_symbol_str, !andb_true_iff.
  rewrite Nat.leb_le, Nat.leb_le, isalpha_spec, isupper_spec. split.
  - intros [[[H1 H5] [_ Ha]] [_ Hu]]. exists s. auto.
  - intros (s' & [= <-] & [H1 H5] & Ha & Hu).
    assert (Hne : s <> []) by (destruct s; [cbn in H1; lia | discriminate]).
    auto.
Qed.

(** X11.  [validate_api_key] rejects the values that are false (None,
    the empty string, ...) and the placeholder text, nothing else; so the
    test of [main], which exempts "demo", warns about a key that is not
    empty exactly when it is the placeholder. *)
Theorem api_key_warning_is_for_the_placeholder_only :
  (forall api_key,
     validate_api_key api_key = false <->
     truthy api_key = false \/ api_key = PStr placeholder_key) /\
  (forall api_key : pystr,
     api_key <> [] ->
     negb (validate_api_key (PStr api_key)) &&
     negb (str_eqb api_key (lit "demo")) =
     bool_decide (api_key = placeholder_key)) /\
  (forall api_key w,
     api_key <> [] ->
     warned api_key w =
       if bool_decide (api_key = placeholder_key)
       then say [key_warning_line] w else w).
Proof.
  assert (Hkey : forall v,
    validate_api_key v = false <->
    truthy v = false \/ v = PStr placeholder_key).
  { intros v. unfold validate_api_key, placeholder_key.
    destruct (truthy v) eqn:Ht; cbn [negb orb].
    - destruct v as [| | | |s| |]; cbn [py_eq_str];
        try (split; [discriminate | intros [?|?]; discriminate]).
      unfold str_eqb. case_bool_decide as Hs.
      + split; [intros _; right; now rewrite Hs | reflexivity].
      + split; [discriminate | intros [?|[= ?]]; [discriminate|contradiction]].
    - split; auto. }
  assert (Hcond : forall api_key : pystr,
    api_key <> [] ->
    negb (validate_api_key (PStr api_key)) &&
    negb (str_eqb api_key (lit "demo")) =
    bool_decide (api_key = placeholder_key)).
  { intros s Hs. case_bool_decide as Hp.
    - assert (Hv : validate_api_key (PStr s) = false)
        by (apply Hkey; right; now rewrite Hp).
      rewrite Hv, Hp. reflexivity.
    - destruct (validate_api_key (PStr s)) eqn:Hv; [reflexivity|].
      apply Hkey in Hv as [Hv|[= Hv]]; [|contradiction].
      cbn in Hv. apply negb_false_iff, bool_decide_eq_true in Hv.
      contradiction. }
  split; [exact Hkey|]. split; [exact Hcond|].
  intros s w Hs. unfold warned. now rewrite (Hcond s Hs).
Qed.

End Day03Validators.

(** The excerpt of the character database agrees with Unicode on Basic
    Latin. *)
Lemma sample_basic_latin (c : N) :
  (c < 128)%N ->
  Py_UNICODE_ISALPHA (Runtime := Sample.runtime) c =
    ((65 <=? c) && (c <=? 90) || (97 <=? c) && (c <=? 122))%N /\
  Py_UNICODE_ISUPPER (Runtime := Sample.runtime) c = ((65 <=? c) && (c <=? 90))%N /\
  Py_UNICODE_ISLOWER (Runtime := Sample.runtime) c = ((97 <=? c) && (c <=? 122))%N /\
  Py_UNICODE_ISTITLE (Runtime := Sample.runtime) c = false.
Proof.
  intros Hc. rewrite <- (N2Nat.id c).
  assert (Hn : N.to_nat c < 128) by lia.
  revert Hn. generalize (N.to_nat c) as n. intros n Hn.
  do 128 (destruct n as [|n]; [vm_compute; auto|]). lia.
Qed.

Lemma validate_stock_symbol_ascii_witness :
  Day03.validate_stock_symbol (RT := Sample.runtime) (PStr (lit "IBM")) = true /\
  Day03.validate_stock_symbol (RT := Sample.runtime) (PStr (lit "Ibm")) = false.
Proof.
  split.
  - rewrite (validate_stock_symbol_ascii (RT := Sample.runtime));
      [reflexivity | exact sample_basic_latin |].
    repeat constructor.
  - rewrite (validate_stock_symbol_ascii (RT := Sample.runtime));
      [reflexivity | exact sample_basic_latin |].
    repeat constructor.
Defined.

(** ** Further properties of [fetch_stock_data] *)

Section Day03FetchMore.
Context {RT : Runtime}.
Import Day03.

Lemma asked_say symbol line w :
  set_stdout (fun o => o ++ [line]) (asked symbol w) =
  say [requesting symbol; line] w.
Proof.
  unfold asked, say, set_stdout. cbn. f_equal. now rewrite <- app_assoc.
Qed.

(** X13.  [fetch_stock_data] never raises: whatever the network, the
    status and the body, it returns after printing two lines, the request
    and its result, and changes nothing else.  What it returns is None or
    a payload that passed the three checks; such a payload is true, so
    the test [if stock_data] of [main] sends every payload to be
    saved. *)
Theorem fetch_stock_data_always_returns
  (api_url api_key symbol : pystr) (w : world) :
  exists v line,
    fetch_stock_data api_url api_key symbol w =
      (Return v, say [requesting symbol; line ++ nl] w) /\
    (v = PNone \/
     (truthy v = true /\
      well_formed_answer w (query_url api_url api_key symbol) v /\
      line = lit " Successfully fetched data for " ++ symbol)).
Proof.
  destruct (fetch_stock_data_cases api_url api_key symbol w)
    as (v & line & Hrun & Hv).
  exists v, line. rewrite Hrun, asked_say. split; [reflexivity|].
  destruct Hv as [->|[Hwf ->]]; [now left | right].
  split; [apply (well_formed_answer_truthy _ _ _ Hwf) | auto].
Qed.

Lemma not_status_ok r : error_status r -> ~ status_ok r.
Proof.
  unfold error_status, status_ok.
  rewrite orb_true_iff, N.ltb_lt, N.leb_le. lia.
Qed.

Lemma raise_for_status_error r w :
  error_status r ->
  raise_for_status r w = (Raise (Exc HTTPError (http_error_text r)), w).
Proof.
  unfold error_status, raise_for_status, http_error_text. intros H.
  destruct (N.leb_spec 400 (status_code r)), (N.ltb_spec (status_code r) 500),
    (N.leb_spec 500 (status_code r)), (N.ltb_spec (status_code r) 600);
    cbn; try reflexivity; exfalso; lia.
Qed.

(** X14.  When the answer has an error status, 400 to 599,
    [fetch_stock_data] returns None after the line "HTTP Error:" with
    the text of the error, which names the status, the reason and the
    URL; the body is not looked at. *)
Theorem fetch_stock_data_reports_error_status
  (api_url api_key symbol : pystr) (w : world) (r : response) :
  network w (query_url api_url api_key symbol) (Some 10%N) = Return r ->
  error_status r ->
  fetch_stock_data api_url api_key symbol w =
    (Return PNone,
     say [ requesting symbol;
           (lit " HTTP Error: " ++ http_error_text r) ++ nl ] w).
Proof.
  intros Hnet Hstatus. unfold fetch_stock_data.
  assert (Htry : fetch_stock_data_try api_url api_key symbol w =
                 (Raise (Exc HTTPError (http_error_text r)), asked symbol w)).
  { unfold fetch_stock_data_try. cbv zeta.
    unfold bind at 1. rewrite print_run. unfold bind at 1, requests_get.
    rewrite network_stdout. unfold query_url in Hnet. rewrite Hnet.
    unfold bind at 1. now rewrite (raise_for_status_error _ _ Hstatus). }
  erewrite try_Raise; [ | exact Htry | reflexivity]. cbn beta.
  unfold bind, ret. rewrite print_run, asked_say. reflexivity.
Qed.

(** X15.  The order of the checks on a body that was parsed: a body in
    which "Error Message" is found is reported as an invalid symbol,
    whatever else it holds; failing that, an object with a "Note" is
    reported as a rate limit, with the text of the note; failing both, a
    body without "Time Series (Daily)" is reported as unexpected.  In all
    three cases None is returned. *)
Theorem fetch_stock_data_order_of_checks
  (api_url api_key symbol : pystr) (w : world) (r : response) (data : pyval) :
  network w (query_url api_url api_key symbol) (Some 10%N) = Return r ->
  status_ok r -> json r = Return data ->
  (py_in (lit "Error Message") data = Return true ->
   fetch_stock_data api_url api_key symbol w =
     (Return PNone,
      say [ requesting symbol;
            (lit " API Error: Invalid stock symbol '" ++ symbol ++ lit "'")
            ++ nl ] w)) /\
  (forall note,
     py_in (lit "Error Message") data = Return false ->
     py_in (lit "Note") data = Return true ->
     py_getitem data (lit "Note") = Return note ->
     fetch_stock_data api_url api_key symbol w =
       (Return PNone,
        say [ requesting symbol;
              (lit "  API Rate Limit: " ++ str_value note) ++ nl ] w)) /\
  (py_in (lit "Error Message") data = Return false ->
   py_in (lit "Note") data = Return false ->
   py_in (lit "Time Series (Daily)") data = Return false ->
   fetch_stock_data api_url api_key symbol w =
     (Return PNone,
      say [ requesting symbol;
            lit " Unexpected API response format" ++ nl ] w)).
Proof.
  intros Hnet Hstatus Hbody.
  pose proof (fetch_try_parsed api_url api_key symbol w r Hnet Hstatus) as Htry.
  rewrite Hbody in Htry. unfold fetch_stock_data. repeat split.
  - intros H1. rewrite H1 in Htry.
    now rewrite (try_Return _ _ _ _ _ Htry), asked_say.
  - intros note H1 H2 H3. rewrite H1, H2, H3 in Htry.
    now rewrite (try_Return _ _ _ _ _ Htry), asked_say.
  - intros H1 H2 H3. rewrite H1, H2, H3 in Htry.
    now rewrite (try_Return _ _ _ _ _ Htry), asked_say.
Qed.

(** X16.  A body that parses to [null], a boolean or a number makes the
    first membership test raise [TypeError]; the last clause,
    [except Exception], catches it: [fetch_stock_data] prints
    "Unexpected error:" with the text of the error and returns None. *)
Theorem fetch_stock_data_survives_scalar_body
  (api_url api_key symbol : pystr) (w : world) (r : response) (data : pyval) :
  network w (query_url api_url api_key symbol) (Some 10%N) = Return r ->
  status_ok r -> json r = Return data -> scalar data ->
  exists msg,
    py_in (lit "Error Message") data = Raise (Exc TypeError msg) /\
    fetch_stock_data api_url api_key symbol w =
      (Return PNone,
       say [ requesting symbol; (lit " Unexpected error: " ++ msg) ++ nl ] w).
Proof.
  intros Hnet Hstatus Hbody Hscalar.
  pose proof (fetch_try_parsed api_url api_key symbol w r Hnet Hstatus) as Htry.
  rewrite Hbody in Htry. unfold fetch_stock_data.
  destruct data; try contradiction; cbn in Htry;
    (eexists; split; [reflexivity|]);
    (erewrite try_Raise; [ | exact Htry | reflexivity]); cbn beta;
    unfold bind, ret; rewrite print_run, asked_say; reflexivity.
Qed.

End Day03FetchMore.

Lemma fetch_stock_data_reports_error_status_witness :
  let r := {| status_code := 404; reason := lit "Not Found";
              resp_url := lit "https://www.alphavantage.co/query";
              body := Ok Sample.daily_series |} in
  let w := Sample.world_of [] (Ok r) Sample.nothing_refused in
  Day03.fetch_stock_data (RT := Sample.runtime)
    Day03.api_url (lit "demo") (lit "IBM") w =
    (Return PNone,
     say [ requesting (lit "IBM");
           lit " HTTP Error: 404 Client Error: Not Found for url: https://www.alphavantage.co/query" ++ nl ] w).
Proof.
  intros r w.
  rewrite (fetch_stock_data_reports_error_status (RT := Sample.runtime)
             Day03.api_url (lit "demo") (lit "IBM") w r);
    [reflexivity | reflexivity | unfold error_status; cbn; lia].
Defined.

Lemma fetch_stock_data_order_of_checks_witness :
  let both := PDict [ (lit "Error Message", PStr (lit "Invalid API call."));
                      (lit "Time Series (Daily)", PDict []) ] in
  let w := Sample.world_of [] (Ok (Sample.ok_response (Ok both)))
             Sample.nothing_refused in
  fst (Day03.fetch_stock_data (RT := Sample.runtime)
         Day03.api_url (lit "demo") (lit "IBM") w) = Return PNone.
Proof.
  intros both w.
  destruct (fetch_stock_data_order_of_checks (RT := Sample.runtime)
              Day03.api_url (lit "demo") (lit "IBM") w
              (Sample.ok_response (Ok both)) both)
    as [Herror _]; [reflexivity | reflexivity | reflexivity |].
  rewrite Herror; reflexivity.
Defined.

Lemma fetch_stock_data_survives_scalar_body_witness :
  let w := Sample.world_of [] (Ok (Sample.ok_response (Ok PNone)))
             Sample.nothing_refused in
  fst (Day03.fetch_stock_data (RT := Sample.runtime)
         Day03.api_url (lit "demo") (lit "IBM") w) = Return PNone.
Proof.
  intros w.
  destruct (fetch_stock_data_survives_scalar_body (RT := Sample.runtime)
              Day03.api_url (lit "demo") (lit "IBM") w
              (Sample.ok_response (Ok PNone)) PNone)
    as (msg & _ & Hrun); [reflexivity | reflexivity | reflexivity | exact I |].
  now rewrite Hrun.
Defined.

(** ** Further properties of [get_user_input] *)

Section Day03InputMore.
Context {RT : Runtime}.
Import Day03.

Lemma body_line_rejected prompt default validator w typed rest :
  stdin w = Line typed :: rest ->
  acceptable validator (answer_of default typed) = false ->
  get_user_input_body prompt default validator w =
    (Return None,
     set_stdin rest (say (rejection prompt default typed) w)).
Proof.
  intros Hin Hrej.
  rewrite (body_line prompt default validator w typed rest Hin). cbv zeta.
  unfold acceptable in Hrej. unfold rejection.
  assert (Hw : forall c,
    set_stdout (fun o => o ++ [c])
      (set_stdin rest
         (set_stdout (fun o => o ++ [prompt_text prompt default]) w)) =
    set_stdin rest (say [prompt_text prompt default; c] w)).
  { intros c. unfold say, set_stdin, set_stdout. cbn. f_equal.
    now rewrite <- app_assoc. }
  destruct (bool_decide (answer_of default typed = [])); cbn [negb andb] in *.
  - now rewrite Hw.
  - destruct validator as [check|]; [|discriminate].
    rewrite Hrej. cbn [negb]. now rewrite Hw.
Qed.

Lemma body_line_accepted prompt default validator w typed rest :
  stdin w = Line typed :: rest ->
  acceptable validator (answer_of default typed) = true ->
  get_user_input_body prompt default validator w =
    (Return (Some (answer_of default typed)),
     set_stdin rest (say [prompt_text prompt default] w)).
Proof.
  intros Hin Hacc.
  rewrite (body_line prompt default validator w typed rest Hin). cbv zeta.
  unfold acceptable in Hacc. apply andb_true_iff in Hacc as [Hne Hcheck].
  apply negb_true_iff in Hne. rewrite Hne.
  destruct validator as [check|]; [now rewrite Hcheck | reflexivity].
Qed.

(** The passes of the loop over lines that are not accepted. *)
Lemma get_user_input_loop_rejects prompt default validator rejected :
  forall passes w tail,
    stdin w = map Line rejected ++ tail ->
    Forall (fun l => acceptable validator (answer_of default l) = false)
           rejected ->
    get_user_input_loop (length rejected + passes) prompt default validator w =
    get_user_input_loop passes prompt default validator
      (set_stdin tail (say (rejections prompt default rejected) w)).
Proof.
  induction rejected as [|l rejected IH]; intros passes w tail Hin Hrej.
  - cbn in *. f_equal. destruct w. unfold say, set_stdin, set_stdout. cbn in *.
    rewrite app_nil_r. now subst.
  - inversion Hrej as [|? ? Hl Hrest]; subst. cbn [length Nat.add map app] in *.
    cbn [get_user_input_loop].
    rewrite (bind_Return _ _ _ _ _
               (body_line_rejected prompt default validator w l _ Hin Hl)).
    rewrite (IH passes _ tail); [|reflexivity | exact Hrest].
    f_equal. unfold rejections, say, set_stdin, set_stdout. cbn. f_equal.
    now rewrite <- !app_assoc.
Qed.

Lemma get_user_input_after_rejects prompt default validator rejected w tail :
  stdin w = map Line rejected ++ tail ->
  Forall (fun l => acceptable validator (answer_of default l) = false)
         rejected ->
  get_user_input prompt default validator w =
    get_user_input_loop (S (length tail)) prompt default validator
      (set_stdin tail (say (rejections prompt default rejected) w)).
Proof.
  intros Hin Hrej. unfold get_user_input.
  rewrite Hin, length_app, length_map.
  replace (S (length rejected + length tail))
    with (length rejected + S (length tail)) by lia.
  now apply get_user_input_loop_rejects.
Qed.

(** X17.  [get_user_input] returns the first answer that is acceptable:
    it asks again after every line whose answer is empty or fails the
    validator, printing one complaint for each, and returns the answer
    made of the first line that passes, stripped, or the default when
    that line is blank.  It reads no further than that line. *)
Theorem get_user_input_returns_first_acceptable
  (prompt : pystr) (default : option pystr)
  (validator : option (pystr -> bool)) (w : world)
  (rejected : list pystr) (good : pystr) (rest : list input_event) :
  stdin w = map Line rejected ++ Line good :: rest ->
  Forall (fun l => acceptable validator (answer_of default l) = false)
         rejected ->
  acceptable validator (answer_of default good) = true ->
  get_user_input prompt default validator w =
    (Return (answer_of default good),
     set_stdin rest
       (say (rejections prompt default rejected ++
             [prompt_text prompt default]) w)).
Proof.
  intros Hin Hrej Hgood.
  rewrite (get_user_input_after_rejects _ _ _ rejected w _ Hin Hrej).
  cbn [get_user_input_loop].
  erewrite bind_Return; [|apply body_line_accepted; [reflexivity | exact Hgood]].
  unfold ret. f_equal. unfold say, set_stdin, set_stdout. cbn. f_equal.
  now rewrite <- app_assoc.
Qed.

(** X18.  When the lines that [get_user_input] does not accept are
    followed by the end of the input, it leaves the process with status
    1 after "Unexpected end of input"; when they are followed by Ctrl-C,
    with status 0 after "Operation cancelled by user". *)
Theorem get_user_input_leaves_at_end_or_interrupt
  (prompt : pystr) (default : option pystr)
  (validator : option (pystr -> bool)) (w : world)
  (rejected : list pystr) (tail : list input_event) :
  stdin w = map Line rejected ++ tail ->
  Forall (fun l => acceptable validator (answer_of default l) = false)
         rejected ->
  (tail = [] ->
   get_user_input prompt default validator w =
     (Raise (SystemExit 1),
      set_stdin []
        (say (rejections prompt default rejected ++
              [prompt_text prompt default; end_of_input]) w))) /\
  (forall rest,
     tail = CtrlC :: rest ->
     get_user_input prompt default validator w =
       (Raise (SystemExit 0),
        set_stdin rest
          (say (rejections prompt default rejected ++
                [prompt_text prompt default; cancelled]) w))).
Proof.
  intros Hin Hrej.
  rewrite (get_user_input_after_rejects _ _ _ rejected w _ Hin Hrej).
  split.
  - intros ->. cbn [get_user_input_loop].
    erewrite bind_Raise; [|apply body_eof; reflexivity].
    f_equal. unfold say, set_stdin, set_stdout. cbn. f_equal.
    now rewrite <- !app_assoc.
  - intros rest ->. cbn [get_user_input_loop].
    erewrite bind_Raise; [|apply body_ctrl_c; reflexivity].
    f_equal. unfold say, set_stdin, set_stdout. cbn. f_equal.
    now rewrite <- !app_assoc.
Qed.

End Day03InputMore.

Lemma get_user_input_returns_first_acceptable_witness :
  let w := Sample.world_of
             [ Line (lit "ibm" ++ nl); Line (lit "GOOGLE" ++ nl);
               Line (lit "  AAPL " ++ nl); Line (lit "MSFT" ++ nl) ]
             Sample.timed_out Sample.nothing_refused in
  let run := Day03.get_user_input symbol_prompt
               (Some (lit "IBM"))
               (Some (symbol_check (RT := Sample.runtime))) w in
  fst run = Return (lit "AAPL") /\
  stdin (snd run) = [Line (lit "MSFT" ++ nl)] /\
  length (stdout (snd run)) = 5.
Proof.
  intros w run. unfold run.
  rewrite (get_user_input_returns_first_acceptable
             symbol_prompt (Some (lit "IBM"))
             (Some (symbol_check (RT := Sample.runtime))) w
             [lit "ibm" ++ nl; lit "GOOGLE" ++ nl] (lit "  AAPL " ++ nl)
             [Line (lit "MSFT" ++ nl)]);
    [ | reflexivity | repeat constructor | vm_compute; reflexivity ].
  vm_compute. auto.
Defined.

Lemma get_user_input_leaves_at_end_or_interrupt_witness :
  let w := Sample.world_of [Line (lit "ibm" ++ nl); CtrlC]
             Sample.timed_out Sample.nothing_refused in
  fst (Day03.get_user_input symbol_prompt
         (Some (lit "IBM")) (Some (symbol_check (RT := Sample.runtime))) w)
    = Raise (SystemExit 0).
Proof.
  intros w.
  destruct (get_user_input_leaves_at_end_or_interrupt
              symbol_prompt (Some (lit "IBM"))
              (Some (symbol_check (RT := Sample.runtime))) w
              [lit "ibm" ++ nl] [CtrlC])
    as [_ Hint]; [reflexivity | repeat constructor |].
  now rewrite (Hint [] eq_refl).
Defined.

(** ** Further properties of [save_data_to_file] *)

Section Day03SaveMore.
Context {RT : Runtime}.
Import Day03.

Lemma save_caught data filename symbol w e w1 :
  ordinary e ->
  save_data_to_file_try data filename symbol w = (Raise e, w1) ->
  exists line,
    save_data_to_file data filename symbol w =
      (Return false, say [line ++ nl] w1).
Proof.
  intros He Hrun.
  destruct (save_except_catches filename e He) as (h & line & Hh & Hrun' & _).
  exists line. unfold save_data_to_file.
  now rewrite (try_Raise _ _ _ _ _ _ Hrun Hh), Hrun'.
Qed.

(** From [open] on, in a world [w1] that the directory step left. *)
Lemma save_from_open_facts data filename symbol w w1 :
  save_data_to_file_try data filename symbol w =
    save_from_open filename (record_text data symbol w) w1 ->
  os_refuses w1 = os_refuses w ->
  exists b w',
    save_data_to_file data filename symbol w = (Return b, w') /\
    fs_dirs w' = fs_dirs w1 /\ stdin w' = stdin w1 /\
    (forall p, p <> filename -> fs_files w' !! p = fs_files w1 !! p) /\
    (b = true <->
     os_refuses w (OpOpenW filename) = None /\
     os_refuses w (OpWrite filename) = None /\
     os_refuses w (OpGetsize filename) = None) /\
    (os_refuses w (OpOpenW filename) = None ->
     os_refuses w (OpWrite filename) = None ->
     fs_files w' = <[filename := record_text data symbol w]> (fs_files w1)).
Proof.
  intros Htry Hsame. pose proof (os_refuses_ordinary w) as Hos.
  unfold save_from_open in Htry. rewrite Hsame in Htry.
  destruct (os_refuses w (OpOpenW filename)) as [e|] eqn:Hopen.
  { destruct (save_caught _ _ _ _ e _ (Hos _ _ Hopen) Htry) as [line Hrun].
    eexists false, _. split; [exact Hrun|]. cbn.
    split; [reflexivity|]. split; [reflexivity|]. split; [reflexivity|].
    split; [|discriminate]. split; [discriminate|]. intros (? & _).
    discriminate. }
  destruct (os_refuses w (OpWrite filename)) as [e|] eqn:Hwrite.
  { destruct (save_caught _ _ _ _ e _ (Hos _ _ Hwrite) Htry) as [line Hrun].
    eexists false, _. split; [exact Hrun|]. cbn.
    split; [reflexivity|]. split; [reflexivity|].
    split; [intros p Hp; now apply lookup_insert_ne|].
    split; [|discriminate]. split; [discriminate|]. intros (_ & ? & _).
    discriminate. }
  cbv zeta in Htry.
  destruct (os_refuses w (OpGetsize filename)) as [e|] eqn:Hsize.
  { destruct (save_caught _ _ _ _ e _ (Hos _ _ Hsize) Htry) as [line Hrun].
    eexists false, _. split; [exact Hrun|]. cbn.
    split; [reflexivity|]. split; [reflexivity|].
    split; [intros p Hp; now apply lookup_insert_ne|].
    split; [|reflexivity]. split; [discriminate|]. intros (_ & _ & ?).
    discriminate. }
  eexists true, _.
  split; [unfold save_data_to_file; apply (try_Return _ _ _ _ _ Htry)|]. cbn.
  split; [reflexivity|]. split; [reflexivity|].
  split; [intros p Hp; now apply lookup_insert_ne|].
  split; [tauto | reflexivity].
Qed.

Lemma save_data_to_file_facts data filename symbol w :
  exists b w',
    save_data_to_file data filename symbol w = (Return b, w') /\
    stdin w' = stdin w /\
    (forall p, p <> filename -> fs_files w' !! p = fs_files w !! p) /\
    fs_dirs w ⊆ fs_dirs w' /\
    (directory_missing filename w = false -> fs_dirs w' = fs_dirs w) /\
    (b = true <-> unhindered filename w) /\
    ((directory_missing filename w = true ->
      os_refuses w (OpMakedirs (dirname filename)) = None) ->
     os_refuses w (OpOpenW filename) = None ->
     os_refuses w (OpWrite filename) = None ->
     fs_files w' = <[filename := record_text data symbol w]> (fs_files w)).
Proof.
  pose proof (os_refuses_ordinary w) as Hos.
  pose proof (save_try_eval data filename symbol w) as Htry. cbv zeta in Htry.
  unfold unhindered.
  destruct (directory_missing filename w) eqn:Hmiss.
  - destruct (os_refuses w (OpMakedirs (dirname filename))) as [e|] eqn:Hmk.
    + destruct (save_caught _ _ _ _ e _ (Hos _ _ Hmk) Htry) as [line Hrun].
      eexists false, _. split; [exact Hrun|]. cbn.
      split; [reflexivity|]. split; [reflexivity|]. split; [set_solver|].
      split; [discriminate|]. split.
      * split; [discriminate|]. intros (H & _). now specialize (H eq_refl).
      * intros H. now specialize (H eq_refl).
    + destruct (save_from_open_facts data filename symbol w _ Htry eq_refl)
        as (b & w' & Hrun & Hd & Hi & Hf & Hb & Hwhole).
      exists b, w'. split; [exact Hrun|]. cbn in Hd, Hi, Hf, Hwhole.
      split; [exact Hi|]. split; [exact Hf|].
      split; [rewrite Hd; set_solver|]. split; [discriminate|].
      split; [rewrite Hb; tauto|]. auto.
  - destruct (save_from_open_facts data filename symbol w _ Htry eq_refl)
      as (b & w' & Hrun & Hd & Hi & Hf & Hb & Hwhole).
    exists b, w'. split; [exact Hrun|]. cbn in Hd, Hi, Hf, Hwhole.
    split; [exact Hi|]. split; [exact Hf|].
    split; [rewrite Hd; set_solver|]. split; [auto|].
    split; [rewrite Hb; intuition discriminate|]. auto.
Qed.

(** X19.  [save_data_to_file] never raises, and it returns True exactly
    when the system refuses none of the calls it makes: [os.makedirs]
    when the directory is missing, [open], the write, and
    [os.path.getsize].  So a refusal of the size query, which comes after
    the write, makes it return False although the file holds the whole
    record. *)
Theorem save_data_to_file_true_iff_unhindered
  (data : pyval) (filename symbol : pystr) (w : world) :
  exists b w',
    save_data_to_file data filename symbol w = (Return b, w') /\
    (b = true <-> unhindered filename w) /\
    (forall e,
       (directory_missing filename w = true ->
        os_refuses w (OpMakedirs (dirname filename)) = None) ->
       os_refuses w (OpOpenW filename) = None ->
       os_refuses w (OpWrite filename) = None ->
       os_refuses w (OpGetsize filename) = Some e ->
       b = false /\
       fs_files w' = <[filename := record_text data symbol w]> (fs_files w)).
Proof.
  destruct (save_data_to_file_facts data filename symbol w)
    as (b & w' & Hrun & _ & _ & _ & _ & Hb & Hwhole).
  exists b, w'. split; [exact Hrun|]. split; [exact Hb|].
  intros e Hmk Hopen Hwrite Hsize. split; [|now apply Hwhole].
  destruct b; [|reflexivity].
  destruct (proj1 Hb eq_refl) as (_ & _ & _ & Hnone). congruence.
Qed.

(** X20.  [save_data_to_file] changes no file but the one it is asked to
    write, removes no directory, creates one only when the directory of
    the file was missing, and reads nothing from the terminal. *)
Theorem save_data_to_file_touches_only_its_file
  (data : pyval) (filename symbol : pystr) (w : world) :
  exists b w',
    save_data_to_file data filename symbol w = (Return b, w') /\
    (forall p, p <> filename -> fs_files w' !! p = fs_files w !! p) /\
    fs_dirs w ⊆ fs_dirs w' /\
    (directory_missing filename w = false -> fs_dirs w' = fs_dirs w) /\
    stdin w' = stdin w.
Proof.
  destruct (save_data_to_file_facts data filename symbol w)
    as (b & w' & Hrun & Hi & Hf & Hd & Hd' & _).
  exists b, w'. auto.
Qed.

End Day03SaveMore.

(** ** day-02: processing the users *)

Section Day02Process.
Context {RT : Runtime}.
Import Day02.

Lemma py_getitem_lookup_error v key e :
  py_getitem v key = Raise e -> lookup_error e.
Proof.
  unfold lookup_error.
  destruct v; cbn; try (intros [= <-]; eauto).
  destruct (find _ _); intros [= <-]; eauto.
Qed.

Lemma and_then_Return {A B} (o : outcome A) (k : A -> outcome B) b :
  and_then o k = Return b <-> exists a, o = Return a /\ k a = Return b.
Proof.
  destruct o as [a|e]; cbn.
  - split; [eauto | now intros (a' & [= <-] & H)].
  - split; [discriminate | now intros (a' & [=] & _)].
Qed.

Lemma and_then_Raise {A B} (o : outcome A) (k : A -> outcome B) e :
  and_then o k = Raise e <->
  o = Raise e \/ exists a, o = Return a /\ k a = Raise e.
Proof.
  destruct o as [a|e']; cbn.
  - split; [eauto | now intros [[=]|(a' & [= <-] & H)]].
  - split; [intros [= <-]; auto | intros [[= <-]|(a' & [=] & _)]; reflexivity].
Qed.

Lemma process_user_lookup_error user e :
  process_user user = Raise e -> lookup_error e.
Proof.
  intros H. unfold process_user in H.
  repeat match type of H with
  | and_then _ _ = Raise _ =>
      apply and_then_Raise in H as [H|(? & _ & H)]
  end; try (eapply py_getitem_lookup_error; exact H); discriminate.
Qed.

Lemma process_user_Return user entry :
  process_user user = Return entry <->
  exists id name email city company,
    has_fields user id name email city company /\
    entry = processed_user id name email city company.
Proof.
  unfold process_user, has_fields, processed_user. split.
  - intros H.
    apply and_then_Return in H as (id & Hid & H).
    apply and_then_Return in H as (name & Hname & H).
    apply and_then_Return in H as (email & Hemail & H).
    apply and_then_Return in H as (city & Hcity & H).
    apply and_then_Return in H as (company & Hcompany & H).
    apply and_then_Return in Hcity as (address & Haddress & Hcity).
    apply and_then_Return in Hcompany as (employer & Hemployer & Hcompany).
    injection H as <-. exists id, name, email, city, company. eauto 12.
  - intros (id & name & email & city & company &
            (Hid & Hname & Hemail & (address & Haddress & Hcity) &
             (employer & Hemployer & Hcompany)) & ->).
    rewrite Hid, Hname, Hemail, Haddress, Hemployer. cbn.
    now rewrite Hcity, Hcompany.
Qed.

(** X21.  What [process_data] makes of one user: it returns exactly when
    the user has the fields id, name and email, an address with a city
    and a company with a name, and then the dictionary it appends holds
    these five values under id, name, email, city and company, in that
    order; otherwise the subscription that fails raises [KeyError] or
    [TypeError]. *)
Theorem process_user_returns_the_five_fields (user : pyval) :
  (forall entry,
     process_user user = Return entry <->
     exists id name email city company,
       has_fields user id name email city company /\
       entry = processed_user id name email city company) /\
  (forall e, process_user user = Raise e -> lookup_error e).
Proof.
  split; [apply process_user_Return | apply process_user_lookup_error].
Qed.

Lemma process_users_app users : forall acc,
  process_users users acc =
    and_then (process_users users []) (fun out => Return (acc ++ out)).
Proof.
  induction users as [|user users IH]; intros acc; cbn.
  - now rewrite app_nil_r.
  - destruct (process_user user) as [entry|e]; cbn; [|reflexivity].
    rewrite (IH (acc ++ [entry])), (IH [entry]).
    destruct (process_users users []) as [out|e]; cbn; [|reflexivity].
    now rewrite <- app_assoc.
Qed.

Lemma process_users_cons user users :
  process_users (user :: users) [] =
    and_then (process_user user) (fun entry =>
      and_then (process_users users []) (fun out => Return (entry :: out))).
Proof.
  cbn. destruct (process_user user) as [entry|e]; cbn; [|reflexivity].
  apply process_users_app.
Qed.

Lemma process_users_Return users out :
  process_users users [] = Return out <->
  Forall2 (fun user entry => process_user user = Return entry) users out.
Proof.
  revert out. induction users as [|user users IH]; intros out.
  - cbn. split; [intros [= <-]; constructor | now inversion 1].
  - rewrite process_users_cons, and_then_Return. split.
    + intros (entry & Hentry & H).
      apply and_then_Return in H as (rest & Hrest & [= <-]).
      constructor; [exact Hentry | now apply IH].
    + inversion 1 as [|? entry ? rest Hentry Hrest]; subst.
      exists entry. split; [exact Hentry|].
      apply IH in Hrest. now rewrite Hrest.
Qed.

(** X22.  On a list, [process_data] is a map: it returns exactly when
    every user can be processed, and then the list it returns has one
    entry for each user, in the same order, each the dictionary made of
    that user. *)
Theorem process_data_maps_the_users (users : list pyval) (result : pyval) :
  process_data (PList users) = Return result <->
  exists entries,
    result = PList entries /\
    Forall2 (fun user entry => process_user user = Return entry)
            users entries.
Proof.
  unfold process_data. cbn [py_iter and_then]. rewrite and_then_Return. split.
  - intros (entries & Hentries & [= <-]). exists entries.
    split; [reflexivity | now apply process_users_Return].
  - intros (entries & -> & Hentries). exists entries.
    split; [now apply process_users_Return | reflexivity].
Qed.

Lemma process_users_first_failure good bad rest e :
  Forall (fun user => exists entry, process_user user = Return entry) good ->
  process_user bad = Raise e ->
  process_users (good ++ bad :: rest) [] = Raise e.
Proof.
  intros Hgood Hbad. induction Hgood as [|user good [entry Hentry] _ IH].
  - cbn. now rewrite Hbad.
  - cbn [app]. rewrite process_users_cons, Hentry. cbn. now rewrite IH.
Qed.

(** X23.  One user that cannot be processed loses the whole list:
    [process_data] raises the exception of the first such user and
    returns nothing of the users before it. *)
Theorem process_data_raises_at_the_first_bad_user
  (good : list pyval) (bad : pyval) (rest : list pyval) (e : exn) :
  Forall (fun user => exists entry, process_user user = Return entry) good ->
  process_user bad = Raise e ->
  process_data (PList (good ++ bad :: rest)) = Raise e /\ lookup_error e.
Proof.
  intros Hgood Hbad. split.
  - unfold process_data. cbn [py_iter and_then].
    now rewrite (process_users_first_failure good bad rest e Hgood Hbad).
  - now apply (process_user_lookup_error bad).
Qed.

(** X24.  [process_data] does not ask for a list.  A payload that is
    not a list only comes back when it is an empty object or an empty
    string, as the empty list; every other object or string makes the
    first subscription raise [TypeError], and [null], a boolean or a
    number cannot be iterated. *)
Theorem process_data_of_another_payload (payload result : pyval) :
  (process_data payload = Return result ->
   (exists users, payload = PList users) \/
   (result = PList [] /\ (payload = PDict [] \/ payload = PStr []))) /\
  (forall e,
     process_data payload = Raise e ->
     (forall users, payload <> PList users) ->
     exists msg, e = Exc TypeError msg).
Proof.
  unfold process_data. destruct payload as [| | | |s|users|items];
    cbn [py_iter and_then];
    try (split; [discriminate | intros e [= <-] _; eauto]).
  - destruct s as [|c s]; cbn.
    + split; [intros [= <-]; auto | discriminate].
    + split; [discriminate | intros e [= <-] _; eauto].
  - split; [eauto | intros e _ H; now destruct (H users)].
  - destruct items as [|[k v] items]; cbn.
    + split; [intros [= <-]; auto | discriminate].
    + split; [discriminate | intros e [= <-] _; eauto].
Qed.

End Day02Process.

Lemma process_data_raises_at_the_first_bad_user_witness :
  let leanne := PDict [ (lit "id", PInt 1); (lit "name", PStr (lit "Leanne"));
                        (lit "email", PStr (lit "leanne@example.org"));
                        (lit "address", PDict [(lit "city", PStr (lit "Gwen"))]);
                        (lit "company", PDict [(lit "name", PStr (lit "Romaguera"))]) ] in
  let nameless := PDict [ (lit "id", PInt 2) ] in
  Day02.process_data (PList [leanne; nameless; leanne]) =
    Raise (Exc KeyError (lit "'name'")).
Proof.
  intros leanne nameless.
  destruct (process_data_raises_at_the_first_bad_user
              [leanne] nameless [leanne] (Exc KeyError (lit "'name'")))
    as [Hrun _]; [|reflexivity|exact Hrun].
  repeat constructor. eexists. reflexivity.
Defined.

(** ** day-02: the runs of the script *)

Section Day02Runs.
Context {RT : Runtime}.
Import Day02.

Lemma fetch_api_data_eval w :
  fetch_api_data w =
    match network w API_URL None with
    | Raise e => (Raise e, w)
    | Return r =>
        match raise_for_status r w with
        | (Raise e, _) => (Raise e, w)
        | (Return _, _) => (json r, w)
        end
    end.
Proof.
  unfold fetch_api_data. unfold bind at 1, requests_get.
  destruct (network w API_URL None) as [r|e]; [|reflexivity].
  unfold bind, raise_for_status.
  destruct (_ && _); [reflexivity|]. now destruct (_ && _).
Qed.

(** X25.  [fetch_api_data] asks without a timeout and handles nothing:
    what [requests.get] raises leaves the function; an answer with an
    error status, 400 to 599, leaves it as [HTTPError] without the body
    being parsed; otherwise the function returns what the body parses
    to, or raises what the parser raises.  It prints nothing and changes
    nothing. *)
Theorem fetch_api_data_handles_nothing (w : world) :
  snd (fetch_api_data w) = w /\
  (forall e,
     network w API_URL None = Raise e -> fst (fetch_api_data w) = Raise e) /\
  (forall r,
     network w API_URL None = Return r -> error_status r ->
     fst (fetch_api_data w) = Raise (Exc HTTPError (http_error_text r))) /\
  (forall r,
     network w API_URL None = Return r -> status_ok r ->
     fst (fetch_api_data w) = json r).
Proof.
  rewrite fetch_api_data_eval. repeat split.
  - destruct (network w API_URL None) as [r|e]; [|reflexivity].
    now destruct (raise_for_status r w) as [[|] ?].
  - now intros e ->.
  - intros r -> Hr. now rewrite (raise_for_status_error _ _ Hr).
  - intros r -> Hr. now rewrite (raise_for_status_ok _ _ Hr).
Qed.

Lemma fetch_api_data_ordinary w e :
  fst (fetch_api_data w) = Raise e -> ordinary e.
Proof.
  rewrite fetch_api_data_eval.
  destruct (network w API_URL None) as [r|e'] eqn:Hnet; cbn.
  - unfold raise_for_status.
    destruct (_ && _); [intros [= <-]; reflexivity|].
    destruct (_ && _); [intros [= <-]; reflexivity|]. apply json_ordinary.
  - intros [= <-]. eapply network_ordinary; exact Hnet.
Qed.

Lemma fetch_api_data_run w : fetch_api_data w = (fst (fetch_api_data w), w).
Proof.
  rewrite fetch_api_data_eval.
  destruct (network w API_URL None) as [r|e]; [|reflexivity].
  now destruct (raise_for_status r w) as [[|] ?].
Qed.

Lemma lookup_error_ordinary e : lookup_error e -> ordinary e.
Proof. intros [msg [->| ->]]; reflexivity. Qed.

Lemma process_data_ordinary users e :
  process_data users = Raise e -> ordinary e.
Proof.
  unfold process_data. intros H.
  apply and_then_Raise in H as [H|(items & _ & H)].
  { destruct users; cbn in H; try discriminate; injection H as <-;
      reflexivity. }
  apply and_then_Raise in H as [H|(? & _ & [=])].
  revert H. generalize (@nil pyval). induction items as [|user items IH];
    intros acc; cbn; [discriminate|].
  intros H. apply and_then_Raise in H as [H|(entry & _ & H)]; [|eauto].
  now apply lookup_error_ordinary, (process_user_lookup_error user).
Qed.

Lemma fetch_api_data_say lines w :
  fetch_api_data (say lines w) = (fst (fetch_api_data w), say lines w).
Proof.
  rewrite (fetch_api_data_run (say lines w)). f_equal.
  rewrite !fetch_api_data_eval. unfold say. rewrite network_stdout.
  destruct (network w API_URL None) as [r|e']; [|reflexivity].
  unfold raise_for_status. now repeat destruct (_ && _).
Qed.

(** X26.  The script of day-02 handles no failure of the fetch or of the
    processing: the exception ends the run with exit status 1, after
    the one or two lines printed so far; nothing is written and the line
    of hashes at the end of the file is not printed. *)
Theorem fetch_or_processing_failure_ends_the_script (w : world) (e : exn) :
  fst (fetch_api_data w) = Raise e \/
  (exists users,
      fst (fetch_api_data w) = Return users /\
      process_data users = Raise e) ->
  exists w',
    script w = (Raise e, w') /\
    fst (run_script script w) = 1%Z /\
    fs_files w' = fs_files w /\ fs_dirs w' = fs_dirs w /\
    (stdout w' = stdout w ++ [fetching_line] \/
     stdout w' = stdout w ++ [fetching_line; processing_line]).
Proof.
  intros Hfail.
  assert (Hord : ordinary e).
  { destruct Hfail as [H|(users & _ & H)];
      [now apply (fetch_api_data_ordinary w)
      | now apply (process_data_ordinary users)]. }
  assert (Hstatus : exit_status (Raise (A := unit) e) = 1%Z).
  { destruct e as [t msg| |code]; [reflexivity|discriminate..]. }
  pose proof (fetch_api_data_say [fetching_line] w) as Hfetch.
  assert (Hrun : exists w',
    script w = (Raise e, w') /\
    fs_files w' = fs_files w /\ fs_dirs w' = fs_dirs w /\
    (stdout w' = stdout w ++ [fetching_line] \/
     stdout w' = stdout w ++ [fetching_line; processing_line])).
  { unfold script, main.
    unfold bind at 1. unfold bind at 1. rewrite print_say.
    change (say [_] w) with (say [fetching_line] w).
    unfold bind at 1. rewrite Hfetch.
    destruct Hfail as [->|(users & -> & Hproc)].
    - eexists. split; [reflexivity|]. cbn. auto.
    - unfold bind at 1. rewrite print_say, say_app.
      change (say [_; _] w) with (say [fetching_line; processing_line] w).
      unfold bind at 1, lift. rewrite Hproc.
      eexists. split; [reflexivity|]. cbn. auto. }
  destruct Hrun as (w' & Hrun & Hrest). exists w'.
  split; [exact Hrun|]. split; [|exact Hrest].
  unfold run_script. rewrite Hrun. exact Hstatus.
Qed.

Lemma process_data_entries users entries :
  process_data users = Return (PList entries) ->
  Forall (fun entry => exists id name email city company,
            entry = processed_user id name email city company) entries.
Proof.
  unfold process_data. intros H.
  apply and_then_Return in H as (items & _ & H).
  apply and_then_Return in H as (out & Hout & [= ->]).
  apply process_users_Return in Hout.
  induction Hout as [|user entry items out Hentry _ IH]; constructor.
  - apply process_user_Return in Hentry
      as (id & name & email & city & company & _ & ->). eauto 6.
  - exact IH.
Qed.

Lemma print_user_run id name email city company w :
  exists row,
    print_user (processed_user id name email city company) w =
      (Return tt, say [row] w).
Proof. eexists. reflexivity. Qed.

Lemma for_each_print_user entries :
  Forall (fun entry => exists id name email city company,
            entry = processed_user id name email city company) entries ->
  forall w, exists rows,
    length rows = length entries /\
    for_each entries print_user w = (Return tt, say rows w).
Proof.
  induction 1 as [|entry entries (id & name & email & city & company & ->) _ IH];
    intros w.
  - exists []. split; [reflexivity|]. cbn. unfold ret, say, set_stdout.
    destruct w; cbn. now rewrite app_nil_r.
  - destruct (print_user_run id name email city company w) as [row Hrow].
    destruct (IH (say [row] w)) as (rows & Hlen & Hrows).
    exists (row :: rows). split; [cbn; now rewrite Hlen|].
    cbn [for_each]. rewrite (bind_Return _ _ _ _ _ Hrow), Hrows, say_app.
    reflexivity.
Qed.

Lemma save_to_json_written data w :
  writable OUTPUT_FILE w ->
  save_to_json data w =
    (Return tt, set_fs_files (insert OUTPUT_FILE (json_dumps 4 data)) w).
Proof.
  intros [Hopen Hwrite]. unfold save_to_json.
  unfold bind, open_w, file_write. rewrite Hopen, os_refuses_files, Hwrite.
  cbn [fs_files set_fs_files]. rewrite lookup_insert_eq. cbn [default app].
  f_equal. unfold set_fs_files. cbn. f_equal. apply insert_insert_eq.
Qed.

(** X27.  When the fetch returns, the processing returns and the system
    lets [output.json] be opened and written, the script of day-02 ends
    normally: it prints one row for each processed user between the
    header and the line that names the file, then the line of hashes,
    and [output.json] holds the JSON text of the processed list and
    nothing of what it held before. *)
Theorem script_saves_the_processed_users
  (w : world) (users : pyval) (entries : list pyval) :
  fst (fetch_api_data w) = Return users ->
  process_data users = Return (PList entries) ->
  writable OUTPUT_FILE w ->
  exists rows w',
    script w = (Return tt, w') /\
    length rows = length entries /\
    stdout w' = stdout w ++
                [fetching_line; processing_line; processed_header] ++ rows ++
                [saved_to_json_line; hashes_line] /\
    fs_files w' = <[OUTPUT_FILE := json_dumps 4 (PList entries)]> (fs_files w) /\
    fs_dirs w' = fs_dirs w.
Proof.
  intros Hfetch Hproc Hw.
  destruct (for_each_print_user entries (process_data_entries _ _ Hproc)
              (say [fetching_line; processing_line; processed_header] w))
    as (rows & Hlen & Hrows).
  exists rows. eexists. split.
  - unfold script, main.
    unfold bind at 1. unfold bind at 1. rewrite print_say.
    unfold bind at 1. rewrite fetch_api_data_say, Hfetch.
    unfold bind at 1. rewrite print_say, say_app.
    unfold bind at 1, lift. rewrite Hproc.
    unfold bind at 1. rewrite print_say, say_app.
    unfold bind at 1. cbn [py_iter app].
    change (say [_; _; _] w)
      with (say [fetching_line; processing_line; processed_header] w).
    unfold bind at 1. rewrite Hrows.
    unfold bind at 1. rewrite save_to_json_written
      by (unfold say; apply (writable_keeps _ w); [|exact Hw];
          eapply keeps_trans; apply keeps_stdout).
    rewrite print_say. rewrite print_say. reflexivity.
  - split; [exact Hlen|].
    cbn [stdout fs_files fs_dirs say set_stdout set_fs_files].
    rewrite <- !app_assoc. auto.
Qed.

Lemma confined_print paths s : confined paths (print s).
Proof. apply (confined_behaves _ never), behaves_print. Qed.

Lemma confined_lift {A} paths (o : outcome A) : confined paths (lift o).
Proof. intros w. apply writes_only_refl. Qed.

Lemma confined_fetch_api_data paths : confined paths fetch_api_data.
Proof. intros w. rewrite fetch_api_data_run. apply writes_only_refl. Qed.

(** X28.  The script of day-02 writes to no file but [output.json] and
    creates no directory, in every run. *)
Theorem day02_script_writes_only_the_output_file (w : world) :
  writes_only [OUTPUT_FILE] w (snd (script w)).
Proof.
  revert w. change (confined [OUTPUT_FILE] script).
  unfold script, main, save_to_json, print_user.
  repeat first
    [ apply confined_print
    | apply confined_lift
    | apply confined_fetch_api_data
    | apply confined_open_w; set_solver
    | apply confined_file_write; set_solver
    | apply confined_for_each; intros ?
    | apply confined_bind; [|intros ?] ].
Qed.

End Day02Runs.

Lemma fetch_or_processing_failure_ends_the_script_witness :
  let w := Sample.world_of [] Sample.timed_out Sample.nothing_refused in
  exists w',
    Day02.script (RT := Sample.runtime) w =
      (Raise (Exc ReadTimeout (lit "Read timed out. (read timeout=10)")), w') /\
    fst (run_script (Day02.script (RT := Sample.runtime)) w) = 1%Z /\
    fs_files w' = ∅.
Proof.
  intros w.
  destruct (fetch_or_processing_failure_ends_the_script (RT := Sample.runtime)
              w (Exc ReadTimeout (lit "Read timed out. (read timeout=10)")))
    as (w' & Hrun & Hstatus & Hfiles & _); [left; reflexivity|].
  exists w'. auto.
Defined.

Lemma script_saves_the_processed_users_witness :
  let leanne := PDict [ (lit "id", PInt 1); (lit "name", PStr (lit "Leanne"));
                        (lit "email", PStr (lit "leanne@example.org"));
                        (lit "address", PDict [(lit "city", PStr (lit "Gwen"))]);
                        (lit "company", PDict [(lit "name", PStr (lit "Romaguera"))]) ] in
  let entry := processed_user (PInt 1) (PStr (lit "Leanne"))
                 (PStr (lit "leanne@example.org")) (PStr (lit "Gwen"))
                 (PStr (lit "Romaguera")) in
  let w := Sample.world_of [] (Ok (Sample.ok_response (Ok (PList [leanne]))))
             Sample.nothing_refused in
  exists w',
    Day02.script (RT := Sample.runtime) w = (Return tt, w') /\
    fs_files w' !! Day02.OUTPUT_FILE =
      Some (json_dumps (Runtime := Sample.runtime) 4 (PList [entry])) /\
    last (stdout w') = Some hashes_line.
Proof.
  intros leanne entry w.
  destruct (script_saves_the_processed_users (RT := Sample.runtime)
              w (PList [leanne]) [entry])
    as (rows & w' & Hrun & _ & Hout & Hfiles & _);
    [reflexivity | reflexivity | split; reflexivity |].
  exists w'. split; [exact Hrun|]. split.
  - rewrite Hfiles. apply lookup_insert_eq.
  - rewrite Hout, !app_assoc.
    change [saved_to_json_line; hashes_line]
      with ([saved_to_json_line] ++ [hashes_line]).
    rewrite app_assoc. apply last_snoc.
Defined.

(** ** The alerts of [print_summary] *)

Section Day04Alerts.
Context {RT : Runtime}.
Import Day04.

Lemma some_filtered {A} (f : A -> bool) (l : list A) :
  (0 <? length (List.filter f l))%nat = existsb f l.
Proof.
  induction l as [|x l IH]; cbn; [reflexivity|].
  destruct (f x); cbn; [reflexivity | exact IH].
Qed.

(** X29.  [print_summary] on the analysis of a log returns after nine
    lines of summary, then the alerts, then an empty line: the CRITICAL
    alert is printed exactly when some line of the log was filed under
    ERROR, that is names ERROR and neither INFO nor WARNING, and the
    ATTENTION alert exactly when some line was filed under WARNING; each
    gives the count of its level. *)
Theorem print_summary_alerts (lines : list pystr) (w : world) :
  let a := analyze_logs lines in
  exists summary,
    length summary = 9 /\
    print_summary a w =
      (Return tt,
       say (summary ++
            (if existsb (filed_under "ERROR") lines
             then [critical_line (counts a !!! "ERROR")] else []) ++
            (if existsb (filed_under "WARNING") lines
             then [attention_line (counts a !!! "WARNING")] else []) ++
            [[] ++ nl]) w).
Proof.
  intros a.
  destruct (analyze_logs_closed lines "ERROR") as (He & _ & _).
  destruct (analyze_logs_closed lines "WARNING") as (Hw & _ & _).
  fold a in He, Hw.
  rewrite <- (some_filtered (filed_under "ERROR")), <- He.
  rewrite <- (some_filtered (filed_under "WARNING")), <- Hw.
  unfold print_summary. cbv zeta. unfold bind, for_each, bind.
  rewrite !print_say.
  destruct (0 <? counts a !!! "ERROR")%nat;
    destruct (0 <? counts a !!! "WARNING")%nat;
    unfold ret; rewrite ?print_say, !say_app; cbn [app];
    (eexists [_; _; _; _; _; _; _; _; _]; split; reflexivity).
Qed.

End Day04Alerts.

(** ** day-03: what [main] leaves alone *)

Section Day03Frame.
Context {RT : Runtime}.
Import Day03.

Lemma disk_after_others filename text w w' p :
  disk_after filename text w w' -> p <> filename ->
  fs_files w' !! p = fs_files w !! p.
Proof.
  intros [H1 H2|H0 H1 H2|n H1|H1] Hp; rewrite H1;
    try reflexivity; now apply lookup_insert_ne.
Qed.

(** X30.  A run of [main] of day-03 changes one file at most: the one
    named stock_data_, the symbol, the time stamp, .json, for a symbol
    that [validate_stock_symbol] accepted.  Every file with another name
    is after the run what it was before, however the run ends. *)
Theorem main_changes_one_file_at_most (w : world) :
  exists o w',
    main w = (o, w') /\
    (fs_files w' = fs_files w \/
     exists symbol now,
       validate_stock_symbol (PStr symbol) = true /\
       forall p,
         p <> lit "stock_data_" ++ symbol ++ lit "_" ++
              strftime_compact now ++ lit ".json" ->
         fs_files w' !! p = fs_files w !! p).
Proof.
  destruct (main_cases w) as (o & w' & Hrun & Hcase).
  exists o, w'. split; [exact Hrun|].
  destruct Hcase as [_ (_ & _ & Hd) _ | _ (_ & _ & Hd) _
                    | api_key symbol wi wf _ _ (_ & _ & Hd) _
                    | api_key symbol wi wf data b ws Hacc _ _ _ _ Hdisk _ Hend].
  1-3: left; now destruct (Hd eq_refl).
  right. exists symbol, (clock wi (clock_reads wi)).
  split; [destruct Hacc as [_ Hcheck]; apply (Hcheck _ eq_refl)|].
  intros p Hp.
  assert (Hfiles : fs_files w' = fs_files ws)
    by (destruct b; injection Hend as _ ->; reflexivity).
  rewrite Hfiles. now apply (disk_after_others _ _ _ _ _ Hdisk).
Qed.

End Day03Frame.

(** ** day-03: the runs of [main], by what the terminal delivers *)

Section Day03ByInput.
Context {RT : Runtime}.
Import Day03.

Lemma only_terminal_refl w : only_terminal w w.
Proof. unfold only_terminal. auto 10. Qed.

Lemma only_terminal_trans w1 w2 w3 :
  only_terminal w1 w2 -> only_terminal w2 w3 -> only_terminal w1 w3.
Proof.
  unfold only_terminal.
  intros (A1 & A2 & A3 & A4 & A5 & A6 & A7 & A8)
         (B1 & B2 & B3 & B4 & B5 & B6 & B7 & B8).
  repeat split; congruence.
Qed.

Lemma only_terminal_say lines w : only_terminal w (say lines w).
Proof. unfold only_terminal. cbn. auto 10. Qed.

Lemma only_terminal_stdin events w : only_terminal w (set_stdin events w).
Proof. unfold only_terminal. cbn. auto 10. Qed.

Lemma only_terminal_warned api_key w : only_terminal w (warned api_key w).
Proof.
  unfold warned. destruct (_ && _);
    [apply only_terminal_say | apply only_terminal_refl].
Qed.

Lemma only_terminal_keeps w w' : only_terminal w w' -> keeps true w w'.
Proof.
  unfold only_terminal, keeps, os_refuses, network.
  intros (A1 & A2 & A3 & A4 & _). rewrite A3, A4. auto.
Qed.

(** What [get_user_input] does with the lines it does not accept and
    with what follows them. *)
Lemma get_user_input_by_input prompt default validator w rejected tail :
  stdin w = map Line rejected ++ tail ->
  Forall (fun l => acceptable validator (answer_of default l) = false)
         rejected ->
  let asked_again :=
    say (rejections prompt default rejected ++ [prompt_text prompt default])
        w in
  get_user_input prompt default validator w =
    match tail with
    | [] =>
        (Raise (SystemExit 1), set_stdin [] (say [end_of_input] asked_again))
    | CtrlC :: rest =>
        (Raise (SystemExit 0), set_stdin rest (say [cancelled] asked_again))
    | Line good :: rest =>
        if acceptable validator (answer_of default good)
        then (Return (answer_of default good), set_stdin rest asked_again)
        else get_user_input prompt default validator w
    end.
Proof.
  intros Hin Hrej asked_again. subst asked_again.
  destruct tail as [|[good|] rest].
  - rewrite (get_user_input_after_rejects _ _ _ rejected w _ Hin Hrej).
    cbn [get_user_input_loop].
    erewrite bind_Raise; [|apply body_eof; reflexivity].
    f_equal. unfold say, set_stdin, set_stdout. cbn. f_equal.
    now rewrite <- !app_assoc.
  - destruct (acceptable validator (answer_of default good)) eqn:Hgood;
      [|reflexivity].
    rewrite (get_user_input_after_rejects _ _ _ rejected w _ Hin Hrej).
    cbn [get_user_input_loop].
    erewrite bind_Return;
      [|apply body_line_accepted; [reflexivity | exact Hgood]].
    unfold ret. f_equal. unfold say, set_stdin, set_stdout. cbn. f_equal.
    now rewrite <- app_assoc.
  - rewrite (get_user_input_after_rejects _ _ _ rejected w _ Hin Hrej).
    cbn [get_user_input_loop].
    erewrite bind_Raise; [|apply body_ctrl_c; reflexivity].
    f_equal. unfold say, set_stdin, set_stdout. cbn. f_equal.
    now rewrite <- !app_assoc.
Qed.

Lemma typed_symbol_acceptable line :
  acceptable (Some symbol_check) (answer_of (Some (lit "IBM")) line) =
  symbol_check (typed_symbol line).
Proof.
  unfold acceptable. fold (typed_symbol line).
  rewrite bool_decide_eq_false_2; [reflexivity|].
  apply answer_of_default. discriminate.
Qed.

Lemma typed_key_acceptable line :
  acceptable None (answer_of (Some (lit "demo")) line) = true.
Proof.
  unfold acceptable. rewrite bool_decide_eq_false_2; [reflexivity|].
  apply answer_of_default. discriminate.
Qed.

Lemma no_symbol_rejected rejected :
  Forall no_symbol rejected ->
  Forall (fun l => acceptable (Some symbol_check)
                     (answer_of (Some (lit "IBM")) l) = false) rejected.
Proof.
  apply List.Forall_impl. intros l Hl. now rewrite typed_symbol_acceptable.
Qed.

(** The run up to the first prompt. *)
Lemma main_at_key_prompt w :
  (stdin w = [] ->
   exists w',
     main w = (Raise (SystemExit 1), w') /\ only_terminal w w' /\
     last (stdout w') = Some end_of_input) /\
  (forall rest,
     stdin w = CtrlC :: rest ->
     exists w',
       main w = (Raise (SystemExit 0), w') /\ only_terminal w w' /\
       last (stdout w') = Some cancelled) /\
  (forall k rest,
     stdin w = Line k :: rest ->
     exists w1,
       only_terminal w w1 /\ stdin w1 = rest /\
       main w =
         match get_user_input symbol_prompt (Some (lit "IBM"))
                 (Some symbol_check) w1 with
         | (Raise e, w2) => (Raise e, w2)
         | (Return symbol, w2) => pipeline (typed_key k) symbol w2
         end).
Proof.
  rewrite main_unfold.
  assert (Hb : only_terminal w (banner w)) by apply only_terminal_say.
  repeat split.
  - intros Hin.
    rewrite (get_user_input_by_input key_prompt (Some (lit "demo")) None
               (banner w) [] []); [|exact Hin | constructor].
    eexists. split; [reflexivity|]. split; [|apply last_snoc].
    eapply only_terminal_trans; [exact Hb|].
    eapply only_terminal_trans; [apply only_terminal_say|].
    eapply only_terminal_trans;
      [apply only_terminal_say | apply only_terminal_stdin].
  - intros rest Hin.
    rewrite (get_user_input_by_input key_prompt (Some (lit "demo")) None
               (banner w) [] (CtrlC :: rest)); [|exact Hin | constructor].
    eexists. split; [reflexivity|]. split; [|apply last_snoc].
    eapply only_terminal_trans; [exact Hb|].
    eapply only_terminal_trans; [apply only_terminal_say|].
    eapply only_terminal_trans;
      [apply only_terminal_say | apply only_terminal_stdin].
  - intros k rest Hin.
    rewrite (get_user_input_by_input key_prompt (Some (lit "demo")) None
               (banner w) [] (Line k :: rest)); [|exact Hin | constructor].
    rewrite typed_key_acceptable. fold (typed_key k).
    eexists. split; [|split; [|reflexivity]].
    + eapply only_terminal_trans; [exact Hb|].
      eapply only_terminal_trans; [apply only_terminal_say|].
      eapply only_terminal_trans;
        [apply only_terminal_stdin | apply only_terminal_warned].
    + unfold warned. destruct (_ && _); reflexivity.
Qed.

(** The runs that end at a prompt. *)
Lemma main_ends_at_prompt w pre tail :
  unanswered pre -> stdin w = pre ++ tail ->
  (tail = [] ->
   exists w',
     main w = (Raise (SystemExit 1), w') /\ only_terminal w w' /\
     last (stdout w') = Some end_of_input) /\
  (forall rest,
     tail = CtrlC :: rest ->
     exists w',
       main w = (Raise (SystemExit 0), w') /\ only_terminal w w' /\
       last (stdout w') = Some cancelled).
Proof.
  destruct (main_at_key_prompt w) as (Hend & Hint & Hline).
  intros [|k rejected Hrej] Hin; cbn [app] in Hin.
  { split; [intros ->; now apply Hend | intros rest ->; now apply (Hint rest)]. }
  destruct (Hline k _ Hin) as (w1 & Hk1 & Hin1 & ->).
  pose proof (get_user_input_by_input symbol_prompt (Some (lit "IBM"))
                (Some symbol_check) w1 rejected tail Hin1
                (no_symbol_rejected _ Hrej)) as Hrun.
  cbv beta iota zeta in Hrun. split.
  - intros ->. rewrite Hrun. eexists. split; [reflexivity|].
    split; [|apply last_snoc].
    eapply only_terminal_trans; [exact Hk1|].
    eapply only_terminal_trans; [apply only_terminal_say|].
    eapply only_terminal_trans;
      [apply only_terminal_say | apply only_terminal_stdin].
  - intros rest ->. rewrite Hrun. eexists. split; [reflexivity|].
    split; [|apply last_snoc].
    eapply only_terminal_trans; [exact Hk1|].
    eapply only_terminal_trans; [apply only_terminal_say|].
    eapply only_terminal_trans;
      [apply only_terminal_say | apply only_terminal_stdin].
Qed.

(** The runs in which both prompts are answered. *)
Lemma main_answered w k rejected s rest :
  stdin w = Line k :: map Line rejected ++ Line s :: rest ->
  Forall no_symbol rejected ->
  symbol_check (typed_symbol s) = true ->
  exists wi,
    only_terminal w wi /\
    main w = pipeline (typed_key k) (typed_symbol s) wi.
Proof.
  intros Hin Hrej Hs.
  destruct (main_at_key_prompt w) as (_ & _ & Hline).
  destruct (Hline k _ Hin) as (w1 & Hk1 & Hin1 & ->).
  pose proof (get_user_input_by_input symbol_prompt (Some (lit "IBM"))
                (Some symbol_check) w1 rejected (Line s :: rest) Hin1
                (no_symbol_rejected _ Hrej)) as Hrun.
  cbv beta iota zeta in Hrun. rewrite typed_symbol_acceptable, Hs in Hrun.
  rewrite Hrun. fold (typed_symbol s).
  eexists. split; [|reflexivity].
  eapply only_terminal_trans; [exact Hk1|].
  eapply only_terminal_trans;
    [apply only_terminal_say | apply only_terminal_stdin].
Qed.

(** Whatever the terminal delivers, it leaves a prompt unanswered, or
    interrupts one, or answers both. *)
Lemma symbol_lines_cases events :
  (exists rejected, Forall no_symbol rejected /\ events = map Line rejected) \/
  (exists rejected rest,
     Forall no_symbol rejected /\ events = map Line rejected ++ CtrlC :: rest) \/
  (exists rejected s rest,
     Forall no_symbol rejected /\ symbol_check (typed_symbol s) = true /\
     events = map Line rejected ++ Line s :: rest).
Proof.
  induction events as [|[l|] events IH].
  - left. exists []. split; [constructor | reflexivity].
  - destruct (symbol_check (typed_symbol l)) eqn:Hl.
    + right. right. exists [], l, events. split; [constructor|]. auto.
    + destruct IH as [(r & Hr & ->) | [(r & rest & Hr & ->)
                                      | (r & s & rest & Hr & Hs & ->)]].
      * left. exists (l :: r). split; [constructor; assumption | reflexivity].
      * right. left. exists (l :: r), rest.
        split; [constructor; assumption | reflexivity].
      * right. right. exists (l :: r), s, rest.
        split; [constructor; assumption|]. split; [exact Hs | reflexivity].
  - right. left. exists [], events. split; [constructor | reflexivity].
Qed.

Lemma input_cases events :
  unanswered events \/ interrupted events \/ exists k s, answered events k s.
Proof.
  destruct events as [|[k|] events].
  - left. constructor.
  - destruct (symbol_lines_cases events)
      as [(r & Hr & ->) | [(r & rest & Hr & ->) | (r & s & rest & Hr & Hs & ->)]].
    + left. now constructor.
    + right. left. exists (Line k :: map Line r), rest.
      split; [now constructor | reflexivity].
    + right. right. exists k, s, r, rest. auto.
  - right. left. exists [], events. split; [constructor | reflexivity].
Qed.

Lemma os_refuses_only_terminal w w' :
  only_terminal w w' -> os_refuses w' = os_refuses w.
Proof. intros (_ & _ & _ & H & _). unfold os_refuses. now rewrite H. Qed.

Lemma unhindered_same filename w w0 :
  os_refuses w0 = os_refuses w -> fs_files w0 = fs_files w ->
  fs_dirs w0 = fs_dirs w ->
  unhindered filename w0 <-> unhindered filename w.
Proof.
  intros Hos Hf Hd. unfold unhindered, directory_missing.
  now rewrite Hos, Hf, Hd.
Qed.

(** A refused write leaves the file with what had got through. *)
Lemma save_data_to_file_cut data filename symbol w e :
  (directory_missing filename w = true ->
   os_refuses w (OpMakedirs (dirname filename)) = None) ->
  os_refuses w (OpOpenW filename) = None ->
  os_refuses w (OpWrite filename) = Some e ->
  exists w',
    save_data_to_file data filename symbol w = (Return false, w') /\
    fs_files w' =
      <[filename := take (os_short_write w) (record_text data symbol w)]>
        (fs_files w).
Proof.
  intros Hmk Hopen Hwrite. pose proof (os_refuses_ordinary w) as Hos.
  pose proof (save_try_eval data filename symbol w) as Htry. cbv zeta in Htry.
  unfold save_from_open in Htry. autorewrite with oracles in Htry.
  rewrite Hopen, Hwrite in Htry.
  destruct (directory_missing filename w).
  - rewrite (Hmk eq_refl) in Htry.
    destruct (save_caught _ _ _ _ e _ (Hos _ _ Hwrite) Htry) as [line Hrun].
    eexists. split; [exact Hrun | reflexivity].
  - destruct (save_caught _ _ _ _ e _ (Hos _ _ Hwrite) Htry) as [line Hrun].
    eexists. split; [exact Hrun | reflexivity].
Qed.

(** The statements after the prompts, when the resource gives no
    well-formed answer. *)
Lemma pipeline_without_payload api_key symbol w wi :
  only_terminal w wi ->
  (forall data,
     ~ well_formed_answer w (query_url api_url api_key symbol) data) ->
  exists wf',
    fetch_stock_data api_url api_key symbol (before_fetch wi) =
      (Return PNone, wf') /\
    pipeline api_key symbol wi =
      (Raise (SystemExit 1), say no_data_lines wf') /\
    fs_files wf' = fs_files w /\ fs_dirs wf' = fs_dirs w.
Proof.
  intros Hwi Hnone.
  pose proof (keeps_trans true _ _ _ (only_terminal_keeps _ _ Hwi)
                (keeps_before_fetch true wi)) as Hk.
  destruct (fetch_stock_data_cases api_url api_key symbol (before_fetch wi))
    as (v & line & Hfetch & [-> | [Hwf _]]).
  - eexists. split; [exact Hfetch|].
    split; [apply (pipeline_no_data _ _ _ _ Hfetch)|].
    destruct Hk as (_ & _ & Hdisk). destruct (Hdisk eq_refl) as [Hf Hd].
    cbn [fs_files fs_dirs set_stdout asked]. auto.
  - exfalso. apply (Hnone v).
    exact (well_formed_answer_keeps true _ _ _ _ Hk Hwf).
Qed.

(** The statements after the prompts, when the resource gives a
    well-formed answer. *)
Lemma pipeline_with_payload api_key symbol w wi data :
  only_terminal w wi ->
  well_formed_answer w (query_url api_url api_key symbol) data ->
  let filename := output_name symbol w in
  let record := run_record data symbol w in
  exists wf' b ws,
    fetch_stock_data api_url api_key symbol (before_fetch wi) =
      (Return data, wf') /\
    save_data_to_file data filename symbol (say [[] ++ nl] wf') =
      (Return b, ws) /\
    pipeline api_key symbol wi =
      (if b then (Return tt, say (success_lines symbol filename) ws)
       else (Raise (SystemExit 1), say [not_saved_line] ws)) /\
    (b = true <-> unhindered filename w) /\
    (b = true -> fs_files ws = <[filename := record]> (fs_files w)) /\
    (b = false -> exists pre line, stdout ws = pre ++ [line ++ nl]) /\
    disk_after filename record w ws /\
    (forall p, p <> filename -> fs_files ws !! p = fs_files w !! p) /\
    (forall e,
       (directory_missing filename w = true ->
        os_refuses w (OpMakedirs (dirname filename)) = None) ->
       os_refuses w (OpOpenW filename) = None ->
       os_refuses w (OpWrite filename) = Some e ->
       b = false /\
       fs_files ws = <[filename := take (os_short_write w) record]> (fs_files w)).
Proof.
  intros Hwi Hwf filename record.
  pose proof (keeps_trans true _ _ _ (only_terminal_keeps _ _ Hwi)
                (keeps_before_fetch true wi)) as Hk.
  assert (Hwf' : well_formed_answer (before_fetch wi)
                   (query_url api_url api_key symbol) data).
  { destruct Hk as (_ & Hnet & _). destruct Hwf as (r & Hget & Hrest).
    exists r. now rewrite Hnet. }
  pose proof (fetch_well_formed _ _ _ _ _ Hwf') as Hfetch.
  set (wf' := say [fetched_line symbol] (asked symbol (before_fetch wi))) in *.
  set (w0 := say [[] ++ nl] wf').
  pose proof (os_refuses_only_terminal _ _ Hwi) as Hos.
  destruct Hwi as (Hf & Hd & _ & _ & Hshort & _ & Hclock & Hreads).
  assert (Hname : output_name symbol wi = filename).
  { unfold filename, output_name. now rewrite Hclock, Hreads. }
  assert (Hos0 : os_refuses w0 = os_refuses w).
  { unfold w0, wf', say, asked, before_fetch. autorewrite with oracles.
    rewrite ?os_refuses_tick. exact Hos. }
  assert (Hf0 : fs_files w0 = fs_files w) by exact Hf.
  assert (Hd0 : fs_dirs w0 = fs_dirs w) by exact Hd.
  assert (Hrec : record_text data symbol w0 = record).
  { unfold record, run_record, record_text, output_data.
    cbn [clock clock_reads w0 wf' say set_stdout asked before_fetch tick].
    now rewrite Hclock, Hreads. }
  assert (Hmiss : directory_missing filename w0 = directory_missing filename w).
  { unfold directory_missing. now rewrite Hf0, Hd0. }
  assert (Hk0 : keeps true w w0).
  { split; [exact Hos0|]. split; [|auto].
    unfold w0, wf', say, asked. rewrite !network_stdout. apply Hk. }
  destruct (save_data_to_file_facts data filename symbol w0)
    as (b & ws & Hsave & _ & Hother & _ & _ & Hb & Hwhole).
  destruct (save_data_to_file_cases data filename symbol w0)
    as (b' & ws' & Hsave' & _ & Hdisk & _ & Hline).
  rewrite Hsave in Hsave'. injection Hsave' as <- <-.
  rewrite Hrec in Hwhole, Hdisk. rewrite Hf0 in Hwhole.
  destruct (well_formed_answer_truthy _ _ _ Hwf) as [_ Htrue].
  exists wf', b, ws. split; [exact Hfetch|]. split; [exact Hsave|].
  split.
  { rewrite <- Hname in Hsave.
    rewrite (pipeline_data _ _ _ _ _ _ _ Hfetch Htrue Hsave).
    now rewrite Hname. }
  split; [rewrite Hb; now apply unhindered_same|].
  split.
  { intros Htrue'. apply Hb in Htrue'. destruct Htrue' as (H1 & H2 & H3 & _).
    now apply Hwhole. }
  split; [exact Hline|].
  split; [exact (disk_after_keeps _ _ _ _ _ Hk0 Hmiss Hdisk)|].
  split; [intros p Hp; rewrite <- Hf0; now apply Hother|].
  intros e Hmk Hopen Hwrite.
  rewrite <- Hos0, <- Hmiss in Hmk. rewrite <- Hos0 in Hopen, Hwrite.
  destruct (save_data_to_file_cut data filename symbol w0 e Hmk Hopen Hwrite)
    as (ws' & Hsave' & Hcut).
  rewrite Hsave in Hsave'. injection Hsave' as -> <-.
  split; [reflexivity|]. rewrite Hcut, Hrec, Hf0.
  now rewrite <- Hshort.
Qed.

End Day03ByInput.

(** ** The runs of [main], from what happens to the exit status *)

Section RunsByInput.
Context {RT : Runtime}.

(** C2, as the code has it.  Whatever the terminal delivers, it leaves
    a prompt of [main] of day-03 unanswered, or interrupts one, or
    answers both.  When the input ends at a prompt the process exits
    with status 1 after "Unexpected end of input"; Ctrl-C at a prompt
    makes it exit with status 0 after "Operation cancelled by user".
    When both prompts are answered, with a key and a symbol that
    [validate_stock_symbol] accepts: if the resource gives no
    well-formed answer the process exits with status 1 after the lines
    that report the failed fetch; if it gives one and the system refuses
    none of the calls of [save_data_to_file], the run returns, exit
    status 0, after the lines that report the success; if it gives one
    and a call is refused, the process exits with status 1 after the
    line of the clause that caught the error and "Data fetched but could
    not be saved".  [main] of day-04 never calls [sys.exit]: every run
    returns, with exit status 0, also the run that could not read the
    log, after printing "Log analysis failed". *)
Theorem exit_status_of_the_scripts (w : world) :
  (unanswered (stdin w) \/ interrupted (stdin w) \/
   exists k s, answered (stdin w) k s) /\
  (unanswered (stdin w) ->
   exists w',
     run_script Day03.main w = (1%Z, w') /\
     last (stdout w') = Some end_of_input) /\
  (interrupted (stdin w) ->
   exists w',
     run_script Day03.main w = (0%Z, w') /\
     last (stdout w') = Some cancelled) /\
  (forall k s,
     answered (stdin w) k s ->
     let api_key := typed_key k in
     let symbol := typed_symbol s in
     let url := query_url Day03.api_url api_key symbol in
     let filename := output_name symbol w in
     ((forall data, ~ well_formed_answer w url data) ->
      exists w',
        run_script Day03.main w = (1%Z, w') /\
        exists pre, stdout w' = pre ++ no_data_lines) /\
     (forall data,
        well_formed_answer w url data -> unhindered filename w ->
        exists w',
          run_script Day03.main w = (0%Z, w') /\
          exists pre, stdout w' = pre ++ success_lines symbol filename) /\
     (forall data,
        well_formed_answer w url data -> ~ unhindered filename w ->
        exists w',
          run_script Day03.main w = (1%Z, w') /\
          exists pre line, stdout w' = pre ++ [line ++ nl; not_saved_line])) /\
  (exists w',
     run_script Day04.main w = (0%Z, w') /\
     forall w1,
       Day04.read_log_file Day04.log_file (started w) = (Return None, w1) ->
       w' = say [analysis_failed_line] w1).
Proof.
  split; [apply input_cases|]. split; [|split; [|split]].
  - intros Hpre.
    destruct (main_ends_at_prompt w (stdin w) [] Hpre (eq_sym (app_nil_r _)))
      as [Hend _].
    destruct (Hend eq_refl) as (w' & Hrun & _ & Hlast).
    exists w'. unfold run_script. now rewrite Hrun.
  - intros (pre & rest & Hpre & Hin).
    destruct (main_ends_at_prompt w pre _ Hpre Hin) as [_ Hint].
    destruct (Hint rest eq_refl) as (w' & Hrun & _ & Hlast).
    exists w'. unfold run_script. now rewrite Hrun.
  - intros k s (rejected & rest & Hin & Hrej & Hs) api_key symbol url filename.
    destruct (main_answered w k rejected s rest Hin Hrej Hs)
      as (wi & Hwi & Hmain).
    fold api_key symbol in Hmain. unfold run_script. rewrite Hmain.
    split; [|split].
    + intros Hnone.
      destruct (pipeline_without_payload api_key symbol w wi Hwi Hnone)
        as (wf' & _ & -> & _).
      eexists. split; [reflexivity|]. exists (stdout wf'). reflexivity.
    + intros data Hwf Hfree.
      destruct (pipeline_with_payload api_key symbol w wi data Hwi Hwf)
        as (wf' & b & ws & _ & _ & -> & Hb & _).
      fold filename in Hb. apply Hb in Hfree. subst b.
      eexists. split; [reflexivity|]. exists (stdout ws). reflexivity.
    + intros data Hwf Hnot.
      destruct (pipeline_with_payload api_key symbol w wi data Hwi Hwf)
        as (wf' & b & ws & _ & _ & -> & Hb & _ & Hline & _).
      fold filename in Hb. destruct b; [exfalso; now apply Hnot, Hb|].
      destruct (Hline eq_refl) as (pre & line & Hout).
      eexists. split; [reflexivity|]. exists pre, line.
      cbn [stdout say set_stdout]. rewrite Hout, <- app_assoc. reflexivity.
  - destruct (behaves_returns false Day04.main w day04_main_behaves)
      as ([] & w' & Hrun & _).
    exists w'. unfold run_script. rewrite Hrun. split; [reflexivity|].
    intros w1 Hread. rewrite (day04_main_failed_read w w1 Hread) in Hrun.
    now injection Hrun as <-.
Qed.

(** C1, as the code has it.  A run of [main] of day-03 that ends at a
    prompt does not end normally and creates no file and no directory.
    In a run in which both prompts are answered, [main] calls
    [fetch_stock_data] for the key and the symbol that were typed, with
    files and directories as they were at the start.  If the resource
    gives no well-formed answer, [fetch_stock_data] returns None, the
    process exits with status 1 and no file and no directory is created.
    If it gives one, [fetch_stock_data] returns it, it is not None, and
    [save_data_to_file] is called with it and with the name of the output
    file; the run continues from the world that call leaves.  When the
    call returns True, which it does exactly when the system refuses none
    of its calls, the run ends normally and the output file holds the
    whole record; when it returns False the process exits with status 1
    and the disk holds nothing new, or new directories only, or the
    output file with the first characters of the record, or with all of
    it; no other file changes; and when it is the write that the system
    refuses, the output file is left with the characters that had got
    through. *)
Theorem output_file_written_only_with_payload (w : world) :
  (unanswered (stdin w) \/ interrupted (stdin w) ->
   exists o w',
     Day03.main w = (o, w') /\ o <> Return tt /\
     fs_files w' = fs_files w /\ fs_dirs w' = fs_dirs w) /\
  (forall k s,
     answered (stdin w) k s ->
     let api_key := typed_key k in
     let symbol := typed_symbol s in
     let url := query_url Day03.api_url api_key symbol in
     let filename := output_name symbol w in
     exists wi,
       only_terminal w wi /\
       ((forall data, ~ well_formed_answer w url data) ->
        exists wf' w',
          Day03.fetch_stock_data Day03.api_url api_key symbol
            (before_fetch wi) = (Return PNone, wf') /\
          Day03.main w = (Raise (SystemExit 1), w') /\
          fs_files w' = fs_files w /\ fs_dirs w' = fs_dirs w) /\
       (forall data,
          well_formed_answer w url data ->
          let record := run_record data symbol w in
          data <> PNone /\
          exists wf' b ws w',
            Day03.fetch_stock_data Day03.api_url api_key symbol
              (before_fetch wi) = (Return data, wf') /\
            Day03.save_data_to_file data filename symbol
              (say [[] ++ nl] wf') = (Return b, ws) /\
            Day03.main w =
              (if b then Return tt else Raise (SystemExit 1), w') /\
            w' = say (if b then success_lines symbol filename
                      else [not_saved_line]) ws /\
            (b = true <-> unhindered filename w) /\
            (b = true -> fs_files w' = <[filename := record]> (fs_files w)) /\
            disk_after filename record w w' /\
            (forall p, p <> filename -> fs_files w' !! p = fs_files w !! p) /\
            (forall e,
               (directory_missing filename w = true ->
                os_refuses w (OpMakedirs (dirname filename)) = None) ->
               os_refuses w (OpOpenW filename) = None ->
               os_refuses w (OpWrite filename) = Some e ->
               b = false /\
               fs_files w' =
                 <[filename := take (os_short_write w) record]>
                   (fs_files w)))).
Proof.
  split.
  - intros [Hpre | (pre & rest & Hpre & Hin)].
    + destruct (main_ends_at_prompt w (stdin w) [] Hpre
                  (eq_sym (app_nil_r _))) as [Hend _].
      destruct (Hend eq_refl) as (w' & Hrun & (Hf & Hd & _) & _).
      exists (Raise (SystemExit 1)), w'. split; [exact Hrun|].
      split; [discriminate | auto].
    + destruct (main_ends_at_prompt w pre _ Hpre Hin) as [_ Hint].
      destruct (Hint rest eq_refl) as (w' & Hrun & (Hf & Hd & _) & _).
      exists (Raise (SystemExit 0)), w'. split; [exact Hrun|].
      split; [discriminate | auto].
  - intros k s (rejected & rest & Hin & Hrej & Hs) api_key symbol url filename.
    destruct (main_answered w k rejected s rest Hin Hrej Hs)
      as (wi & Hwi & Hmain).
    fold api_key symbol in Hmain. exists wi. split; [exact Hwi|]. split.
    + intros Hnone.
      destruct (pipeline_without_payload api_key symbol w wi Hwi Hnone)
        as (wf' & Hfetch & Hrun & Hf & Hd).
      exists wf', (say no_data_lines wf'). split; [exact Hfetch|].
      split; [now rewrite Hmain|]. auto.
    + intros data Hwf record.
      split; [apply (well_formed_answer_truthy _ _ _ Hwf)|].
      destruct (pipeline_with_payload api_key symbol w wi data Hwi Hwf)
        as (wf' & b & ws & Hfetch & Hsave & Hrun & Hb & Hwhole & _ & Hdisk
            & Hother & Hcut).
      fold filename record in Hsave, Hrun, Hb, Hwhole, Hdisk, Hother, Hcut.
      exists wf', b, ws,
        (say (if b then success_lines symbol filename else [not_saved_line])
             ws).
      split; [exact Hfetch|]. split; [exact Hsave|].
      split; [rewrite Hmain, Hrun; destruct b; reflexivity|].
      split; [reflexivity|]. split; [exact Hb|]. split; [exact Hwhole|].
      split; [now apply disk_after_say|]. split; [exact Hother|]. exact Hcut.
Qed.

(** C3, as the code has it.  In a run of [main] of day-03 in which both
    prompts are answered, with a key and a symbol that
    [validate_stock_symbol] accepts, the resource answers the request
    for them with a well-formed body and the system refuses none of the
    file-system calls of [save_data_to_file]: [fetch_stock_data] returns
    the parsed body, [save_data_to_file] is called with it and returns
    True, the run ends normally, exit status 0, after the lines that
    report the success, and the output file, named after the symbol and
    the time, holds the record whose "stock_data" member is that value,
    unmodified, next to the metadata. *)
Theorem well_formed_answer_is_saved_unmodified
  (w : world) (k s : pystr) (data : pyval) :
  let api_key := typed_key k in
  let symbol := typed_symbol s in
  let filename :=
    lit "stock_data_" ++ symbol ++ lit "_" ++
    strftime_compact (clock w (clock_reads w)) ++ lit ".json" in
  answered (stdin w) k s ->
  well_formed_answer w (query_url Day03.api_url api_key symbol) data ->
  unhindered filename w ->
  exists wi wf' ws w',
    only_terminal w wi /\
    Day03.fetch_stock_data Day03.api_url api_key symbol (before_fetch wi) =
      (Return data, wf') /\
    Day03.save_data_to_file data filename symbol (say [[] ++ nl] wf') =
      (Return true, ws) /\
    Day03.main w = (Return tt, w') /\
    run_script Day03.main w = (0%Z, w') /\
    w' = say (success_lines symbol filename) ws /\
    fs_files w' =
      <[filename :=
          json_dumps 4
            (PDict [ (lit "metadata",
                      PDict [ (lit "symbol", PStr symbol);
                              (lit "fetched_at",
                               PStr (isoformat
                                       (clock w (S (clock_reads w)))));
                              (lit "script_version", PStr (lit "1.1")) ]);
                     (lit "stock_data", data) ])]> (fs_files w).
Proof.
  intros api_key symbol filename (rejected & rest & Hin & Hrej & Hs) Hwf Hfree.
  destruct (main_answered w k rejected s rest Hin Hrej Hs)
    as (wi & Hwi & Hmain).
  fold api_key symbol in Hmain.
  destruct (pipeline_with_payload api_key symbol w wi data Hwi Hwf)
    as (wf' & b & ws & Hfetch & Hsave & Hrun & Hb & Hwhole & _).
  change (output_name symbol w) with filename in Hsave, Hrun, Hb, Hwhole.
  apply Hb in Hfree. subst b.
  exists wi, wf', ws. eexists. split; [exact Hwi|]. split; [exact Hfetch|].
  split; [exact Hsave|]. split; [now rewrite Hmain, Hrun|].
  split; [unfold run_script; now rewrite Hmain, Hrun|].
  split; [reflexivity|]. exact (Hwhole eq_refl).
Qed.

End RunsByInput.

Lemma two_enters_answered refuses :
  answered (RT := Sample.runtime) (stdin (Sample.good_day refuses)) nl nl.
Proof.
  exists [], []. split; [reflexivity|].
  split; [constructor | vm_compute; reflexivity].
Qed.

Lemma good_day_well_formed refuses :
  well_formed_answer (Sample.good_day refuses)
    (query_url Day03.api_url (lit "demo") (lit "IBM")) Sample.daily_series.
Proof.
  exists (Sample.ok_response (Ok Sample.daily_series)).
  repeat split; vm_compute; reflexivity.
Qed.

Lemma exit_status_of_the_scripts_witness :
  (exists w',
     run_script (Day03.main (RT := Sample.runtime))
       (Sample.good_day Sample.nothing_refused) = (0%Z, w') /\
     exists pre,
       stdout w' = pre ++ success_lines (lit "IBM") Sample.ibm_file) /\
  (exists w',
     run_script (Day03.main (RT := Sample.runtime))
       (Sample.good_day
          (Sample.refuses_only Sample.is_open_w Sample.permission_denied))
       = (1%Z, w') /\
     exists pre line, stdout w' = pre ++ [line ++ nl; not_saved_line]) /\
  (exists w',
     run_script (Day03.main (RT := Sample.runtime))
       (Sample.world_of [Line nl; Line (lit "ibm2"); CtrlC]
          (Ok (Sample.ok_response (Ok Sample.daily_series)))
          Sample.nothing_refused) = (0%Z, w') /\
     last (stdout w') = Some cancelled) /\
  (exists w',
     run_script (Day03.main (RT := Sample.runtime))
       (Sample.world_of [Line nl]
          (Ok (Sample.ok_response (Ok Sample.daily_series)))
          Sample.nothing_refused) = (1%Z, w') /\
     last (stdout w') = Some end_of_input).
Proof.
  split; [|split; [|split]].
  - destruct (exit_status_of_the_scripts (RT := Sample.runtime)
                (Sample.good_day Sample.nothing_refused))
      as (_ & _ & _ & Hans & _).
    destruct (Hans nl nl (two_enters_answered _)) as (_ & Hgood & _).
    apply (Hgood Sample.daily_series (good_day_well_formed _)).
    repeat split; reflexivity.
  - destruct (exit_status_of_the_scripts (RT := Sample.runtime)
                (Sample.good_day
                   (Sample.refuses_only Sample.is_open_w
                      Sample.permission_denied)))
      as (_ & _ & _ & Hans & _).
    destruct (Hans nl nl (two_enters_answered _)) as (_ & _ & Hbad).
    apply (Hbad Sample.daily_series (good_day_well_formed _)).
    intros (_ & Hopen & _). discriminate Hopen.
  - destruct (exit_status_of_the_scripts (RT := Sample.runtime)
                (Sample.world_of [Line nl; Line (lit "ibm2"); CtrlC]
                   (Ok (Sample.ok_response (Ok Sample.daily_series)))
                   Sample.nothing_refused))
      as (_ & _ & Hint & _).
    apply Hint. exists [Line nl; Line (lit "ibm2")], [].
    split; [|reflexivity].
    apply (unanswered_symbol nl [lit "ibm2"]).
    constructor; [vm_compute; reflexivity | constructor].
  - destruct (exit_status_of_the_scripts (RT := Sample.runtime)
                (Sample.world_of [Line nl]
                   (Ok (Sample.ok_response (Ok Sample.daily_series)))
                   Sample.nothing_refused))
      as (_ & Hend & _).
    apply Hend. apply (unanswered_symbol nl []). constructor.
Defined.

Lemma output_file_written_only_with_payload_witness :
  let w := Sample.good_day
             (Sample.refuses_only Sample.is_write Sample.disk_full) in
  exists w',
    Day03.main (RT := Sample.runtime) w = (Raise (SystemExit 1), w') /\
    fs_files w' !! Sample.ibm_file =
      Some (take 12
              (run_record (RT := Sample.runtime) Sample.daily_series
                 (lit "IBM") w)).
Proof.
  intros w.
  destruct (output_file_written_only_with_payload (RT := Sample.runtime) w)
    as (_ & Hans).
  destruct (Hans nl nl (two_enters_answered _)) as (wi & _ & _ & Hgood).
  destruct (Hgood Sample.daily_series (good_day_well_formed _))
    as (_ & wf' & b & ws & w' & _ & _ & Hrun & _ & _ & _ & _ & _ & Hcut).
  destruct (Hcut (Exc OtherOSError (lit "[Errno 28] No space left on device")))
    as (-> & Hfiles); [reflexivity.. |].
  exists w'. split; [exact Hrun|]. rewrite Hfiles. apply lookup_insert_eq.
Defined.

Lemma well_formed_answer_is_saved_unmodified_witness :
  let w := Sample.good_day Sample.nothing_refused in
  answered (RT := Sample.runtime) (stdin w) nl nl /\
  well_formed_answer w
    (query_url Day03.api_url (lit "demo") (lit "IBM")) Sample.daily_series /\
  unhindered Sample.ibm_file w /\
  exists w',
    run_script (Day03.main (RT := Sample.runtime)) w = (0%Z, w') /\
    fs_files w' !! Sample.ibm_file =
      Some (json_dumps (Runtime := Sample.runtime) 4
              (PDict [ (lit "metadata",
                        PDict [ (lit "symbol", PStr (lit "IBM"));
                                (lit "fetched_at",
                                 PStr (lit "2024-01-03T14:30:22"));
                                (lit "script_version", PStr (lit "1.1")) ]);
                       (lit "stock_data", Sample.daily_series) ])).
Proof.
  intros w.
  assert (Hin : answered (RT := Sample.runtime) (stdin w) nl nl).
  { exists [], []. split; [reflexivity|].
    split; [constructor | vm_compute; reflexivity]. }
  assert (Hwf : well_formed_answer w
                  (query_url Day03.api_url (lit "demo") (lit "IBM"))
                  Sample.daily_series).
  { exists (Sample.ok_response (Ok Sample.daily_series)).
    repeat split; vm_compute; reflexivity. }
  assert (Hfree : unhindered Sample.ibm_file w).
  { repeat split; reflexivity. }
  split; [exact Hin|]. split; [exact Hwf|]. split; [exact Hfree|].
  destruct (well_formed_answer_is_saved_unmodified (RT := Sample.runtime)
              w nl nl Sample.daily_series Hin Hwf Hfree)
    as (wi & wf' & ws & w' & _ & _ & _ & _ & Hrun & _ & Hfiles).
  exists w'. split; [exact Hrun|].
  rewrite Hfiles. apply lookup_insert_eq.
Defined.
